(** * Projects, grants and visibility: the store operations of [app/crud.py]
      and the endpoints of [app/routes/projects.py]

    The tables of [app/models.py] are finite maps from primary key to the
    remaining columns, a SQLAlchemy session is a state of pending work over
    an open transaction, and every function of [crud.py] and every endpoint
    is a computation in a state-and-exception monad over that session. *)

From Stdlib Require Import ZArith.
From stdpp Require Import gmap strings list fin_maps pretty.

(** ** Rows ([app/models.py]) *)

(** A [DateTime] column: seconds on the server's clock; [None] is NULL. *)
Abbreviation DateTime := (option Z) (only parsing).

Module User.
Record cols := Cols {
  username : string;
  email : option string;
  created_at : DateTime;
  updated_at : DateTime }.
Record t := Row { id : Z; row :> cols }.
End User.
Coercion User.row : User.t >-> User.cols.

Module Project.
Record cols := Cols {
  name : string;
  description : option string;
  image_path : option string;
  is_public : bool;
  created_at : DateTime;
  updated_at : DateTime }.
Record t := Row { id : Z; row :> cols }.
End Project.
Coercion Project.row : Project.t >-> Project.cols.

Module UserProjectPermission.
Record cols := Cols {
  permission_level : string;
  created_at : DateTime;
  updated_at : DateTime }.
Record t := Row { user_id : Z; project_id : Z; row :> cols }.
Definition key (p : t) : Z * Z := (user_id p, project_id p).
End UserProjectPermission.
Coercion UserProjectPermission.row :
  UserProjectPermission.t >-> UserProjectPermission.cols.

(** The three tables. The key of a map is the table's primary key: [id] for
    [users] and [projects], the pair [(user_id, project_id)] for
    [user_project_permissions]. *)
Record Tables := {
  users : gmap Z User.cols;
  projects : gmap Z Project.cols;
  user_project_permissions : gmap (Z * Z) UserProjectPermission.cols }.

Definition set_projects (f : gmap Z Project.cols → gmap Z Project.cols)
    (db : Tables) : Tables :=
  {| users := users db; projects := f (projects db);
     user_project_permissions := user_project_permissions db |}.

Definition set_permissions
    (f : gmap (Z * Z) UserProjectPermission.cols →
         gmap (Z * Z) UserProjectPermission.cols)
    (db : Tables) : Tables :=
  {| users := users db; projects := projects db;
     user_project_permissions := f (user_project_permissions db) |}.

(** ** Request bodies ([app/schemas.py]) *)

(** A value of a body field, as [model_dump] hands it to [setattr]. *)
Inductive value :=
  | VStr (s : string)
  | VOptStr (s : option string)
  | VBool (b : bool).

Module ProjectBase.
(** [name] is required; for the three fields with a default the outer
    [option] tells whether the caller set the field (pydantic's
    [model_fields_set]), so [Some None] is an explicit null. *)
Record t := Body {
  name : string;
  description : option (option string);
  image_path : option (option string);
  is_public : option bool }.

(** The attributes read as [project.description], [project.is_public]:
    the default where the field was not set. *)
Definition get_description (b : t) : option string :=
  default None (description b).
Definition get_is_public (b : t) : bool := default false (is_public b).

(** [model_dump(exclude_unset=True).items()], in the order of the class. *)
Definition model_dump_exclude_unset (b : t) : list (string * value) :=
  [("name", VStr (name b))]
  ++ from_option (λ v, [("description", VOptStr v)]) [] (description b)
  ++ from_option (λ v, [("image_path", VOptStr v)]) [] (image_path b)
  ++ from_option (λ v, [("is_public", VBool v)]) [] (is_public b).
End ProjectBase.

Arguments ProjectBase.model_dump_exclude_unset : simpl never.

(** [ProjectCreate(ProjectBase): pass] *)
Abbreviation ProjectCreate := ProjectBase.t (only parsing).

Module UserProjectPermissionCreate.
(** [UserProjectPermissionBase], and [UserProjectPermissionCreate] which
    adds nothing: [permission_level] is any [str]. *)
Record t := Body {
  user_id : Z;
  project_id : Z;
  permission_level : string }.
End UserProjectPermissionCreate.

(** ** The session ([app/db.py]) *)

Inductive exn :=
  | IntegrityError
  | StaleDataError
  | InvalidRequestError
  | HTTPException (status_code : Z) (detail : string).

Inductive outcome (A : Type) :=
  | Return (a : A)
  | Raise (e : exn).
Arguments Return {A} a.
Arguments Raise {A} e.

(** What a session holds for the next flush. *)
Inductive pending :=
  | New_permission (p : UserProjectPermission.t)
  | Dirty_project (p : Project.t)
  | Dirty_permission (p : UserProjectPermission.t)
  | Deleted_project (p : Project.t)
  | Deleted_permission (p : UserProjectPermission.t).

(** [stored] is what committed transactions left in the database, [txn]
    what the open transaction sees, [work] the unit of work not yet
    flushed ([autoflush=False]: queries do not see it). [foreign_keys]
    tells whether the engine enforces the [ForeignKey] constraints of
    [models.py] (PostgreSQL, the default URL of [db.py], does; SQLite as
    [db.py] opens it under TESTING does not); [now] is what [func.now()]
    yields in this transaction. *)
Record Session := {
  stored : Tables;
  txn : Tables;
  work : list pending;
  foreign_keys : bool;
  now : Z }.

Definition with_txn (f : Tables → Tables) (s : Session) : Session :=
  {| stored := stored s; txn := f (txn s); work := work s;
     foreign_keys := foreign_keys s; now := now s |}.

Definition with_work (f : list pending → list pending) (s : Session)
    : Session :=
  {| stored := stored s; txn := txn s; work := f (work s);
     foreign_keys := foreign_keys s; now := now s |}.

(** ROLLBACK: the transaction and the unit of work are dropped. *)
Definition rollback (s : Session) : Session :=
  {| stored := stored s; txn := stored s; work := [];
     foreign_keys := foreign_keys s; now := now s |}.

(** COMMIT of a flushed transaction. *)
Definition committed (s : Session) : Session :=
  {| stored := txn s; txn := txn s; work := [];
     foreign_keys := foreign_keys s; now := now s |}.

Definition M (A : Type) : Type := Session → outcome A * Session.

Definition ret {A} (a : A) : M A := λ s, (Return a, s).
Definition raise {A} (e : exn) : M A := λ s, (Raise e, s).
Definition bind {A B} (k : A → M B) (m : M A) : M B :=
  λ s, match m s with
       | (Return a, s') => k a s'
       | (Raise e, s') => (Raise e, s')
       end.

(** stdpp's monad notation: [x ← m; k] and [m;; k]. *)
#[global] Instance M_ret : MRet M := @ret.
#[global] Instance M_bind : MBind M := @bind.

(** The [get_db] dependency around one request: a fresh [session] on the
    database, the handler, and [finally: db.close()], which drops whatever
    the handler left uncommitted. *)
Definition session (fk : bool) (clock : Z) (db : Tables) : Session :=
  {| stored := db; txn := db; work := [];
     foreign_keys := fk; now := clock |}.

Definition get_db {A} (fk : bool) (clock : Z) (handler : M A) (db : Tables)
    : outcome A * Tables :=
  let '(r, s') := handler (session fk clock db) in (r, stored s').

(** *** Queries *)

Definition rows_User (db : Tables) : list User.t :=
  (λ kv, User.Row kv.1 kv.2) <$> map_to_list (users db).
Definition rows_Project (db : Tables) : list Project.t :=
  (λ kv, Project.Row kv.1 kv.2) <$> map_to_list (projects db).
Definition rows_UserProjectPermission (db : Tables)
    : list UserProjectPermission.t :=
  (λ kv, UserProjectPermission.Row kv.1.1 kv.1.2 kv.2)
    <$> map_to_list (user_project_permissions db).

Arguments rows_User : simpl never.
Arguments rows_Project : simpl never.
Arguments rows_UserProjectPermission : simpl never.

(** [db.query(models.X)]: the rows of the table as the open transaction
    sees them, in the store's order of iteration. [.filter(P).all()] is
    [filter P] on that list and [.filter(P).first()] its [head]. *)
Definition query_User : M (list User.t) :=
  λ s, (Return (rows_User (txn s)), s).
Definition query_Project : M (list Project.t) :=
  λ s, (Return (rows_Project (txn s)), s).
Definition query_UserProjectPermission : M (list UserProjectPermission.t) :=
  λ s, (Return (rows_UserProjectPermission (txn s)), s).

(** *** The unit of work *)

(** The id the store gives a new project: one more than the largest id of
    the table, and 1 for an empty table (the rule of SQLite's rowid; a
    sequence gives another number, which is not in the table either). *)
Definition next_id (m : gmap Z Project.cols) : Z :=
  (1 + foldr Z.max 0 (map_to_list m).*1)%Z.

Arguments next_id : simpl never.

(** The columns of a project a request can write. *)
Definition same_columns (a b : Project.cols) : bool :=
  bool_decide (Project.name a = Project.name b
               ∧ Project.description a = Project.description b
               ∧ Project.image_path a = Project.image_path b
               ∧ Project.is_public a = Project.is_public b).

Arguments same_columns : simpl never.

(** One statement of a flush.
    - INSERT of a permission: the primary key must be free and, where the
      engine enforces them, both foreign keys must resolve;
      [created_at] takes its server default, [updated_at] stays NULL.
    - UPDATE: emitted only for a net change, and then [onupdate] sets
      [updated_at]; an UPDATE that finds no row is stale.
    - DELETE of a project: refused by an enforcing engine while a
      permission row still references it. *)
Definition flush_one (fk : bool) (clock : Z) (db : Tables) (w : pending)
    : outcome Tables :=
  match w with
  | New_permission p =>
      let k := UserProjectPermission.key p in
      if bool_decide (is_Some (user_project_permissions db !! k))
      then Raise IntegrityError
      else if fk && negb (bool_decide (is_Some (users db !! k.1))
                          && bool_decide (is_Some (projects db !! k.2)))
      then Raise IntegrityError
      else Return (set_permissions
        (insert k (UserProjectPermission.Cols
           (UserProjectPermission.permission_level p) (Some clock) None)) db)
  | Dirty_project p =>
      match projects db !! Project.id p with
      | Some old =>
          if same_columns old p then Return db
          else Return (set_projects
            (insert (Project.id p) (Project.Cols
               (Project.name p) (Project.description p)
               (Project.image_path p) (Project.is_public p)
               (Project.created_at old) (Some clock))) db)
      | None => Raise StaleDataError
      end
  | Dirty_permission p =>
      let k := UserProjectPermission.key p in
      match user_project_permissions db !! k with
      | Some old =>
          if bool_decide (UserProjectPermission.permission_level old
                          = UserProjectPermission.permission_level p)
          then Return db
          else Return (set_permissions
            (insert k (UserProjectPermission.Cols
               (UserProjectPermission.permission_level p)
               (UserProjectPermission.created_at old) (Some clock))) db)
      | None => Raise StaleDataError
      end
  | Deleted_project p =>
      if fk && bool_decide (Exists (λ q, UserProjectPermission.project_id q
                                          = Project.id p)
                              (rows_UserProjectPermission db))
      then Raise IntegrityError
      else Return (set_projects (delete (Project.id p)) db)
  | Deleted_permission p =>
      Return (set_permissions (delete (UserProjectPermission.key p)) db)
  end.

(** The statements of a flush, in the order the work was recorded (no
    function of [crud.py] records more than one before it commits). *)
Fixpoint flush_all (fk : bool) (clock : Z) (db : Tables) (ws : list pending)
    : outcome Tables :=
  match ws with
  | [] => Return db
  | w :: ws' =>
      match flush_one fk clock db w with
      | Return db' => flush_all fk clock db' ws'
      | Raise e => Raise e
      end
  end.

(** [db.flush()]: the pending work goes to the open transaction; a refused
    statement rolls the transaction back and raises. *)
Definition flush : M unit :=
  λ s, match flush_all (foreign_keys s) (now s) (txn s) (work s) with
       | Return db => (Return (), with_work (λ _, []) (with_txn (λ _, db) s))
       | Raise e => (Raise e, rollback s)
       end.

(** [db.commit()] *)
Definition commit : M unit :=
  flush;; ((λ s, (Return (), committed s)) : M unit).

(** [db.add(db_project); db.flush()] for a new project: the INSERT takes
    the next id, [created_at] its server default, and the object comes
    back with its id. *)
Definition add_flush_Project (name : string) (description : option string)
    (is_public : bool) : M Project.t :=
  flush;;
  ((λ s, let c := Project.Cols name description None is_public
                    (Some (now s)) None in
         let i := next_id (projects (txn s)) in
         (Return (Project.Row i c), with_txn (set_projects (insert i c)) s))
   : M Project.t).

(** [db.add(obj)], a changed attribute of a loaded object, [db.delete(obj)]:
    recorded for the next flush. *)
Definition add (w : pending) : M unit :=
  λ s, (Return (), with_work (λ ws, ws ++ [w]) s).

(** [db.query(models.UserProjectPermission).filter(project_id == i).delete()]:
    a DELETE statement issued at once in the open transaction. *)
Definition delete_permissions_where_project (i : Z) : M unit :=
  λ s, (Return (),
        with_txn (set_permissions
          (filter (λ kv : Z * Z * UserProjectPermission.cols,
                     kv.1.2 ≠ i))) s).

(** [db.refresh(obj)]: the row is read again by primary key. *)
Definition refresh_Project (p : Project.t) : M Project.t :=
  λ s, match projects (txn s) !! Project.id p with
       | Some c => (Return (Project.Row (Project.id p) c), s)
       | None => (Raise InvalidRequestError, s)
       end.

Definition refresh_UserProjectPermission (p : UserProjectPermission.t)
    : M UserProjectPermission.t :=
  λ s, match user_project_permissions (txn s)
               !! UserProjectPermission.key p with
       | Some c => (Return (UserProjectPermission.Row
                              (UserProjectPermission.user_id p)
                              (UserProjectPermission.project_id p) c), s)
       | None => (Raise InvalidRequestError, s)
       end.

(** *** Users and pages *)

Definition set_users (f : gmap Z User.cols → gmap Z User.cols)
    (db : Tables) : Tables :=
  {| users := f (users db); projects := projects db;
     user_project_permissions := user_project_permissions db |}.

(** The id the store gives a new user, by the rule of [next_id]. *)
Definition next_user_id (m : gmap Z User.cols) : Z :=
  (1 + foldr Z.max 0 (map_to_list m).*1)%Z.

Arguments next_user_id : simpl never.

(** Whether the unique indexes of [users] refuse a row: [username] is
    unique, and so is [email], where NULLs do not collide. *)
Definition user_collides (db : Tables) (username : string)
    (email : option string) : bool :=
  bool_decide (Exists (λ u : User.t, User.username u = username)
                      (rows_User db))
  || from_option
       (λ e, bool_decide (Exists (λ u : User.t, User.email u = Some e)
                                 (rows_User db)))
       false email.

(** [db.add(db_user)] and the INSERT that the flush of the commit after it
    emits: refused by a unique index, or taken with the next id and
    [created_at] at its server default. *)
Definition add_flush_User (username : string) (email : option string)
    : M User.t :=
  flush;;
  ((λ s, if user_collides (txn s) username email
         then (Raise IntegrityError, rollback s)
         else
           let c := User.Cols username email (Some (now s)) None in
           let i := next_user_id (users (txn s)) in
           (Return (User.Row i c), with_txn (set_users (insert i c)) s))
   : M User.t).

Definition refresh_User (u : User.t) : M User.t :=
  λ s, match users (txn s) !! User.id u with
       | Some c => (Return (User.Row (User.id u) c), s)
       | None => (Raise InvalidRequestError, s)
       end.

(** [.offset(skip).limit(limit)] on the rows of a query. A negative
    [skip] is no offset and a negative [limit] no limit (SQLite's reading;
    PostgreSQL refuses a negative value). *)
Definition offset_limit {A} (skip limit : Z) (rows : list A) : list A :=
  let rest := drop (Z.to_nat skip) rows in
  if bool_decide (limit < 0)%Z then rest else take (Z.to_nat limit) rest.

Module UserCreate.
(** [UserBase], and [UserCreate] which adds nothing. *)
Record t := Body {
  username : string;
  email : option string }.
End UserCreate.

(** ** [app/crud.py] *)

(** What [get_user_projects] returns for one project: the dictionary built
    by hand in its loop. *)
Record project_data := {
  pd_id : Z;
  pd_name : string;
  pd_description : option string;
  pd_image_path : option string;
  pd_is_public : bool;
  pd_created_at : DateTime;
  pd_updated_at : DateTime;
  pd_permission_level : string }.

(** [setattr(db_project, key, value)] on the keys a [ProjectBase] dumps. *)
Definition setattr (p : Project.t) (key : string) (v : value) : Project.t :=
  let c := Project.row p in
  let upd n d i b :=
    Project.Row (Project.id p)
      (Project.Cols n d i b (Project.created_at c) (Project.updated_at c)) in
  match v with
  | VStr s =>
      if bool_decide (key = "name")
      then upd s (Project.description c) (Project.image_path c)
               (Project.is_public c)
      else p
  | VOptStr o =>
      if bool_decide (key = "description")
      then upd (Project.name c) o (Project.image_path c) (Project.is_public c)
      else if bool_decide (key = "image_path")
      then upd (Project.name c) (Project.description c) o
               (Project.is_public c)
      else p
  | VBool b =>
      if bool_decide (key = "is_public")
      then upd (Project.name c) (Project.description c)
               (Project.image_path c) b
      else p
  end.

Arguments setattr : simpl never.

(** [{perm.project_id: perm.permission_level for perm in perms}]: a later
    row of the same key replaces an earlier one. *)
Definition permission_dict_of (perms : list UserProjectPermission.t)
    : gmap Z string :=
  foldl (λ d perm, <[UserProjectPermission.project_id perm
                     := UserProjectPermission.permission_level perm]> d)
        ∅ perms.

Module crud.

Definition get_user (user_id : Z) : M (option User.t) :=
  rows ← query_User;
  mret (head (filter (λ u : User.t, User.id u = user_id) rows)).

Definition get_project (project_id : Z) : M (option Project.t) :=
  rows ← query_Project;
  mret (head (filter (λ p : Project.t, Project.id p = project_id) rows)).

Definition create_project (project : ProjectCreate) (user_id : Z)
    : M Project.t :=
  db_project ← add_flush_Project (ProjectBase.name project)
                 (ProjectBase.get_description project)
                 (ProjectBase.get_is_public project);
  (* Add the creating user as admin *)
  let db_permission :=
    UserProjectPermission.Row user_id (Project.id db_project)
      (UserProjectPermission.Cols "admin" None None) in
  add (New_permission db_permission);;
  commit;;
  refresh_Project db_project.

Definition update_project (project_id : Z) (project_update : ProjectBase.t)
    : M (option Project.t) :=
  rows ← query_Project;
  match head (filter (λ p : Project.t, Project.id p = project_id) rows) with
  | Some db_project =>
      let db_project :=
        foldl (λ obj kv, setattr obj kv.1 kv.2) db_project
              (ProjectBase.model_dump_exclude_unset project_update) in
      add (Dirty_project db_project);;
      commit;;
      db_project ← refresh_Project db_project;
      mret (Some db_project)
  | None => mret None
  end.

Definition delete_project (project_id : Z) : M (option Project.t) :=
  rows ← query_Project;
  match head (filter (λ p : Project.t, Project.id p = project_id) rows) with
  | Some db_project =>
      (* Delete associated permissions first *)
      delete_permissions_where_project project_id;;
      add (Deleted_project db_project);;
      commit;;
      mret (Some db_project)
  | None => mret None
  end.

Definition get_user_projects (user_id : Z) : M (list project_data) :=
  (* Query 1: ids of the projects the user has explicit permissions on *)
  perms ← query_UserProjectPermission;
  let user_project_ids :=
    UserProjectPermission.project_id
      <$> filter (λ q : UserProjectPermission.t, UserProjectPermission.user_id q = user_id) perms in
  let nonempty := negb (bool_decide (user_project_ids = [])) in
  (* Query 2: public projects the user has no permission row for *)
  rows ← query_Project;
  let not_in_ids : Project.t → bool :=
    if nonempty
    then λ p, negb (bool_decide (Project.id p ∈ user_project_ids))
    else λ _, true in
  let public_projects :=
    filter (λ p : Project.t, Project.is_public p = true
                             ∧ not_in_ids p = true) rows in
  (* Query 3: the projects of the explicit permissions *)
  rows ← query_Project;
  let permission_projects :=
    if nonempty then filter (λ p : Project.t, Project.id p ∈ user_project_ids) rows
    else [] in
  (* Combine the results *)
  let projects := permission_projects ++ public_projects in
  perms ← query_UserProjectPermission;
  let user_permissions :=
    filter (λ q : UserProjectPermission.t, UserProjectPermission.user_id q = user_id) perms in
  let permission_dict := permission_dict_of user_permissions in
  (* Attach permission level to projects *)
  mret ((λ project : Project.t,
           {| pd_id := Project.id project;
              pd_name := Project.name project;
              pd_description := Project.description project;
              pd_image_path := Project.image_path project;
              pd_is_public := Project.is_public project;
              pd_created_at := Project.created_at project;
              pd_updated_at := Project.updated_at project;
              pd_permission_level :=
                default "public_access"
                        (permission_dict !! Project.id project) |})
        <$> projects).

Definition get_user_project_permission (user_id project_id : Z)
    : M (option UserProjectPermission.t) :=
  perms ← query_UserProjectPermission;
  mret (head (filter (λ q : UserProjectPermission.t, UserProjectPermission.user_id q = user_id
                           ∧ UserProjectPermission.project_id q = project_id)
                     perms)).

Definition create_user_project_permission
    (permission : UserProjectPermissionCreate.t)
    : M UserProjectPermission.t :=
  let db_permission :=
    UserProjectPermission.Row
      (UserProjectPermissionCreate.user_id permission)
      (UserProjectPermissionCreate.project_id permission)
      (UserProjectPermission.Cols
         (UserProjectPermissionCreate.permission_level permission)
         None None) in
  add (New_permission db_permission);;
  commit;;
  refresh_UserProjectPermission db_permission.

Definition update_user_project_permission (user_id project_id : Z)
    (permission_level : string) : M (option UserProjectPermission.t) :=
  perms ← query_UserProjectPermission;
  match head (filter (λ q : UserProjectPermission.t, UserProjectPermission.user_id q = user_id
                           ∧ UserProjectPermission.project_id q = project_id)
                     perms) with
  | Some db_permission =>
      let db_permission :=
        UserProjectPermission.Row
          (UserProjectPermission.user_id db_permission)
          (UserProjectPermission.project_id db_permission)
          (UserProjectPermission.Cols permission_level
             (UserProjectPermission.created_at db_permission)
             (UserProjectPermission.updated_at db_permission)) in
      add (Dirty_permission db_permission);;
      commit;;
      db_permission ← refresh_UserProjectPermission db_permission;
      mret (Some db_permission)
  | None => mret None
  end.

Definition delete_user_project_permission (user_id project_id : Z)
    : M (option UserProjectPermission.t) :=
  perms ← query_UserProjectPermission;
  match head (filter (λ q : UserProjectPermission.t, UserProjectPermission.user_id q = user_id
                           ∧ UserProjectPermission.project_id q = project_id)
                     perms) with
  | Some db_permission =>
      add (Deleted_permission db_permission);;
      commit;;
      mret (Some db_permission)
  | None => mret None
  end.

Definition get_user_by_username (username : string) : M (option User.t) :=
  rows ← query_User;
  mret (head (filter (λ u : User.t, User.username u = username) rows)).

Definition get_users (skip limit : Z) : M (list User.t) :=
  rows ← query_User;
  mret (offset_limit skip limit rows).

Definition create_user (user : UserCreate.t) : M User.t :=
  db_user ← add_flush_User (UserCreate.username user)
              (UserCreate.email user);
  commit;;
  refresh_User db_user.

Definition get_projects (skip limit : Z) : M (list Project.t) :=
  rows ← query_Project;
  mret (offset_limit skip limit rows).

End crud.

(** ** [app/services/user_project_service] *)

Module user_project_service.
(** Modelled from the spec: the module [app.services.user_project_service]
    that [routes/projects.py] imports is not among the sources. The routes
    call it with the names and the arguments of [crud.py], and the spec has
    the boundary call the engine's operations directly, so every function
    of the service is the function of [crud.py] of the same name. *)
Definition get_user := crud.get_user.
Definition get_project := crud.get_project.
Definition create_project := crud.create_project.
Definition update_project := crud.update_project.
Definition delete_project := crud.delete_project.
Definition get_user_projects := crud.get_user_projects.
Definition get_user_project_permission := crud.get_user_project_permission.
Definition create_user_project_permission :=
  crud.create_user_project_permission.
Definition update_user_project_permission :=
  crud.update_user_project_permission.
Definition delete_user_project_permission :=
  crud.delete_user_project_permission.
Definition get_user_by_username := crud.get_user_by_username.
Definition get_users := crud.get_users.
Definition create_user := crud.create_user.
Definition get_projects := crud.get_projects.
End user_project_service.

(** ** [app/routes/projects.py]

    An endpoint is the computation of its function: what it returns or
    raises in the session of the request. What FastAPI does with that value
    afterwards (the [response_model], the status line) is not part of it. *)

Module routes.

Definition read_user_projects_endpoint (user_id : Z)
    : M (list project_data) :=
  db_user ← user_project_service.get_user user_id;
  match db_user with
  | None => raise (HTTPException 404 "User not found")
  | Some _ => user_project_service.get_user_projects user_id
  end.

Definition create_project_endpoint (project : ProjectCreate) (user_id : Z)
    : M Project.t :=
  db_user ← user_project_service.get_user user_id;
  match db_user with
  | None => raise (HTTPException 404 "Creating user not found")
  | Some _ => user_project_service.create_project project user_id
  end.

(** [user_id: int = None]; [elif user_id:] is false for [None] and 0. *)
Definition read_project_endpoint (project_id : Z) (user_id : option Z)
    : M Project.t :=
  db_project ← user_project_service.get_project project_id;
  match db_project : option Project.t with
  | None => raise (HTTPException 404 "Project not found")
  | Some db_project =>
      if Project.is_public db_project then mret db_project
      else match user_id with
           | Some user_id =>
               if bool_decide (user_id = 0%Z)
               then raise (HTTPException 403
                 "Project is private, user_id required for access check")
               else
                 permission ← user_project_service
                                .get_user_project_permission
                                user_id project_id;
                 match permission with
                 | Some _ => mret db_project
                 | None => raise (HTTPException 403
                     "User does not have permission to view this project")
                 end
           | None => raise (HTTPException 403
               "Project is private, user_id required for access check")
           end
  end.

Definition update_project_endpoint (project_id : Z)
    (project_update : ProjectBase.t) (user_id : Z) : M Project.t :=
  permission ← user_project_service.get_user_project_permission
                 user_id project_id;
  if match permission : option UserProjectPermission.t with
     | None => true
     | Some permission =>
         bool_decide (UserProjectPermission.permission_level permission
                      ∉ ["admin"; "model_editor"])
     end
  then raise (HTTPException 403
    "User does not have sufficient permissions to update this project")
  else
    db_project ← user_project_service.update_project
                   project_id project_update;
    match db_project with
    | None => raise (HTTPException 404 "Project not found")
    | Some db_project => mret db_project
    end.

Definition delete_project_endpoint (project_id : Z) (user_id : Z)
    : M string :=
  permission ← user_project_service.get_user_project_permission
                 user_id project_id;
  if match permission : option UserProjectPermission.t with
     | None => true
     | Some permission =>
         bool_decide (UserProjectPermission.permission_level permission
                      ≠ "admin")
     end
  then raise (HTTPException 403
    "User does not have sufficient permissions to delete this project")
  else
    db_project ← user_project_service.delete_project project_id;
    match db_project with
    | None => raise (HTTPException 404 "Project not found")
    | Some _ => mret "Project deleted successfully"
    end.

Definition add_project_permission_endpoint (project_id : Z)
    (permission : UserProjectPermissionCreate.t) (admin_user_id : Z)
    : M UserProjectPermission.t :=
  admin_permission ← user_project_service.get_user_project_permission
                       admin_user_id project_id;
  if match admin_permission : option UserProjectPermission.t with
     | None => true
     | Some p =>
         bool_decide (UserProjectPermission.permission_level p ≠ "admin")
     end
  then raise (HTTPException 403
    "User does not have admin permissions on this project")
  else
    (* Check if the project and user to add exist *)
    db_project ← user_project_service.get_project project_id;
    db_user_to_add ← user_project_service.get_user
                       (UserProjectPermissionCreate.user_id permission);
    if bool_decide (db_project = None)
    then raise (HTTPException 404 "Project not found")
    else if bool_decide (db_user_to_add = None)
    then raise (HTTPException 404 "User to add not found")
    else
      (* Check if permission already exists *)
      existing_permission ←
        user_project_service.get_user_project_permission
          (UserProjectPermissionCreate.user_id permission) project_id;
      if bool_decide (existing_permission ≠ None)
      then raise (HTTPException 409
        "User already has permissions for this project")
      else user_project_service.create_user_project_permission permission.

Definition update_project_permission_endpoint (project_id user_id : Z)
    (permission_update : UserProjectPermissionCreate.t) (admin_user_id : Z)
    : M UserProjectPermission.t :=
  admin_permission ← user_project_service.get_user_project_permission
                       admin_user_id project_id;
  if match admin_permission : option UserProjectPermission.t with
     | None => true
     | Some p =>
         bool_decide (UserProjectPermission.permission_level p ≠ "admin")
     end
  then raise (HTTPException 403
    "User does not have admin permissions on this project")
  else
    db_permission ← user_project_service.update_user_project_permission
      user_id project_id
      (UserProjectPermissionCreate.permission_level permission_update);
    match db_permission with
    | None => raise (HTTPException 404
        "User permission not found for this project")
    | Some db_permission => mret db_permission
    end.

Definition remove_project_permission_endpoint
    (project_id user_id admin_user_id : Z) : M string :=
  admin_permission ← user_project_service.get_user_project_permission
                       admin_user_id project_id;
  if match admin_permission : option UserProjectPermission.t with
     | None => true
     | Some p =>
         bool_decide (UserProjectPermission.permission_level p ≠ "admin")
     end
  then raise (HTTPException 403
    "User does not have admin permissions on this project")
  else
    db_permission ← user_project_service.delete_user_project_permission
                      user_id project_id;
    match db_permission with
    | None => raise (HTTPException 404
        "User permission not found for this project")
    | Some _ => mret "User permission removed successfully"
    end.

Definition create_user_endpoint (user : UserCreate.t) : M User.t :=
  db_user ← user_project_service.get_user_by_username
              (UserCreate.username user);
  match db_user with
  | Some _ => raise (HTTPException 400 "Username already registered")
  | None => user_project_service.create_user user
  end.

Definition read_users_endpoint (skip limit : Z) : M (list User.t) :=
  user_project_service.get_users skip limit.

Definition read_user_endpoint (user_id : Z) : M User.t :=
  db_user ← user_project_service.get_user user_id;
  match db_user with
  | None => raise (HTTPException 404 "User not found")
  | Some db_user => mret db_user
  end.

End routes.

(** ** [app/schemas.py]: the response models

    [created_at: datetime] and [updated_at: datetime] take no [None];
    [model_validate] with [from_attributes=True] reads the fields off the
    row and fails where a required one is NULL. *)

Module models.
Module User := User.
Module Project := Project.
Module UserProjectPermission := UserProjectPermission.
End models.

Module schemas.

Module User.
Record t := Model {
  username : string;
  email : option string;
  id : Z;
  created_at : Z;
  updated_at : Z }.

Definition model_validate (u : models.User.t) : option t :=
  created_at ← models.User.created_at u;
  updated_at ← models.User.updated_at u;
  Some (Model (models.User.username u) (models.User.email u)
          (models.User.id u) created_at updated_at).
End User.

Module Project.
Record t := Model {
  name : string;
  description : option string;
  is_public : bool;
  id : Z;
  image_path : option string;
  created_at : Z;
  updated_at : Z;
  permission_level : option string }.

(** A row has no attribute [permission_level]: the field takes its
    default. *)
Definition model_validate (p : models.Project.t) : option t :=
  created_at ← models.Project.created_at p;
  updated_at ← models.Project.updated_at p;
  Some (Model (models.Project.name p) (models.Project.description p)
          (models.Project.is_public p) (models.Project.id p)
          (models.Project.image_path p) created_at updated_at None).
End Project.

Module UserProjectPermission.
Record t := Model {
  user_id : Z;
  project_id : Z;
  permission_level : string;
  created_at : Z;
  updated_at : Z }.

Definition model_validate (q : models.UserProjectPermission.t)
    : option t :=
  created_at ← models.UserProjectPermission.created_at q;
  updated_at ← models.UserProjectPermission.updated_at q;
  Some (Model (models.UserProjectPermission.user_id q)
          (models.UserProjectPermission.project_id q)
          (models.UserProjectPermission.permission_level q)
          created_at updated_at).
End UserProjectPermission.

End schemas.

(** ** [app/routes/ocr.py] *)

(** The dictionary the endpoint returns. *)
Record upload_response := {
  message : string;
  project_id : Z;
  image_path : string }.

(** [if saved_image_path.exists(): saved_image_path.unlink()], on the set
    of the paths of the disk. *)
Definition unlink_if_exists (path : string) (disk : gset string)
    : gset string :=
  if bool_decide (path ∈ disk) then disk ∖ {[path]} else disk.

Section ocr.
(** [file_handler.save_uploaded_image] is taken as a function of the
    upload and the disk that returns the path it wrote to or raises, and
    [str] as the text Python gives an exception. *)
Context {UploadFile : Type}.
Variable save_uploaded_image :
  UploadFile → gset string → outcome string * gset string.
Variable str : exn → string.

Definition upload_image_and_create_project (file : UploadFile) (user_id : Z)
    (project_name : string) (project_description : option string)
    (is_public : bool) (disk : gset string) (db : Session)
    : outcome upload_response * (gset string * Session) :=
  (* 1. Save the uploaded image *)
  match save_uploaded_image file disk with
  | (Raise (HTTPException status_code detail), disk) =>
      (Raise (HTTPException status_code detail), (disk, db))
  | (Raise e, disk) =>
      (Raise (HTTPException 500 ("Failed to save image: " +:+ str e)),
       (disk, db))
  | (Return saved_image_path, disk) =>
      (* 2. Create a new project entry in the database *)
      let except (e : exn) (disk : gset string) (db : Session) :=
        (Raise (HTTPException 500 ("Failed to create project: " +:+ str e)),
         (unlink_if_exists saved_image_path disk, db)) in
      match user_project_service.get_user user_id db with
      | (Raise e, db) => except e disk db
      | (Return None, db) =>
          except (HTTPException 404 "User not found")
                 (unlink_if_exists saved_image_path disk) db
      | (Return (Some _), db) =>
          let project_create_schema :=
            ProjectBase.Body project_name (Some project_description)
              (Some (Some saved_image_path)) (Some is_public) in
          match user_project_service.create_project
                  project_create_schema user_id db with
          | (Raise e, db) => except e disk db
          | (Return db_project, db) =>
              (Return {| message :=
                           "Image uploaded and project created successfully";
                         project_id := Project.id db_project;
                         image_path := saved_image_path |},
               (disk, db))
          end
      end
  end.

(** The request: the endpoint in a session of [get_db]. *)
Definition upload_request (fk : bool) (clock : Z) (file : UploadFile)
    (user_id : Z) (project_name : string)
    (project_description : option string) (is_public : bool)
    (disk : gset string) (db : Tables)
    : outcome upload_response * gset string * Tables :=
  let '(r, (disk, s)) :=
    upload_image_and_create_project file user_id project_name
      project_description is_public disk (session fk clock db) in
  (r, disk, stored s).

End ocr.

(** ** Vocabulary of the statements *)

(** A row of a table from its entry in the map. *)
Definition mk_User (kv : Z * User.cols) : User.t := User.Row kv.1 kv.2.
Definition mk_Project (kv : Z * Project.cols) : Project.t :=
  Project.Row kv.1 kv.2.
Definition mk_Permission (kv : Z * Z * UserProjectPermission.cols)
    : UserProjectPermission.t :=
  UserProjectPermission.Row kv.1.1 kv.1.2 kv.2.

(** The dictionary [get_user_projects] builds for project [p] with the
    given [permission_level]. *)
Definition listed (p : Project.t) (level : string) : project_data :=
  {| pd_id := Project.id p;
     pd_name := Project.name p;
     pd_description := Project.description p;
     pd_image_path := Project.image_path p;
     pd_is_public := Project.is_public p;
     pd_created_at := Project.created_at p;
     pd_updated_at := Project.updated_at p;
     pd_permission_level := level |}.

(** The level of the grant user [u] holds on project [i], if any. *)
Definition grant_of (db : Tables) (u i : Z) : option string :=
  UserProjectPermission.permission_level
    <$> user_project_permissions db !! (u, i).

Definition explicit_projects (db : Tables) (u : Z) : list Project.t :=
  filter (λ p : Project.t, is_Some (grant_of db u (Project.id p)))
         (rows_Project db).

Definition public_only_projects (db : Tables) (u : Z) : list Project.t :=
  filter (λ p : Project.t, Project.is_public p = true
                           ∧ grant_of db u (Project.id p) = None)
         (rows_Project db).

(** What [get_user_projects] computes, written on the tables. *)
Definition visible (db : Tables) (u : Z) : list project_data :=
  (λ p : Project.t,
     listed p (default "public_access" (grant_of db u (Project.id p))))
  <$> (explicit_projects db u ++ public_only_projects db u).

(** The columns of a project after the [setattr] loop of [update_project]:
    a field the body sets takes the body's value, any other keeps its own. *)
Definition patched (c : Project.cols) (b : ProjectBase.t) : Project.cols :=
  Project.Cols (ProjectBase.name b)
    (default (Project.description c) (ProjectBase.description b))
    (default (Project.image_path c) (ProjectBase.image_path b))
    (default (Project.is_public c) (ProjectBase.is_public b))
    (Project.created_at c) (Project.updated_at c).

(** The row the UPDATE of a flush leaves: untouched without a net change,
    else the new columns with [updated_at] set by [onupdate]. *)
Definition stamped (clock : Z) (old new : Project.cols) : Project.cols :=
  if same_columns old new then old
  else Project.Cols (Project.name new) (Project.description new)
         (Project.image_path new) (Project.is_public new)
         (Project.created_at old) (Some clock).

Definition releveled (clock : Z) (old : UserProjectPermission.cols)
    (level : string) : UserProjectPermission.cols :=
  if bool_decide (UserProjectPermission.permission_level old = level)
  then old
  else UserProjectPermission.Cols level
         (UserProjectPermission.created_at old) (Some clock).

(** The tables after [delete_project i] found its project. *)
Definition cascaded (i : Z) (db : Tables) : Tables :=
  set_projects (delete i)
    (set_permissions
       (filter (λ kv : Z * Z * UserProjectPermission.cols, kv.1.2 ≠ i)) db).

(** A permission row as its INSERT leaves it. *)
Definition granted (clock : Z) (level : string) : UserProjectPermission.cols :=
  UserProjectPermission.Cols level (Some clock) None.

(** Whether the store takes the INSERT of a permission row for [(u, p)]. *)
Definition insertable (fk : bool) (db : Tables) (u p : Z) : bool :=
  negb (bool_decide (is_Some (user_project_permissions db !! (u, p))))
  && negb (fk && negb (bool_decide (is_Some (users db !! u))
                       && bool_decide (is_Some (projects db !! p)))).

(** The project row [create_project] inserts. *)
Definition bootstrapped (clock : Z) (project : ProjectBase.t) : Project.cols :=
  Project.Cols (ProjectBase.name project)
    (ProjectBase.get_description project) None
    (ProjectBase.get_is_public project) (Some clock) None.

(** Every permission row references a project of the store. *)
Definition grants_reference_projects (db : Tables) : Prop :=
  map_Forall (λ (k : Z * Z) (_ : UserProjectPermission.cols),
                is_Some (projects db !! k.2))
             (user_project_permissions db).

(** Every permission row references a user of the store. *)
Definition grants_reference_users (db : Tables) : Prop :=
  map_Forall (λ (k : Z * Z) (_ : UserProjectPermission.cols),
                is_Some (users db !! k.1))
             (user_project_permissions db).

(** ** The stores of the examples *)

Module scenario.
Definition user (n : string) : User.cols := User.Cols n None (Some 0%Z) None.
Definition project (n : string) (public : bool) : Project.cols :=
  Project.Cols n None None public (Some 0%Z) None.
Definition grant (level : string) : UserProjectPermission.cols :=
  UserProjectPermission.Cols level (Some 0%Z) None.

(** alice (1) created the private project X (1); bob (2) created the
    public project Y (2) and may use the models of X; carol (3) may use
    the models of Y. *)
Definition db0 : Tables :=
  {| users := {[ 1%Z := user "alice"; 2%Z := user "bob";
                 3%Z := user "carol" ]};
     projects := {[ 1%Z := project "X" false; 2%Z := project "Y" true ]};
     user_project_permissions :=
       {[ (1%Z, 1%Z) := grant "admin";
          (2%Z, 1%Z) := grant "user_model_only";
          (2%Z, 2%Z) := grant "admin";
          (3%Z, 2%Z) := grant "user_model_only" ]} |}.

(** A store without foreign keys that kept a permission row of a
    project that is gone. *)
Definition stale : Tables :=
  {| users := {[ 1%Z := user "alice" ]};
     projects := ∅;
     user_project_permissions := {[ (1%Z, 1%Z) := grant "admin" ]} |}.

Definition rename (n : string) : ProjectBase.t :=
  ProjectBase.Body n None None None.
End scenario.

(** A file handler and a text of exceptions for the examples: the handler
    writes every upload under [/uploads/] by its own name; an
    [HTTPException] prints as its status and its detail, and the text of an
    error of the database is cut short. *)
Module upload_scenario.
Definition save (file : string) (disk : gset string)
    : outcome string * gset string :=
  (Return ("/uploads/" +:+ file), {["/uploads/" +:+ file]} ∪ disk).
Definition str (e : exn) : string :=
  match e with
  | HTTPException status_code detail => pretty status_code +:+ ": " +:+ detail
  | IntegrityError => "(sqlalchemy.exc.IntegrityError)"
  | StaleDataError => "(sqlalchemy.orm.exc.StaleDataError)"
  | InvalidRequestError => "(sqlalchemy.exc.InvalidRequestError)"
  end.
End upload_scenario.

(** ** The answers of the endpoints *)

Definition forbidden_update : exn :=
  HTTPException 403
    "User does not have sufficient permissions to update this project".
Definition forbidden_delete : exn :=
  HTTPException 403
    "User does not have sufficient permissions to delete this project".
Definition forbidden_grant : exn :=
  HTTPException 403 "User does not have admin permissions on this project".
Definition project_not_found : exn := HTTPException 404 "Project not found".
Definition conflict : exn :=
  HTTPException 409 "User already has permissions for this project".

Definition permission_not_found : exn :=
  HTTPException 404 "User permission not found for this project".

(** Both invariants can be decided on a given store. *)
#[global] Instance grants_reference_projects_dec (db : Tables) :
  Decision (grants_reference_projects db).
Proof. unfold grants_reference_projects. apply _. Defined.

#[global] Instance grants_reference_users_dec (db : Tables) :
  Decision (grants_reference_users db).
Proof. unfold grants_reference_users. apply _. Defined.

(** The outcome of a request that creates a project for user [u] on the
    store [db]: either it returns the project, which was not in [db], and
    the store is [db] with that project and one new grant [g] of level
    'admin' for [u] on it; or it raises and the store is [db]. *)
Definition bootstrap_or_nothing (u : Z) (db : Tables)
    (out : outcome Project.t * Tables) : Prop :=
  (∃ p g, out.1 = Return p
          ∧ projects db !! Project.id p = None
          ∧ user_project_permissions db !! (u, Project.id p) = None
          ∧ users out.2 = users db
          ∧ projects out.2 = <[Project.id p := Project.row p]> (projects db)
          ∧ user_project_permissions out.2
            = <[(u, Project.id p) := g]> (user_project_permissions db)
          ∧ UserProjectPermission.permission_level g = "admin")
  ∨ (∃ e, out.1 = Raise e ∧ out.2 = db).

(** Every project [db'] has and [db] had not carries an 'admin' grant
    of [u]. *)
Definition no_project_without_admin (u : Z) (db db' : Tables) : Prop :=
  ∀ j, projects db !! j = None → is_Some (projects db' !! j) →
       grant_of db' u j = Some "admin".

(** A request that did not return has written nothing. *)
Definition no_write_on_error {A} (db : Tables) (out : outcome A * Tables)
    : Prop :=
  (∃ a, out.1 = Return a) ∨ out.2 = db.

(** No user holds 'admin' on project [i]. *)
Definition without_admin (db : Tables) (i : Z) : Prop :=
  ∀ u, grant_of db u i ≠ Some "admin".

(** Nobody but [a] holds 'admin' on project [i]. *)
Definition only_admin (db : Tables) (i a : Z) : Prop :=
  ∀ u, grant_of db u i = Some "admin" → u = a.

(** Both are facts about the rows of [user_project_permissions], and can
    be decided row by row. *)
Definition no_admin_row (i : Z) (k : Z * Z)
    (g : UserProjectPermission.cols) : Prop :=
  k.2 = i → UserProjectPermission.permission_level g ≠ "admin".

Definition admin_row_of (i a : Z) (k : Z * Z)
    (g : UserProjectPermission.cols) : Prop :=
  k.2 = i → UserProjectPermission.permission_level g = "admin" → k.1 = a.

(** No row of [users] has been updated. *)
Definition users_never_updated (db : Tables) : Prop :=
  map_Forall (λ (_ : Z) (c : User.cols), User.updated_at c = None) (users db).

#[global] Instance users_never_updated_dec (db : Tables) :
  Decision (users_never_updated db).
Proof. unfold users_never_updated. apply _. Defined.

(** ** Sequences of requests *)

(** A request to an endpoint of [app/routes/projects.py]. *)
Inductive request :=
  | Create_user (user : UserCreate.t)
  | Read_users (skip limit : Z)
  | Read_user (user_id : Z)
  | Read_user_projects (user_id : Z)
  | Create_project (project : ProjectBase.t) (user_id : Z)
  | Read_project (project_id : Z) (user_id : option Z)
  | Update_project (project_id : Z) (project_update : ProjectBase.t)
      (user_id : Z)
  | Delete_project (project_id user_id : Z)
  | Add_permission (project_id : Z)
      (permission : UserProjectPermissionCreate.t) (admin_user_id : Z)
  | Update_permission (project_id user_id : Z)
      (permission_update : UserProjectPermissionCreate.t) (admin_user_id : Z)
  | Remove_permission (project_id user_id admin_user_id : Z).

(** The store after the request, served at time [clock] in a session of
    its own. *)
Definition serve (fk : bool) (clock : Z) (r : request) (db : Tables)
    : Tables :=
  match r with
  | Create_user user =>
      (get_db fk clock (routes.create_user_endpoint user) db).2
  | Read_users skip limit =>
      (get_db fk clock (routes.read_users_endpoint skip limit) db).2
  | Read_user user_id =>
      (get_db fk clock (routes.read_user_endpoint user_id) db).2
  | Read_user_projects user_id =>
      (get_db fk clock (routes.read_user_projects_endpoint user_id) db).2
  | Create_project project user_id =>
      (get_db fk clock (routes.create_project_endpoint project user_id)
         db).2
  | Read_project project_id user_id =>
      (get_db fk clock (routes.read_project_endpoint project_id user_id)
         db).2
  | Update_project project_id project_update user_id =>
      (get_db fk clock
         (routes.update_project_endpoint project_id project_update user_id)
         db).2
  | Delete_project project_id user_id =>
      (get_db fk clock (routes.delete_project_endpoint project_id user_id)
         db).2
  | Add_permission project_id permission admin_user_id =>
      (get_db fk clock
         (routes.add_project_permission_endpoint project_id permission
            admin_user_id) db).2
  | Update_permission project_id user_id permission_update admin_user_id =>
      (get_db fk clock
         (routes.update_project_permission_endpoint project_id user_id
            permission_update admin_user_id) db).2
  | Remove_permission project_id user_id admin_user_id =>
      (get_db fk clock
         (routes.remove_project_permission_endpoint project_id user_id
            admin_user_id) db).2
  end.

(** The store after a sequence of requests, each with its time. *)
Definition serve_all (fk : bool) (requests : list (Z * request))
    (db : Tables) : Tables :=
  foldl (λ db cr, serve fk cr.1 cr.2 db) db requests.

(** Whether the body of a request to add a grant names the project of its
    path; any other request has one project only. *)
Definition keeps_to_its_path (r : request) : bool :=
  match r with
  | Add_permission project_id permission _ =>
      bool_decide
        (UserProjectPermissionCreate.project_id permission = project_id)
  | _ => true
  end.

(** * Properties *)

(** ** Queries by primary key *)

Section by_key.
Context {K : Type} `{Countable K} {V R : Type}.
Variable mk : K * V → R.
Variable key : R → K.
Hypothesis key_mk : ∀ kv, key (mk kv) = kv.1.

Lemma filter_key_list (l : list (K * V)) (k : K) :
  NoDup l.*1 →
  filter (λ r, key r = k) (mk <$> l)
  = from_option (λ v, [mk (k, v)]) [] ((list_to_map l : gmap K V) !! k).
Proof.
  induction l as [|[k0 v0] l IH]; intros Hnd; csimpl.
  - by rewrite lookup_empty.
  - rewrite fmap_cons in Hnd. apply NoDup_cons in Hnd as [Hk0 Hnd].
    rewrite filter_cons, key_mk, (IH Hnd).
    destruct (decide ((k0, v0).1 = k)) as [Heq|Hne]; simpl in *.
    + subst k0. rewrite lookup_insert_eq.
      by rewrite (not_elem_of_list_to_map_1 _ _ Hk0).
    + by rewrite lookup_insert_ne.
Qed.

Lemma filter_key (m : gmap K V) (k : K) :
  filter (λ r, key r = k) (mk <$> map_to_list m)
  = from_option (λ v, [mk (k, v)]) [] (m !! k).
Proof.
  rewrite filter_key_list by apply NoDup_fst_map_to_list.
  by rewrite list_to_map_to_list.
Qed.

Lemma first_key (m : gmap K V) (k : K) :
  head (filter (λ r, key r = k) (mk <$> map_to_list m))
  = (λ v, mk (k, v)) <$> m !! k.
Proof. rewrite filter_key. by destruct (m !! k). Qed.

Lemma elem_of_rows (m : gmap K V) (r : R) :
  r ∈ mk <$> map_to_list m ↔ ∃ v, m !! key r = Some v ∧ r = mk (key r, v).
Proof.
  rewrite list_elem_of_fmap. split.
  - intros ([k v] & -> & Hin). apply elem_of_map_to_list in Hin.
    rewrite key_mk. eauto.
  - intros (v & Hv & Hr). exists (key r, v). split; [done|].
    by apply elem_of_map_to_list.
Qed.

Lemma NoDup_key_rows (m : gmap K V) : NoDup (key <$> (mk <$> map_to_list m)).
Proof.
  rewrite <- list_fmap_compose.
  rewrite (list_fmap_ext (key ∘ mk) fst (map_to_list m)).
  - apply NoDup_fst_map_to_list.
  - intros i x _. apply key_mk.
Qed.
End by_key.

Ltac unfold_M :=
  unfold mbind, mret, M_bind, M_ret, bind, ret, raise in *.

Lemma key_mk_Permission kv : UserProjectPermission.key (mk_Permission kv) = kv.1.
Proof. by destruct kv as [[u p] c]. Qed.

Lemma both_columns_key (q : UserProjectPermission.t) (u p : Z) :
  UserProjectPermission.user_id q = u ∧ UserProjectPermission.project_id q = p
  ↔ UserProjectPermission.key q = (u, p).
Proof.
  unfold UserProjectPermission.key. split.
  - by intros [<- <-].
  - by intros [= <- <-].
Qed.

Lemma get_user_run (i : Z) (s : Session) :
  crud.get_user i s = (Return (User.Row i <$> users (txn s) !! i), s).
Proof.
  unfold crud.get_user, query_User, rows_User. unfold_M. do 2 f_equal.
  apply (first_key mk_User User.id). done.
Qed.

Lemma get_project_run (i : Z) (s : Session) :
  crud.get_project i s
  = (Return (Project.Row i <$> projects (txn s) !! i), s).
Proof.
  unfold crud.get_project, query_Project, rows_Project. unfold_M.
  do 2 f_equal. apply (first_key mk_Project Project.id). done.
Qed.

Lemma first_Project (db : Tables) (i : Z) :
  head (filter (λ p : Project.t, Project.id p = i) (rows_Project db))
  = Project.Row i <$> projects db !! i.
Proof. apply (first_key mk_Project Project.id). done. Qed.

Lemma first_Permission (db : Tables) (u p : Z) :
  head (filter (λ q : UserProjectPermission.t,
                  UserProjectPermission.user_id q = u
                  ∧ UserProjectPermission.project_id q = p)
               (rows_UserProjectPermission db))
  = UserProjectPermission.Row u p <$> user_project_permissions db !! (u, p).
Proof.
  rewrite (list_filter_iff _ (λ q, UserProjectPermission.key q = (u, p)))
    by (intros q; apply both_columns_key).
  apply (first_key mk_Permission UserProjectPermission.key).
  apply key_mk_Permission.
Qed.

Lemma get_user_project_permission_run (u p : Z) (s : Session) :
  crud.get_user_project_permission u p s
  = (Return (UserProjectPermission.Row u p
               <$> user_project_permissions (txn s) !! (u, p)), s).
Proof.
  unfold crud.get_user_project_permission, query_UserProjectPermission.
  unfold_M. by rewrite first_Permission.
Qed.

Lemma elem_of_rows_Project (db : Tables) (p : Project.t) :
  p ∈ rows_Project db ↔ projects db !! Project.id p = Some (Project.row p).
Proof.
  unfold rows_Project.
  rewrite (elem_of_rows mk_Project Project.id) by done. destruct p as [i c].
  unfold mk_Project; simpl. split.
  - by intros (v & Hv & [= <-]).
  - eauto.
Qed.

Lemma elem_of_rows_Permission (db : Tables) (q : UserProjectPermission.t) :
  q ∈ rows_UserProjectPermission db
  ↔ user_project_permissions db !! UserProjectPermission.key q
    = Some (UserProjectPermission.row q).
Proof.
  unfold rows_UserProjectPermission.
  rewrite (elem_of_rows mk_Permission UserProjectPermission.key)
    by apply key_mk_Permission.
  destruct q as [u p c]. unfold mk_Permission; simpl. split.
  - by intros (v & Hv & [= <-]).
  - eauto.
Qed.

Lemma NoDup_id_rows_Project (db : Tables) :
  NoDup (Project.id <$> rows_Project db).
Proof. apply (NoDup_key_rows mk_Project Project.id). done. Qed.

Section listing.
Variable db : Tables.
Variable u : Z.

Let mine : list UserProjectPermission.t :=
  filter (λ q : UserProjectPermission.t, UserProjectPermission.user_id q = u)
         (rows_UserProjectPermission db).

Lemma elem_of_mine (q : UserProjectPermission.t) :
  q ∈ mine ↔
  UserProjectPermission.user_id q = u
  ∧ user_project_permissions db !! (u, UserProjectPermission.project_id q)
    = Some (UserProjectPermission.row q).
Proof.
  unfold mine. rewrite list_elem_of_filter, elem_of_rows_Permission.
  unfold UserProjectPermission.key. split.
  - intros [Hu Hq]. by rewrite Hu in Hq.
  - intros [Hu Hq]. by rewrite Hu.
Qed.

Lemma elem_of_explicit_ids (i : Z) :
  i ∈ UserProjectPermission.project_id <$> mine
  ↔ is_Some (grant_of db u i).
Proof.
  unfold grant_of. rewrite list_elem_of_fmap, fmap_is_Some. split.
  - intros (q & -> & Hq). apply elem_of_mine in Hq as [_ Hq]. eauto.
  - intros [c Hc]. exists (UserProjectPermission.Row u i c).
    split; [done|]. by apply elem_of_mine.
Qed.

Lemma NoDup_explicit_ids : NoDup (UserProjectPermission.project_id <$> mine).
Proof.
  apply NoDup_fmap_2_strong.
  - intros [u1 p1 c1] [u2 p2 c2] H1 H2; simpl; intros <-.
    apply elem_of_mine in H1 as [Hu1 Hc1], H2 as [Hu2 Hc2].
    simpl in *. congruence.
  - unfold mine. apply NoDup_filter. unfold rows_UserProjectPermission.
    apply NoDup_fmap_2_strong; [|apply NoDup_map_to_list].
    intros [[a b] c] [[a' b'] c'] _ _ [=]. congruence.
Qed.

Lemma permission_dict_skip (l : list UserProjectPermission.t)
    (d : gmap Z string) (i : Z) :
  i ∉ UserProjectPermission.project_id <$> l →
  foldl (λ d perm, <[UserProjectPermission.project_id perm
                     := UserProjectPermission.permission_level perm]> d)
        d l !! i = d !! i.
Proof.
  revert d. induction l as [|q l IH]; intros d Hi; [done|].
  rewrite fmap_cons, not_elem_of_cons in Hi. destruct Hi as [Hne Hi].
  simpl. rewrite IH by done. by rewrite lookup_insert_ne.
Qed.

Lemma permission_dict_hit (l : list UserProjectPermission.t)
    (d : gmap Z string) (q : UserProjectPermission.t) :
  NoDup (UserProjectPermission.project_id <$> l) → q ∈ l →
  foldl (λ d perm, <[UserProjectPermission.project_id perm
                     := UserProjectPermission.permission_level perm]> d)
        d l !! UserProjectPermission.project_id q
  = Some (UserProjectPermission.permission_level q).
Proof.
  revert d. induction l as [|q0 l IH]; intros d Hnd Hq.
  - by apply elem_of_nil in Hq.
  - rewrite fmap_cons in Hnd. apply NoDup_cons in Hnd as [Hq0 Hnd].
    apply elem_of_cons in Hq as [->|Hq]; simpl.
    + rewrite permission_dict_skip by done. apply lookup_insert_eq.
    + by apply IH.
Qed.

Lemma permission_dict_lookup (i : Z) :
  permission_dict_of mine !! i = grant_of db u i.
Proof.
  unfold permission_dict_of.
  destruct (grant_of db u i) as [lvl|] eqn:Hg.
  - unfold grant_of in Hg. apply fmap_Some in Hg as (c & Hc & ->).
    apply (permission_dict_hit mine ∅ (UserProjectPermission.Row u i c)).
    + apply NoDup_explicit_ids.
    + by apply elem_of_mine.
  - rewrite permission_dict_skip; [apply lookup_empty|].
    rewrite elem_of_explicit_ids, Hg. by intros [? ?].
Qed.
End listing.

Lemma filter_none {A} (P : A → Prop) `{∀ x, Decision (P x)} (l : list A) :
  (∀ x, ¬ P x) → filter P l = [].
Proof.
  intros HP. induction l as [|x l IH]; [done|].
  rewrite filter_cons. destruct (decide (P x)); [by destruct (HP x)|done].
Qed.

Lemma get_user_projects_run (u : Z) (s : Session) :
  crud.get_user_projects u s = (Return (visible (txn s) u), s).
Proof.
  unfold crud.get_user_projects, query_Project, query_UserProjectPermission.
  unfold_M. do 2 f_equal. unfold visible.
  set (db := txn s).
  set (mine := filter _ (rows_UserProjectPermission db)).
  set (ids := UserProjectPermission.project_id <$> mine).
  assert (Hlist :
    (if negb (bool_decide (ids = []))
     then filter (λ p : Project.t, Project.id p ∈ ids) (rows_Project db)
     else [])
    ++ filter (λ p : Project.t,
                 Project.is_public p = true
                 ∧ (if negb (bool_decide (ids = []))
                    then λ p : Project.t, negb (bool_decide (Project.id p ∈ ids))
                    else λ _, true) p = true) (rows_Project db)
    = explicit_projects db u ++ public_only_projects db u).
  { f_equal.
    - unfold explicit_projects.
      rewrite (list_filter_iff
                 (λ p : Project.t, is_Some (grant_of db u (Project.id p)))
                 (λ p : Project.t, Project.id p ∈ ids))
        by (intros p; symmetry; apply elem_of_explicit_ids).
      destruct (bool_decide (ids = [])) eqn:Hids; simpl; [|done].
      apply bool_decide_eq_true in Hids. rewrite Hids.
      symmetry. apply filter_none. intros p. apply not_elem_of_nil.
    - unfold public_only_projects.
      apply list_filter_iff. intros p.
      rewrite eq_None_not_Some, <- (elem_of_explicit_ids db u).
      fold mine. fold ids.
      destruct (bool_decide (ids = [])) eqn:Hids; simpl.
      + apply bool_decide_eq_true in Hids. rewrite Hids.
        split; [intros [? _]; split; [done|apply not_elem_of_nil]|].
        by intros [? _].
      + rewrite negb_true_iff, bool_decide_eq_false. done. }
  rewrite Hlist. apply list_fmap_ext. intros _ p _.
  unfold listed. do 2 f_equal. apply permission_dict_lookup.
Qed.

(** ** What each store operation does to a fresh session

    Every function of [crud.py] that writes ends in a commit or, when the
    store refuses a statement, in a rollback: it takes a fresh session to a
    fresh session on the tables it leaves. *)

Lemma setattr_model_dump (i : Z) (c : Project.cols) (b : ProjectBase.t) :
  foldl (λ obj kv, setattr obj kv.1 kv.2) (Project.Row i c)
        (ProjectBase.model_dump_exclude_unset b)
  = Project.Row i (patched c b).
Proof.
  destruct b as [n [d|] [ip|] [pub|]], c as [n0 d0 ip0 pub0 ca ua];
    reflexivity.
Qed.

Lemma set_projects_insert_id (db : Tables) (i : Z) (c : Project.cols) :
  projects db !! i = Some c → set_projects (insert i c) db = db.
Proof.
  intros Hc. destruct db as [us ps gs]; unfold set_projects; simpl in *.
  by rewrite insert_id.
Qed.

Lemma set_permissions_insert_id (db : Tables) (k : Z * Z)
    (c : UserProjectPermission.cols) :
  user_project_permissions db !! k = Some c →
  set_permissions (insert k c) db = db.
Proof.
  intros Hc. destruct db as [us ps gs]; unfold set_permissions; simpl in *.
  by rewrite insert_id.
Qed.

Lemma update_project_run (fk : bool) (clock : Z) (db : Tables) (i : Z)
    (b : ProjectBase.t) :
  crud.update_project i b (session fk clock db)
  = match projects db !! i with
    | Some c =>
        let c' := stamped clock c (patched c b) in
        (Return (Some (Project.Row i c')),
         session fk clock (set_projects (insert i c') db))
    | None => (Return None, session fk clock db)
    end.
Proof.
  unfold crud.update_project, query_Project, session. unfold_M. cbn.
  rewrite first_Project.
  destruct (projects db !! i) as [c|] eqn:Hc; cbn; [|done].
  rewrite setattr_model_dump. unfold commit, flush, add. unfold_M. cbn.
  rewrite Hc. unfold stamped.
  destruct (same_columns c (patched c b)) eqn:Hsame; cbn.
  - unfold refresh_Project; cbn. rewrite Hc.
    by rewrite set_projects_insert_id.
  - unfold refresh_Project; cbn. by rewrite lookup_insert_eq.
Qed.

Lemma le_foldr_max (l : list Z) (k : Z) : k ∈ l → (k ≤ foldr Z.max 0 l)%Z.
Proof.
  induction l as [|x l IH]; [by intros ?%elem_of_nil|].
  intros [->|Hk]%elem_of_cons; simpl; [lia|]. specialize (IH Hk). lia.
Qed.

Lemma next_id_fresh (m : gmap Z Project.cols) : m !! next_id m = None.
Proof.
  destruct (m !! next_id m) as [c|] eqn:Hc; [|done].
  apply elem_of_map_to_list in Hc.
  apply (list_elem_of_fmap_2 fst) in Hc. apply le_foldr_max in Hc.
  unfold next_id in Hc. simpl in Hc. lia.
Qed.

Lemma no_reference_left (i : Z) (db : Tables) :
  ¬ Exists (λ q, UserProjectPermission.project_id q = i)
      (rows_UserProjectPermission
         (set_permissions
            (filter (λ kv : Z * Z * UserProjectPermission.cols, kv.1.2 ≠ i))
            db)).
Proof.
  rewrite Exists_exists. intros ([u p c] & Hq & Hp). simpl in Hp. subst p.
  apply elem_of_rows_Permission in Hq. simpl in Hq.
  unfold UserProjectPermission.key in Hq. simpl in Hq.
  apply map_lookup_filter_Some in Hq as [_ Hne]. by apply Hne.
Qed.

Lemma delete_project_run (fk : bool) (clock : Z) (db : Tables) (i : Z) :
  crud.delete_project i (session fk clock db)
  = match projects db !! i with
    | Some c => (Return (Some (Project.Row i c)),
                 session fk clock (cascaded i db))
    | None => (Return None, session fk clock db)
    end.
Proof.
  unfold crud.delete_project, query_Project, session. unfold_M. cbn.
  rewrite first_Project.
  destruct (projects db !! i) as [c|] eqn:Hc; cbn; [|done].
  unfold commit, flush. unfold_M. cbn.
  rewrite (bool_decide_eq_false_2 _ (no_reference_left i db)).
  by rewrite andb_false_r.
Qed.

Lemma flush_new_permission (fk : bool) (clock : Z) (db : Tables)
    (q : UserProjectPermission.t) :
  flush_one fk clock db (New_permission q)
  = if insertable fk db (UserProjectPermission.user_id q)
                        (UserProjectPermission.project_id q)
    then Return (set_permissions
                   (insert (UserProjectPermission.key q)
                      (granted clock
                         (UserProjectPermission.permission_level q)))
                   db)
    else Raise IntegrityError.
Proof.
  unfold flush_one, insertable, UserProjectPermission.key. cbn.
  destruct (bool_decide (is_Some (user_project_permissions db !! _))); cbn;
    [done|].
  by destruct (fk && _).
Qed.

Lemma create_user_project_permission_run (fk : bool) (clock : Z)
    (db : Tables) (b : UserProjectPermissionCreate.t) :
  let u := UserProjectPermissionCreate.user_id b in
  let p := UserProjectPermissionCreate.project_id b in
  let c := granted clock (UserProjectPermissionCreate.permission_level b) in
  crud.create_user_project_permission b (session fk clock db)
  = if insertable fk db u p
    then (Return (UserProjectPermission.Row u p c),
          session fk clock (set_permissions (insert (u, p) c) db))
    else (Raise IntegrityError, session fk clock db).
Proof.
  unfold crud.create_user_project_permission, commit, flush, add, session.
  unfold_M. cbn [work with_work txn foreign_keys now app].
  cbn [flush_all]. rewrite flush_new_permission. cbn.
  destruct (insertable fk db _ _); cbn; [|done].
  unfold refresh_UserProjectPermission, UserProjectPermission.key; cbn.
  by rewrite lookup_insert_eq.
Qed.

Lemma update_user_project_permission_run (fk : bool) (clock : Z)
    (db : Tables) (u p : Z) (level : string) :
  crud.update_user_project_permission u p level (session fk clock db)
  = match user_project_permissions db !! (u, p) with
    | Some old =>
        let c := releveled clock old level in
        (Return (Some (UserProjectPermission.Row u p c)),
         session fk clock (set_permissions (insert (u, p) c) db))
    | None => (Return None, session fk clock db)
    end.
Proof.
  unfold crud.update_user_project_permission, query_UserProjectPermission,
    session. unfold_M. cbn. rewrite first_Permission.
  destruct (user_project_permissions db !! (u, p)) as [old|] eqn:Hold; cbn;
    [|done].
  unfold commit, flush. unfold_M. cbn.
  unfold UserProjectPermission.key; cbn. rewrite Hold. unfold releveled.
  destruct (bool_decide (UserProjectPermission.permission_level old = level));
    cbn; unfold refresh_UserProjectPermission, UserProjectPermission.key; cbn.
  - rewrite Hold. by rewrite set_permissions_insert_id.
  - by rewrite lookup_insert_eq.
Qed.

Lemma create_project_run (fk : bool) (clock : Z) (db : Tables)
    (project : ProjectBase.t) (u : Z) :
  let i := next_id (projects db) in
  let c := bootstrapped clock project in
  crud.create_project project u (session fk clock db)
  = if insertable fk (set_projects (insert i c) db) u i
    then (Return (Project.Row i c),
          session fk clock
            (set_permissions (insert (u, i) (granted clock "admin"))
               (set_projects (insert i c) db)))
    else (Raise IntegrityError, session fk clock db).
Proof.
  unfold crud.create_project, add_flush_Project, commit, flush, add, session.
  unfold_M. cbn [work with_work with_txn txn foreign_keys now app flush_all].
  cbn [flush_all]. rewrite flush_new_permission. cbn.
  fold (bootstrapped clock project).
  destruct (insertable fk _ u _); cbn; [|done].
  unfold refresh_Project; cbn. by rewrite lookup_insert_eq.
Qed.

(** ** What each endpoint does to a fresh session *)

Lemma grant_of_Some (db : Tables) (u i : Z) (level : string) :
  grant_of db u i = Some level
  ↔ ∃ g, user_project_permissions db !! (u, i) = Some g
         ∧ UserProjectPermission.permission_level g = level.
Proof.
  unfold grant_of. rewrite fmap_Some. split.
  - intros (g & Hg & ->). eauto.
  - intros (g & Hg & <-). eauto.
Qed.

Lemma grant_of_None (db : Tables) (u i : Z) :
  grant_of db u i = None ↔ user_project_permissions db !! (u, i) = None.
Proof. unfold grant_of. apply fmap_None. Qed.

Lemma update_project_endpoint_run (fk : bool) (clock : Z) (db : Tables)
    (i : Z) (b : ProjectBase.t) (u : Z) :
  routes.update_project_endpoint i b u (session fk clock db)
  = match grant_of db u i with
    | Some level =>
        if bool_decide (level ∉ ["admin"; "model_editor"])
        then (Raise forbidden_update, session fk clock db)
        else match projects db !! i with
             | Some c =>
                 let c' := stamped clock c (patched c b) in
                 (Return (Project.Row i c'),
                  session fk clock (set_projects (insert i c') db))
             | None => (Raise project_not_found, session fk clock db)
             end
    | None => (Raise forbidden_update, session fk clock db)
    end.
Proof.
  unfold routes.update_project_endpoint,
    user_project_service.get_user_project_permission,
    user_project_service.update_project.
  unfold mbind at 1, M_bind, bind.
  rewrite get_user_project_permission_run. unfold grant_of. cbn [txn session].
  destruct (user_project_permissions db !! (u, i)) as [g|]; cbn; [|done].
  destruct (bool_decide (_ ∉ _)); [done|].
  unfold mbind, M_bind, bind. rewrite update_project_run.
  by destruct (projects db !! i).
Qed.

Lemma delete_project_endpoint_run (fk : bool) (clock : Z) (db : Tables)
    (i u : Z) :
  routes.delete_project_endpoint i u (session fk clock db)
  = match grant_of db u i with
    | Some level =>
        if bool_decide (level ≠ "admin")
        then (Raise forbidden_delete, session fk clock db)
        else match projects db !! i with
             | Some c => (Return "Project deleted successfully",
                          session fk clock (cascaded i db))
             | None => (Raise project_not_found, session fk clock db)
             end
    | None => (Raise forbidden_delete, session fk clock db)
    end.
Proof.
  unfold routes.delete_project_endpoint,
    user_project_service.get_user_project_permission,
    user_project_service.delete_project.
  unfold mbind at 1, M_bind, bind.
  rewrite get_user_project_permission_run. unfold grant_of. cbn [txn session].
  destruct (user_project_permissions db !! (u, i)) as [g|]; cbn; [|done].
  destruct (bool_decide (_ ≠ _)); [done|].
  unfold mbind, M_bind, bind. rewrite delete_project_run.
  by destruct (projects db !! i).
Qed.

Lemma add_project_permission_endpoint_run (fk : bool) (clock : Z)
    (db : Tables) (i : Z) (b : UserProjectPermissionCreate.t) (a : Z) :
  routes.add_project_permission_endpoint i b a (session fk clock db)
  = match grant_of db a i with
    | Some level =>
        if bool_decide (level ≠ "admin")
        then (Raise forbidden_grant, session fk clock db)
        else if bool_decide (projects db !! i = None)
        then (Raise project_not_found, session fk clock db)
        else if bool_decide
                  (users db !! UserProjectPermissionCreate.user_id b = None)
        then (Raise (HTTPException 404 "User to add not found"),
              session fk clock db)
        else if bool_decide
                  (is_Some (user_project_permissions db
                              !! (UserProjectPermissionCreate.user_id b, i)))
        then (Raise conflict, session fk clock db)
        else crud.create_user_project_permission b (session fk clock db)
    | None => (Raise forbidden_grant, session fk clock db)
    end.
Proof.
  unfold routes.add_project_permission_endpoint,
    user_project_service.get_user_project_permission,
    user_project_service.get_project, user_project_service.get_user,
    user_project_service.create_user_project_permission.
  unfold mbind at 1, M_bind, bind.
  rewrite get_user_project_permission_run. unfold grant_of. cbn [txn session].
  destruct (user_project_permissions db !! (a, i)) as [g|]; cbn; [|done].
  destruct (bool_decide (_ ≠ _)); [done|].
  unfold mbind at 1, M_bind, bind. rewrite get_project_run.
  unfold mbind at 1, M_bind, bind. rewrite get_user_run. cbn [txn session].
  destruct (projects db !! i) as [c|]; cbn; [|done].
  destruct (users db !! _) as [us|]; cbn; [|done].
  unfold mbind at 1, M_bind, bind.
  rewrite get_user_project_permission_run. cbn [txn session].
  by destruct (user_project_permissions db !! (_, i)) as [g'|].
Qed.

Lemma read_user_projects_endpoint_run (u : Z) (s : Session) :
  routes.read_user_projects_endpoint u s
  = match users (txn s) !! u with
    | Some _ => (Return (visible (txn s) u), s)
    | None => (Raise (HTTPException 404 "User not found"), s)
    end.
Proof.
  unfold routes.read_user_projects_endpoint, user_project_service.get_user,
    user_project_service.get_user_projects.
  unfold mbind, M_bind, bind. rewrite get_user_run.
  destruct (users (txn s) !! u); cbn; [|done].
  apply get_user_projects_run.
Qed.

Lemma create_project_endpoint_run (fk : bool) (clock : Z) (db : Tables)
    (project : ProjectBase.t) (u : Z) :
  routes.create_project_endpoint project u (session fk clock db)
  = match users db !! u with
    | Some _ => crud.create_project project u (session fk clock db)
    | None => (Raise (HTTPException 404 "Creating user not found"),
               session fk clock db)
    end.
Proof.
  unfold routes.create_project_endpoint, user_project_service.get_user,
    user_project_service.create_project.
  unfold mbind, M_bind, bind. rewrite get_user_run. cbn [txn session].
  by destruct (users db !! u).
Qed.

(** ** Requests *)

(** *** Creation *)

Lemma bootstrap_never_orphans (u : Z) (db : Tables)
    (out : outcome Project.t * Tables) :
  bootstrap_or_nothing u db out → no_project_without_admin u db out.2.
Proof.
  intros [(p & g & _ & _ & _ & _ & Hps & Hgs & Hg)|(e & _ & ->)] j Hj [c Hc].
  - rewrite Hps in Hc. unfold grant_of. rewrite Hgs.
    destruct (decide (Project.id p = j)) as [<-|Hne].
    + by rewrite lookup_insert_eq, <- Hg.
    + rewrite lookup_insert_ne in Hc by done. congruence.
  - congruence.
Qed.

Lemma create_project_bootstraps (fk : bool) (clock : Z) (db : Tables)
    (project : ProjectBase.t) (u : Z) :
  bootstrap_or_nothing u db
    (get_db fk clock (crud.create_project project u) db).
Proof.
  unfold get_db. rewrite create_project_run.
  destruct (insertable fk _ u _) eqn:Hins; cbn.
  - left. exists (Project.Row (next_id (projects db))
                    (bootstrapped clock project)), (granted clock "admin").
    cbn. split_and!; try done; [apply next_id_fresh|].
    unfold insertable in Hins. cbn in Hins.
    apply andb_true_iff in Hins as [Hfree _].
    apply negb_true_iff, bool_decide_eq_false in Hfree.
    by apply eq_None_not_Some.
  - right. by exists IntegrityError.
Qed.

(** The INSERT of the project alone reaches the open transaction only:
    until the commit the database holds neither row. *)
Lemma project_insert_uncommitted (fk : bool) (clock : Z) (db : Tables)
    (project : ProjectBase.t) :
  ∃ p s, add_flush_Project (ProjectBase.name project)
           (ProjectBase.get_description project)
           (ProjectBase.get_is_public project) (session fk clock db)
         = (Return p, s)
    ∧ stored s = db
    ∧ projects (txn s) !! Project.id p = Some (Project.row p)
    ∧ user_project_permissions (txn s) = user_project_permissions db.
Proof.
  eexists _, _. split; [reflexivity|]. cbn. split_and!; try done.
  apply lookup_insert_eq.
Qed.

(** C2. Creating a project for user [u], through [create_project] or
    through the endpoint, either stores the new project together with the
    grant ([u], project, 'admin') and nothing else, or raises and leaves the
    store as it was; in both cases every project the store has gained
    carries the creator's 'admin' grant. *)
Theorem atomic_bootstrap (fk : bool) (clock : Z) (db : Tables)
    (project : ProjectBase.t) (u : Z) :
  let by_crud := get_db fk clock (crud.create_project project u) db in
  let by_endpoint :=
    get_db fk clock (routes.create_project_endpoint project u) db in
  bootstrap_or_nothing u db by_crud
  ∧ no_project_without_admin u db by_crud.2
  ∧ bootstrap_or_nothing u db by_endpoint
  ∧ no_project_without_admin u db by_endpoint.2.
Proof.
  intros by_crud by_endpoint.
  assert (Hcrud : bootstrap_or_nothing u db by_crud)
    by apply create_project_bootstraps.
  assert (Hend : bootstrap_or_nothing u db by_endpoint).
  { unfold by_endpoint, get_db. rewrite create_project_endpoint_run.
    destruct (users db !! u); [apply create_project_bootstraps|].
    right. by eexists. }
  split_and!; auto using bootstrap_never_orphans.
Qed.

Example bootstrap_commits_both :
  get_db false 7 (crud.create_project (scenario.rename "Z") 2) scenario.db0
  = (Return (Project.Row 3 (bootstrapped 7 (scenario.rename "Z"))),
     set_permissions (insert (2%Z, 3%Z) (granted 7 "admin"))
       (set_projects (insert 3%Z (bootstrapped 7 (scenario.rename "Z")))
          scenario.db0)).
Proof. by vm_compute. Qed.

Example bootstrap_rolls_back_on_stale_grant :
  get_db false 7 (crud.create_project (scenario.rename "Z") 1) scenario.stale
  = (Raise IntegrityError, scenario.stale).
Proof. by vm_compute. Qed.

Example bootstrap_rolls_back_on_unknown_creator :
  get_db true 7 (crud.create_project (scenario.rename "Z") 9) scenario.db0
  = (Raise IntegrityError, scenario.db0).
Proof. by vm_compute. Qed.

(** *** Listing *)

Lemma elem_of_explicit_projects (db : Tables) (u : Z) (p : Project.t) :
  p ∈ explicit_projects db u
  ↔ projects db !! Project.id p = Some (Project.row p)
    ∧ is_Some (grant_of db u (Project.id p)).
Proof.
  unfold explicit_projects.
  rewrite list_elem_of_filter, elem_of_rows_Project. tauto.
Qed.

Lemma elem_of_public_only_projects (db : Tables) (u : Z) (p : Project.t) :
  p ∈ public_only_projects db u
  ↔ projects db !! Project.id p = Some (Project.row p)
    ∧ Project.is_public p = true
    ∧ grant_of db u (Project.id p) = None.
Proof.
  unfold public_only_projects.
  rewrite list_elem_of_filter, elem_of_rows_Project. tauto.
Qed.

Lemma visible_ids (db : Tables) (u : Z) :
  pd_id <$> visible db u
  = Project.id <$> (explicit_projects db u ++ public_only_projects db u).
Proof. unfold visible. by rewrite <- list_fmap_compose. Qed.

Lemma NoDup_visible (db : Tables) (u : Z) : NoDup (pd_id <$> visible db u).
Proof.
  rewrite visible_ids, fmap_app. apply NoDup_app. split_and!.
  - eapply sublist_NoDup; [apply (NoDup_id_rows_Project db)|].
    apply fmap_sublist, sublist_filter.
  - intros i. rewrite !list_elem_of_fmap.
    intros (p & -> & Hp) (q & Hpq & Hq).
    apply elem_of_explicit_projects in Hp as [_ Hp].
    apply elem_of_public_only_projects in Hq as (_ & _ & Hq).
    rewrite Hpq, Hq in Hp. by destruct Hp.
  - eapply sublist_NoDup; [apply (NoDup_id_rows_Project db)|].
    apply fmap_sublist, sublist_filter.
Qed.

Lemma granted_project_is_visible (db : Tables) (u i : Z) (c : Project.cols)
    (g : UserProjectPermission.cols) :
  projects db !! i = Some c →
  user_project_permissions db !! (u, i) = Some g →
  listed (Project.Row i c) (UserProjectPermission.permission_level g)
    ∈ visible db u.
Proof.
  intros Hc Hg. unfold visible.
  apply (list_elem_of_fmap_2' _ _ (Project.Row i c)).
  - apply elem_of_app; left. apply elem_of_explicit_projects.
    unfold grant_of; simpl. rewrite Hg. eauto.
  - unfold grant_of; simpl. by rewrite Hg.
Qed.

(** C1. For every user, the listing names each project at most once; a
    project on which the user holds a grant is listed with the level of that
    grant; a public project on which the user holds none is listed with
    'public_access'; a private project on which the user holds none is not
    listed. *)
Theorem visibility_partition (fk : bool) (clock : Z) (db : Tables) (u : Z) :
  ∃ r, get_db fk clock (crud.get_user_projects u) db = (Return r, db)
    ∧ NoDup (pd_id <$> r)
    ∧ (∀ i c g,
         projects db !! i = Some c →
         user_project_permissions db !! (u, i) = Some g →
         listed (Project.Row i c) (UserProjectPermission.permission_level g)
           ∈ r)
    ∧ (∀ i c,
         projects db !! i = Some c →
         Project.is_public c = true →
         user_project_permissions db !! (u, i) = None →
         listed (Project.Row i c) "public_access" ∈ r)
    ∧ (∀ i c,
         projects db !! i = Some c →
         Project.is_public c = false →
         user_project_permissions db !! (u, i) = None →
         i ∉ pd_id <$> r).
Proof.
  exists (visible db u). split_and!.
  - unfold get_db. by rewrite get_user_projects_run.
  - apply NoDup_visible.
  - intros i c g. apply granted_project_is_visible.
  - intros i c Hc Hpub Hg. unfold visible.
    apply (list_elem_of_fmap_2' _ _ (Project.Row i c)).
    + apply elem_of_app; right. apply elem_of_public_only_projects.
      unfold grant_of; simpl. by rewrite Hg.
    + unfold grant_of; simpl. by rewrite Hg.
  - intros i c Hc Hpriv Hg. rewrite visible_ids, list_elem_of_fmap.
    intros (p & -> & Hp). apply elem_of_app in Hp as [Hp|Hp].
    + apply elem_of_explicit_projects in Hp as [_ Hp].
      unfold grant_of in Hp. rewrite Hg in Hp. by destruct Hp.
    + apply elem_of_public_only_projects in Hp as (Hrow & Hpub & _).
      congruence.
Qed.

Example listing_of_alice :
  (get_db false 0 (crud.get_user_projects 1) scenario.db0).1
  = Return [listed (Project.Row 1 (scenario.project "X" false)) "admin";
            listed (Project.Row 2 (scenario.project "Y" true))
                   "public_access"].
Proof. by vm_compute. Qed.

Example listing_of_bob :
  (get_db false 0 (crud.get_user_projects 2) scenario.db0).1
  = Return [listed (Project.Row 2 (scenario.project "Y" true)) "admin";
            listed (Project.Row 1 (scenario.project "X" false))
                   "user_model_only"].
Proof. by vm_compute. Qed.

Lemma visible_without_grants (db : Tables) (u : Z) :
  (∀ i, user_project_permissions db !! (u, i) = None) →
  visible db u
  = (λ p : Project.t, listed p "public_access")
    <$> filter (λ p : Project.t, Project.is_public p = true) (rows_Project db).
Proof.
  intros Hnone. unfold visible.
  assert (Hg : ∀ i, grant_of db u i = None)
    by (intros i; unfold grant_of; by rewrite Hnone).
  replace (explicit_projects db u) with (@nil Project.t).
  - cbn [app]. unfold public_only_projects.
    rewrite (list_filter_iff
               (λ p : Project.t, Project.is_public p = true
                                 ∧ grant_of db u (Project.id p) = None)
               (λ p : Project.t, Project.is_public p = true))
      by (intros p; rewrite Hg; tauto).
    apply list_fmap_ext. intros _ p _. by rewrite Hg.
  - symmetry. apply filter_none. intros p. rewrite Hg. by intros [? ?].
Qed.

Lemma unknown_user_holds_nothing (db : Tables) (u : Z) :
  grants_reference_users db → users db !! u = None →
  ∀ i, user_project_permissions db !! (u, i) = None.
Proof.
  intros Href Hu i.
  destruct (user_project_permissions db !! (u, i)) as [g|] eqn:Hg; [|done].
  apply Href in Hg. cbn in Hg. rewrite Hu in Hg. by destruct Hg.
Qed.

(** C6, amended. [get_user_projects] has no failure mode: for every user
    identifier it returns a list and leaves the store as it was, and for an
    identifier no grant references (in a store whose grants all reference
    users: every identifier that names no user) the list is exactly the
    public projects, each with 'public_access'. The endpoint answers 404
    to an identifier that names no user, and the listing to any other. *)
Theorem listing_of_unknown_user (fk : bool) (clock : Z) (db : Tables)
    (u : Z) :
  let public_only :=
    (λ p : Project.t, listed p "public_access")
    <$> filter (λ p : Project.t, Project.is_public p = true)
               (rows_Project db) in
  (∃ r, get_db fk clock (crud.get_user_projects u) db = (Return r, db))
  ∧ ((∀ i, user_project_permissions db !! (u, i) = None) →
     get_db fk clock (crud.get_user_projects u) db = (Return public_only, db))
  ∧ (grants_reference_users db → users db !! u = None →
     get_db fk clock (crud.get_user_projects u) db = (Return public_only, db))
  ∧ (users db !! u = None →
     get_db fk clock (routes.read_user_projects_endpoint u) db
     = (Raise (HTTPException 404 "User not found"), db))
  ∧ (is_Some (users db !! u) →
     get_db fk clock (routes.read_user_projects_endpoint u) db
     = get_db fk clock (crud.get_user_projects u) db).
Proof.
  intros public_only.
  assert (Hrun : get_db fk clock (crud.get_user_projects u) db
                 = (Return (visible db u), db)).
  { unfold get_db. by rewrite get_user_projects_run. }
  assert (Hnone : (∀ i, user_project_permissions db !! (u, i) = None) →
                  get_db fk clock (crud.get_user_projects u) db
                  = (Return public_only, db)).
  { intros Hn. rewrite Hrun. by rewrite visible_without_grants. }
  split_and!.
  - eauto.
  - done.
  - intros Href Hu. eauto using unknown_user_holds_nothing.
  - intros Hu. unfold get_db. rewrite read_user_projects_endpoint_run.
    cbn [txn session]. by rewrite Hu.
  - intros [c Hc]. rewrite Hrun. unfold get_db.
    rewrite read_user_projects_endpoint_run. cbn [txn session].
    by rewrite Hc.
Qed.

(** C6 as stated fails at the endpoint: user 7 is unknown to [db0] and the
    listing request is answered with an error, not with the public
    projects. *)
Lemma unknown_user_is_rejected :
  users scenario.db0 !! 7%Z = None
  ∧ get_db false 0 (routes.read_user_projects_endpoint 7) scenario.db0
    = (Raise (HTTPException 404 "User not found"), scenario.db0)
  ∧ ¬ ∃ r, (get_db false 0 (routes.read_user_projects_endpoint 7)
              scenario.db0).1 = Return r.
Proof.
  split_and!; [by vm_compute..|].
  intros [r Hr]. vm_compute in Hr. discriminate.
Qed.

(** Below the endpoint a store without foreign keys can hold a grant of a
    user that does not exist, and then the listing for that identifier is
    not the public projects alone: [create_project] for the unknown user 9
    leaves such a grant. *)
Example unknown_creator_is_listed_as_admin :
  let db1 := (get_db false 7 (crud.create_project (scenario.rename "Z") 9)
                scenario.db0).2 in
  users db1 !! 9%Z = None
  ∧ (get_db false 8 (crud.get_user_projects 9) db1).1
    = Return [listed (Project.Row 3 (bootstrapped 7 (scenario.rename "Z")))
                     "admin";
              listed (Project.Row 2 (scenario.project "Y" true))
                     "public_access"].
Proof. split; by vm_compute. Qed.

(** C8. In every listing the projects on which the user holds a grant come
    before the projects the user sees only because they are public. *)
Theorem explicit_before_public_only (fk : bool) (clock : Z) (db : Tables)
    (u : Z) :
  ∃ r, get_db fk clock (crud.get_user_projects u) db = (Return r, db)
    ∧ ∀ (m n : nat) (x y : project_data),
        r !! m = Some x → r !! n = Some y →
        is_Some (grant_of db u (pd_id x)) →
        grant_of db u (pd_id y) = None →
        (m < n)%nat.
Proof.
  exists (visible db u). split.
  { unfold get_db. by rewrite get_user_projects_run. }
  unfold visible. intros m n x y Hx Hy Hgx Hgy.
  apply list_lookup_fmap_Some in Hx as (p & -> & Hp).
  apply list_lookup_fmap_Some in Hy as (q & -> & Hq).
  cbn in Hgx, Hgy.
  apply lookup_app_Some in Hp as [Hp|[_ Hp]].
  - apply lookup_lt_Some in Hp.
    apply lookup_app_Some in Hq as [Hq|[Hlen _]]; [|lia].
    apply list_elem_of_lookup_2, elem_of_explicit_projects in Hq as [_ Hq].
    rewrite Hgy in Hq. by destruct Hq.
  - apply list_elem_of_lookup_2, elem_of_public_only_projects in Hp
      as (_ & _ & Hp).
    rewrite Hp in Hgx. by destruct Hgx.
Qed.

(** *** Update *)

(** C7, amended. [update_project] on a project that exists gives every
    field the body sets the body's value and leaves [id], [created_at] and
    every field the body does not set as they were; [updated_at], which no
    body can set, is set to the current time when a column changes and kept
    otherwise; no other row of the store changes. On an id without a
    project it returns [None] and changes nothing. *)
Theorem partial_update (fk : bool) (clock : Z) (db : Tables) (i : Z)
    (b : ProjectBase.t) :
  (∀ c, projects db !! i = Some c →
     ∃ c', get_db fk clock (crud.update_project i b) db
           = (Return (Some (Project.Row i c')),
              set_projects (insert i c') db)
       ∧ Project.name c' = ProjectBase.name b
       ∧ Project.description c'
         = default (Project.description c) (ProjectBase.description b)
       ∧ Project.image_path c'
         = default (Project.image_path c) (ProjectBase.image_path b)
       ∧ Project.is_public c'
         = default (Project.is_public c) (ProjectBase.is_public b)
       ∧ Project.created_at c' = Project.created_at c
       ∧ Project.updated_at c'
         = if same_columns c (patched c b) then Project.updated_at c
           else Some clock)
  ∧ (projects db !! i = None →
     get_db fk clock (crud.update_project i b) db = (Return None, db)).
Proof.
  split.
  - intros c Hc. exists (stamped clock c (patched c b)). split.
    + unfold get_db. by rewrite update_project_run, Hc.
    + unfold stamped.
      destruct (same_columns c (patched c b)) eqn:Hsame; cbn; [|done].
      unfold same_columns in Hsame. apply bool_decide_eq_true in Hsame.
      cbn in Hsame. destruct Hsame as (Hn & Hd & Hip & Hpub).
      split_and!; auto.
  - intros Hc. unfold get_db. by rewrite update_project_run, Hc.
Qed.

(** C7 as stated fails on [updated_at]: the body sets [name] only, and the
    project's [updated_at], NULL before, holds the time of the request
    afterwards. *)
Lemma update_sets_updated_at :
  Project.updated_at <$> projects scenario.db0 !! 1%Z = Some None
  ∧ ProjectBase.model_dump_exclude_unset (scenario.rename "Z")
    = [("name", VStr "Z")]
  ∧ Project.updated_at
      <$> projects (get_db false 5 (crud.update_project 1 (scenario.rename "Z"))
                      scenario.db0).2 !! 1%Z
    = Some (Some 5%Z).
Proof. split_and!; by vm_compute. Qed.

(** C5. The gate of the update endpoint refuses a user without a grant on
    the project, whether or not the project is public, and lets through a
    user whose grant is 'admin' or 'model_editor': such a request gets the
    outcome of [update_project]. Any other level is refused. *)
Theorem editor_gate (fk : bool) (clock : Z) (db : Tables) (i : Z)
    (b : ProjectBase.t) (u : Z) :
  let out := get_db fk clock (routes.update_project_endpoint i b u) db in
  (grant_of db u i = None → out = (Raise forbidden_update, db))
  ∧ (∀ level, grant_of db u i = Some level →
       level = "admin" ∨ level = "model_editor" →
       out = match projects db !! i with
             | Some c =>
                 (Return (Project.Row i (stamped clock c (patched c b))),
                  set_projects (insert i (stamped clock c (patched c b))) db)
             | None => (Raise project_not_found, db)
             end)
  ∧ (∀ level, grant_of db u i = Some level →
       level ≠ "admin" → level ≠ "model_editor" →
       out = (Raise forbidden_update, db)).
Proof.
  intros out. unfold out, get_db. rewrite update_project_endpoint_run.
  split_and!.
  - by intros ->.
  - intros level -> Hlevel.
    rewrite bool_decide_eq_false_2.
    + by destruct (projects db !! i).
    + intros Hnot. apply Hnot. rewrite !elem_of_cons. tauto.
  - intros level -> Hadmin Heditor.
    rewrite bool_decide_eq_true_2; [done|].
    rewrite !not_elem_of_cons. split_and!; [done..|apply not_elem_of_nil].
Qed.

Example public_visibility_does_not_edit :
  Project.is_public <$> projects scenario.db0 !! 2%Z = Some true
  ∧ grant_of scenario.db0 1 2 = None
  ∧ get_db false 5 (routes.update_project_endpoint 2 (scenario.rename "Z") 1)
      scenario.db0
    = (Raise forbidden_update, scenario.db0).
Proof. split_and!; by vm_compute. Qed.

(** The levels are compared as strings: a grant stored as 'editor' is
    not in the list of the gate. *)
Example level_editor_does_not_edit :
  get_db false 5 (routes.update_project_endpoint 1 (scenario.rename "Z") 3)
    (set_permissions (insert (3%Z, 1%Z) (scenario.grant "editor"))
       scenario.db0)
  = (Raise forbidden_update,
     set_permissions (insert (3%Z, 1%Z) (scenario.grant "editor"))
       scenario.db0).
Proof. by vm_compute. Qed.

Example level_model_editor_edits :
  (get_db false 5 (routes.update_project_endpoint 1 (scenario.rename "Z") 3)
     (set_permissions (insert (3%Z, 1%Z) (scenario.grant "model_editor"))
        scenario.db0)).1
  = Return (Project.Row 1
             (Project.Cols "Z" None None false (Some 0%Z) (Some 5%Z))).
Proof. by vm_compute. Qed.

(** *** Deletion *)

Lemma cascaded_projects (i j : Z) (db : Tables) :
  projects (cascaded i db) !! j
  = if decide (i = j) then None else projects db !! j.
Proof. unfold cascaded; cbn. apply lookup_delete. Qed.

Lemma cascaded_permissions (i : Z) (k : Z * Z) (db : Tables) :
  user_project_permissions (cascaded i db) !! k
  = if decide (k.2 = i) then None else user_project_permissions db !! k.
Proof.
  unfold cascaded; cbn. destruct (decide (k.2 = i)) as [Heq|Hne].
  - apply map_lookup_filter_None. right. intros g _ Hk. by apply Hk.
  - destruct (user_project_permissions db !! k) as [g|] eqn:Hg.
    + by apply map_lookup_filter_Some.
    + apply map_lookup_filter_None. by left.
Qed.

(** C4. Deleting a project that exists removes the project and every grant
    on it and nothing else: afterwards the lookup of a grant on it is
    absent for every user and no user's listing names it. Deleting an id
    without a project returns [None] and changes nothing, which the
    endpoint reports as 404 to a caller who passed its gate. *)
Theorem cascade_on_delete (fk : bool) (clock : Z) (db : Tables) (i : Z) :
  (∀ c, projects db !! i = Some c →
     ∃ db', get_db fk clock (crud.delete_project i) db
            = (Return (Some (Project.Row i c)), db')
       ∧ projects db' = delete i (projects db)
       ∧ users db' = users db
       ∧ (∀ k, k.2 ≠ i →
            user_project_permissions db' !! k
            = user_project_permissions db !! k)
       ∧ (∀ u, user_project_permissions db' !! (u, i) = None)
       ∧ (∀ u, get_db fk clock (crud.get_user_project_permission u i) db'
               = (Return None, db'))
       ∧ (∀ u, ∃ r, get_db fk clock (crud.get_user_projects u) db'
                    = (Return r, db')
                 ∧ i ∉ pd_id <$> r))
  ∧ (projects db !! i = None →
     get_db fk clock (crud.delete_project i) db = (Return None, db)
     ∧ ∀ u, grant_of db u i = Some "admin" →
            get_db fk clock (routes.delete_project_endpoint i u) db
            = (Raise project_not_found, db)).
Proof.
  split.
  - intros c Hc. exists (cascaded i db).
    assert (Hgone : ∀ u, user_project_permissions (cascaded i db) !! (u, i)
                         = None).
    { intros u. rewrite cascaded_permissions. cbn. by rewrite decide_True. }
    split_and!.
    + unfold get_db. by rewrite delete_project_run, Hc.
    + done.
    + done.
    + intros k Hk. rewrite cascaded_permissions. by rewrite decide_False.
    + done.
    + intros u. unfold get_db. rewrite get_user_project_permission_run.
      cbn [txn session]. by rewrite Hgone.
    + intros u. exists (visible (cascaded i db) u). split.
      { unfold get_db. by rewrite get_user_projects_run. }
      rewrite visible_ids, list_elem_of_fmap. intros (p & Hi & Hp).
      assert (Hrow : p ∈ rows_Project (cascaded i db)).
      { apply elem_of_app in Hp as [Hp|Hp];
          by apply list_elem_of_filter in Hp as [_ Hp]. }
      apply elem_of_rows_Project in Hrow.
      rewrite cascaded_projects in Hrow. by rewrite decide_True in Hrow.
  - intros Hc. split.
    + unfold get_db. by rewrite delete_project_run, Hc.
    + intros u Hu. unfold get_db.
      rewrite delete_project_endpoint_run, Hu, Hc. done.
Qed.

(** *** The invariant of the references *)

Lemma references_after_insert (db : Tables) (k : Z * Z)
    (g : UserProjectPermission.cols) :
  grants_reference_projects db → is_Some (projects db !! k.2) →
  grants_reference_projects (set_permissions (insert k g) db).
Proof.
  intros Href Hk k' g' Hg'. cbn in *.
  destruct (decide (k = k')) as [<-|Hne]; [done|].
  rewrite lookup_insert_ne in Hg' by done. by apply (Href k' g').
Qed.

Lemma references_after_project (db : Tables) (i : Z) (c : Project.cols) :
  grants_reference_projects db →
  grants_reference_projects (set_projects (insert i c) db).
Proof.
  intros Href k g Hg. cbn in *. apply lookup_insert_is_Some'.
  right. by apply (Href k g).
Qed.

Lemma create_project_keeps_references (fk : bool) (clock : Z) (db : Tables)
    (project : ProjectBase.t) (u : Z) :
  grants_reference_projects db →
  grants_reference_projects
    (get_db fk clock (crud.create_project project u) db).2.
Proof.
  intros Href. unfold get_db. rewrite create_project_run.
  destruct (insertable fk _ u _); cbn; [|done].
  apply references_after_insert.
  - by apply references_after_project.
  - cbn. rewrite lookup_insert_eq. eauto.
Qed.

Lemma update_project_keeps_references (fk : bool) (clock : Z) (db : Tables)
    (i : Z) (b : ProjectBase.t) :
  grants_reference_projects db →
  grants_reference_projects
    (get_db fk clock (crud.update_project i b) db).2.
Proof.
  intros Href. unfold get_db. rewrite update_project_run.
  destruct (projects db !! i); cbn; [|done].
  by apply references_after_project.
Qed.

Lemma update_permission_keeps_references (fk : bool) (clock : Z)
    (db : Tables) (u p : Z) (level : string) :
  grants_reference_projects db →
  grants_reference_projects
    (get_db fk clock (crud.update_user_project_permission u p level) db).2.
Proof.
  intros Href. unfold get_db. rewrite update_user_project_permission_run.
  destruct (user_project_permissions db !! (u, p)) as [old|] eqn:Hold; cbn;
    [|done].
  apply references_after_insert; [done|]. by apply (Href (u, p) old).
Qed.

(** An engine that enforces the foreign keys keeps the invariant for every
    grant it takes; without them [create_user_project_permission] keeps it
    for a project that exists. *)
Lemma create_permission_keeps_references (fk : bool) (clock : Z)
    (db : Tables) (b : UserProjectPermissionCreate.t) :
  fk = true
  ∨ is_Some (projects db !! UserProjectPermissionCreate.project_id b) →
  grants_reference_projects db →
  grants_reference_projects
    (get_db fk clock (crud.create_user_project_permission b) db).2.
Proof.
  intros Hfk Href. unfold get_db. rewrite create_user_project_permission_run.
  destruct (insertable fk db _ _) eqn:Hins; cbn; [|done].
  apply references_after_insert; [done|]. cbn.
  destruct Hfk as [->|Hp]; [|done].
  unfold insertable in Hins. cbn in Hins.
  apply andb_true_iff in Hins as [_ Hins].
  apply negb_true_iff, negb_false_iff, andb_true_iff in Hins as [_ Hins].
  by apply bool_decide_eq_true in Hins.
Qed.

Lemma delete_project_keeps_references (fk : bool) (clock : Z) (db : Tables)
    (i : Z) :
  grants_reference_projects db →
  grants_reference_projects (get_db fk clock (crud.delete_project i) db).2.
Proof.
  intros Href. unfold get_db. rewrite delete_project_run.
  destruct (projects db !! i) as [c|] eqn:Hc; cbn; [|done].
  intros k g Hg. rewrite cascaded_permissions in Hg.
  destruct (decide (k.2 = i)) as [|Hne]; [done|].
  rewrite cascaded_projects, decide_False by done. by apply (Href k g).
Qed.

(** In a store that holds a grant on a project that is gone, the 404 of
    the endpoints is reachable: on [stale], user 1 holds 'admin' on
    project 1, which does not exist. *)
Example stale_grant_reaches_not_found :
  get_db false 5 (routes.delete_project_endpoint 1 1) scenario.stale
  = (Raise project_not_found, scenario.stale).
Proof. by vm_compute. Qed.

(** *** Grants *)

(** C3, amended. A caller who does not hold 'admin' on the project of the
    path is answered with 403 and the store is left as it was, whatever
    the body of the request. For a caller who does, and a body that names
    that same project, with the project and the user of the body in the
    store: when the user already holds a grant on the project the request
    is answered with 409 and the store is left as it was; when the user
    holds none the request succeeds and the store gains exactly the one
    grant of the body, at the level of the body. *)
Theorem grant_conflict_or_new (fk : bool) (clock : Z) (db : Tables) (i : Z)
    (b : UserProjectPermissionCreate.t) (a : Z) :
  let u := UserProjectPermissionCreate.user_id b in
  let g := granted clock (UserProjectPermissionCreate.permission_level b) in
  let out :=
    get_db fk clock (routes.add_project_permission_endpoint i b a) db in
  (grant_of db a i ≠ Some "admin" → out = (Raise forbidden_grant, db))
  ∧ (grant_of db a i = Some "admin" →
     UserProjectPermissionCreate.project_id b = i →
     is_Some (projects db !! i) →
     is_Some (users db !! u) →
     (is_Some (user_project_permissions db !! (u, i)) →
      out = (Raise conflict, db))
     ∧ (user_project_permissions db !! (u, i) = None →
        out = (Return (UserProjectPermission.Row u i g),
               set_permissions (insert (u, i) g) db))).
Proof.
  cbv zeta. unfold get_db. rewrite add_project_permission_endpoint_run.
  split.
  - destruct (grant_of db a i) as [level|]; [|done]. intros Hlevel.
    rewrite bool_decide_eq_true_2; [done|]. congruence.
  - intros -> Hb [c Hc] [us Hus].
    rewrite (bool_decide_eq_false_2 ("admin" ≠ "admin")) by (by intros ?).
    rewrite Hc, Hus.
    rewrite (bool_decide_eq_false_2 (Some c = None)) by done.
    rewrite (bool_decide_eq_false_2 (Some us = None)) by done.
    split.
    + intros Hg. by rewrite bool_decide_eq_true_2.
    + intros Hg.
      rewrite bool_decide_eq_false_2 by (rewrite Hg; by intros [? ?]).
      rewrite create_user_project_permission_run. rewrite Hb.
      unfold insertable. rewrite Hg, Hc, Hus.
      rewrite (bool_decide_eq_false_2 (is_Some None)) by (by intros [? ?]).
      rewrite !bool_decide_eq_true_2 by eauto.
      by destruct fk.
Qed.

(** The three answers on the store of the examples: bob (2), who is not
    'admin' on project 1, is refused, also with a body that names another
    project and a user that does not exist; alice (1), who is, meets the
    409 for bob's grant and adds a grant for carol (3). *)
Lemma grant_conflict_or_new_witness :
  get_db false 5
    (routes.add_project_permission_endpoint 1
       (UserProjectPermissionCreate.Body 9 99 "model_editor") 2) scenario.db0
  = (Raise forbidden_grant, scenario.db0)
  ∧ get_db false 5
      (routes.add_project_permission_endpoint 1
         (UserProjectPermissionCreate.Body 2 1 "model_editor") 1)
      scenario.db0
    = (Raise conflict, scenario.db0)
  ∧ get_db false 5
      (routes.add_project_permission_endpoint 1
         (UserProjectPermissionCreate.Body 3 1 "model_editor") 1)
      scenario.db0
    = (Return (UserProjectPermission.Row 3 1 (granted 5 "model_editor")),
       set_permissions (insert (3%Z, 1%Z) (granted 5 "model_editor"))
         scenario.db0).
Proof.
  split_and!.
  - apply (proj1 (grant_conflict_or_new false 5 scenario.db0 1
                    (UserProjectPermissionCreate.Body 9 99 "model_editor")
                    2)).
    vm_compute. discriminate.
  - apply (proj2 (grant_conflict_or_new false 5 scenario.db0 1
                    (UserProjectPermissionCreate.Body 2 1 "model_editor")
                    1)).
    + vm_compute. reflexivity.
    + reflexivity.
    + vm_compute. eexists. reflexivity.
    + vm_compute. eexists. reflexivity.
    + vm_compute. eexists. reflexivity.
  - apply (proj2 (grant_conflict_or_new false 5 scenario.db0 1
                    (UserProjectPermissionCreate.Body 3 1 "model_editor")
                    1)).
    + vm_compute. reflexivity.
    + reflexivity.
    + vm_compute. eexists. reflexivity.
    + vm_compute. eexists. reflexivity.
    + vm_compute. reflexivity.
Defined.

Example first_grant_succeeds :
  get_db false 5
    (routes.add_project_permission_endpoint 1
       (UserProjectPermissionCreate.Body 3 1 "model_editor") 1) scenario.db0
  = (Return (UserProjectPermission.Row 3 1 (granted 5 "model_editor")),
     set_permissions (insert (3%Z, 1%Z) (granted 5 "model_editor"))
       scenario.db0).
Proof. by vm_compute. Qed.

Example second_grant_conflicts :
  get_db false 5
    (routes.add_project_permission_endpoint 1
       (UserProjectPermissionCreate.Body 2 1 "model_editor") 1) scenario.db0
  = (Raise conflict, scenario.db0).
Proof. by vm_compute. Qed.

(** C3 as stated fails for a caller who is not 'admin' on the project:
    alice (1) holds a grant on project 1, and the second grant request for
    that pair, sent by bob (2), is answered with 403 and not with 409. *)
Lemma grant_by_non_admin_is_forbidden :
  is_Some (user_project_permissions scenario.db0 !! (1%Z, 1%Z))
  ∧ get_db false 5
      (routes.add_project_permission_endpoint 1
         (UserProjectPermissionCreate.Body 1 1 "admin") 2) scenario.db0
    = (Raise forbidden_grant, scenario.db0)
  ∧ forbidden_grant ≠ conflict.
Proof.
  split_and!.
  - vm_compute. eexists. reflexivity.
  - by vm_compute.
  - discriminate.
Qed.

(** The endpoint looks for an existing grant on the project of the path
    and inserts the grant of the body. When the two projects differ, a
    grant that exists on the body's pair is met by the primary key, not by
    the 409; and a store without foreign keys takes a grant on a project
    that does not exist. *)
Example grant_on_another_project_hits_the_key :
  is_Some (user_project_permissions scenario.db0 !! (3%Z, 2%Z))
  ∧ get_db false 5
      (routes.add_project_permission_endpoint 1
         (UserProjectPermissionCreate.Body 3 2 "admin") 1) scenario.db0
    = (Raise IntegrityError, scenario.db0).
Proof. split; [vm_compute; eexists; reflexivity | by vm_compute]. Qed.

Example grant_on_a_missing_project :
  grants_reference_projects scenario.db0
  ∧ ¬ grants_reference_projects
        (get_db false 5
           (routes.add_project_permission_endpoint 1
              (UserProjectPermissionCreate.Body 3 99 "admin") 1)
           scenario.db0).2.
Proof.
  split.
  - apply (bool_decide_unpack _). vm_compute. exact I.
  - intros H. apply (bool_decide_pack _) in H. vm_compute in H. exact H.
Qed.

(** C10. Creating a grant and changing its level store whatever string
    they are given: whether the INSERT is taken does not depend on the
    level, and the stored level is the string itself. The gates then
    compare the stored string: the update gate by membership in
    ['admin', 'model_editor'], the delete gate by equality with 'admin',
    and the listing shows it as it is. *)
Theorem permission_level_is_any_string (fk : bool) (clock : Z) (db : Tables)
    (s : string) :
  (∀ u p,
     get_db fk clock
       (crud.create_user_project_permission
          (UserProjectPermissionCreate.Body u p s)) db
     = if insertable fk db u p
       then (Return (UserProjectPermission.Row u p (granted clock s)),
             set_permissions (insert (u, p) (granted clock s)) db)
       else (Raise IntegrityError, db))
  ∧ (∀ u p old,
       user_project_permissions db !! (u, p) = Some old →
       ∃ c, get_db fk clock (crud.update_user_project_permission u p s) db
            = (Return (Some (UserProjectPermission.Row u p c)),
               set_permissions (insert (u, p) c) db)
         ∧ UserProjectPermission.permission_level c = s)
  ∧ (∀ u i,
       grant_of db u i = Some s →
       (∀ b, get_db fk clock (routes.update_project_endpoint i b u) db
             = (Raise forbidden_update, db)
             ↔ s ∉ ["admin"; "model_editor"])
       ∧ (get_db fk clock (routes.delete_project_endpoint i u) db
          = (Raise forbidden_delete, db)
          ↔ s ≠ "admin")
       ∧ (∀ c, projects db !! i = Some c →
            ∃ r, get_db fk clock (crud.get_user_projects u) db
                 = (Return r, db)
              ∧ listed (Project.Row i c) s ∈ r)).
Proof.
  split_and!.
  - intros u p. unfold get_db.
    rewrite create_user_project_permission_run. cbn.
    by destruct (insertable fk db u p).
  - intros u p old Hold. exists (releveled clock old s). split.
    + unfold get_db. by rewrite update_user_project_permission_run, Hold.
    + unfold releveled.
      destruct (bool_decide _) eqn:Hsame; [|done].
      by apply bool_decide_eq_true in Hsame.
  - intros u i Hs. split_and!.
    + intros b. unfold get_db. rewrite update_project_endpoint_run, Hs.
      destruct (bool_decide (s ∉ _)) eqn:Hgate.
      * apply bool_decide_eq_true in Hgate. done.
      * apply bool_decide_eq_false in Hgate.
        split; [|done]. by destruct (projects db !! i).
    + unfold get_db. rewrite delete_project_endpoint_run, Hs.
      destruct (bool_decide (s ≠ _)) eqn:Hgate.
      * apply bool_decide_eq_true in Hgate. done.
      * apply bool_decide_eq_false in Hgate.
        split; [|done]. by destruct (projects db !! i).
    + intros c Hc. exists (visible db u). split.
      { unfold get_db. by rewrite get_user_projects_run. }
      apply grant_of_Some in Hs as (g & Hg & <-).
      by apply granted_project_is_visible.
Qed.

Example sentinel_can_be_granted :
  get_db false 5
    (crud.create_user_project_permission
       (UserProjectPermissionCreate.Body 3 1 "public_access")) scenario.db0
  = (Return (UserProjectPermission.Row 3 1 (granted 5 "public_access")),
     set_permissions (insert (3%Z, 1%Z) (granted 5 "public_access"))
       scenario.db0).
Proof. by vm_compute. Qed.

(** * The rest of the interface *)

(** ** Deciding who is admin *)

Lemma without_admin_rows (db : Tables) (i : Z) :
  map_Forall (no_admin_row i) (user_project_permissions db)
  ↔ without_admin db i.
Proof.
  unfold without_admin, grant_of, no_admin_row. split.
  - intros Hrows u Hu. apply fmap_Some in Hu as (g & Hg & Hlevel).
    by apply (Hrows (u, i) g Hg).
  - intros Hno [u j] g Hg; cbn; intros -> Hlevel.
    apply (Hno u). by rewrite Hg, <- Hlevel.
Qed.

Lemma only_admin_rows (db : Tables) (i a : Z) :
  map_Forall (admin_row_of i a) (user_project_permissions db)
  ↔ only_admin db i a.
Proof.
  unfold only_admin, grant_of, admin_row_of. split.
  - intros Hrows u Hu. apply fmap_Some in Hu as (g & Hg & Hlevel).
    by apply (Hrows (u, i) g Hg).
  - intros Honly [u j] g Hg; cbn; intros -> Hlevel.
    apply Honly. by rewrite Hg, <- Hlevel.
Qed.

#[global] Instance without_admin_dec (db : Tables) (i : Z) :
  Decision (without_admin db i).
Proof.
  refine (cast_if (decide (map_Forall (no_admin_row i)
                             (user_project_permissions db))));
    abstract (by rewrite <- without_admin_rows).
Defined.

#[global] Instance only_admin_dec (db : Tables) (i a : Z) :
  Decision (only_admin db i a).
Proof.
  refine (cast_if (decide (map_Forall (admin_row_of i a)
                             (user_project_permissions db))));
    abstract (by rewrite <- only_admin_rows).
Defined.

(** ** What the remaining operations do to a fresh session *)

Lemma delete_user_project_permission_run (fk : bool) (clock : Z)
    (db : Tables) (u p : Z) :
  crud.delete_user_project_permission u p (session fk clock db)
  = match user_project_permissions db !! (u, p) with
    | Some c => (Return (Some (UserProjectPermission.Row u p c)),
                 session fk clock (set_permissions (delete (u, p)) db))
    | None => (Return None, session fk clock db)
    end.
Proof.
  unfold crud.delete_user_project_permission, query_UserProjectPermission,
    session. unfold_M. cbn. rewrite first_Permission.
  by destruct (user_project_permissions db !! (u, p)).
Qed.

Lemma remove_project_permission_endpoint_run (fk : bool) (clock : Z)
    (db : Tables) (i u a : Z) :
  routes.remove_project_permission_endpoint i u a (session fk clock db)
  = match grant_of db a i with
    | Some level =>
        if bool_decide (level ≠ "admin")
        then (Raise forbidden_grant, session fk clock db)
        else match user_project_permissions db !! (u, i) with
             | Some _ => (Return "User permission removed successfully",
                          session fk clock
                            (set_permissions (delete (u, i)) db))
             | None => (Raise permission_not_found, session fk clock db)
             end
    | None => (Raise forbidden_grant, session fk clock db)
    end.
Proof.
  unfold routes.remove_project_permission_endpoint,
    user_project_service.get_user_project_permission,
    user_project_service.delete_user_project_permission.
  unfold mbind at 1, M_bind, bind.
  rewrite get_user_project_permission_run. unfold grant_of. cbn [txn session].
  destruct (user_project_permissions db !! (a, i)) as [g|]; cbn; [|done].
  destruct (bool_decide (_ ≠ _)); [done|].
  unfold mbind, M_bind, bind. rewrite delete_user_project_permission_run.
  by destruct (user_project_permissions db !! (u, i)).
Qed.

Lemma update_project_permission_endpoint_run (fk : bool) (clock : Z)
    (db : Tables) (i u : Z) (b : UserProjectPermissionCreate.t) (a : Z) :
  routes.update_project_permission_endpoint i u b a (session fk clock db)
  = match grant_of db a i with
    | Some level =>
        if bool_decide (level ≠ "admin")
        then (Raise forbidden_grant, session fk clock db)
        else match user_project_permissions db !! (u, i) with
             | Some old =>
                 let c := releveled clock old
                            (UserProjectPermissionCreate.permission_level b) in
                 (Return (UserProjectPermission.Row u i c),
                  session fk clock (set_permissions (insert (u, i) c) db))
             | None => (Raise permission_not_found, session fk clock db)
             end
    | None => (Raise forbidden_grant, session fk clock db)
    end.
Proof.
  unfold routes.update_project_permission_endpoint,
    user_project_service.get_user_project_permission,
    user_project_service.update_user_project_permission.
  unfold mbind at 1, M_bind, bind.
  rewrite get_user_project_permission_run. unfold grant_of. cbn [txn session].
  destruct (user_project_permissions db !! (a, i)) as [g|]; cbn; [|done].
  destruct (bool_decide (_ ≠ _)); [done|].
  unfold mbind, M_bind, bind. rewrite update_user_project_permission_run.
  by destruct (user_project_permissions db !! (u, i)).
Qed.

Lemma read_project_endpoint_run (i : Z) (user_id : option Z) (s : Session) :
  routes.read_project_endpoint i user_id s
  = match projects (txn s) !! i with
    | None => (Raise project_not_found, s)
    | Some c =>
        if Project.is_public c then (Return (Project.Row i c), s)
        else match user_id with
             | Some u =>
                 if bool_decide (u = 0%Z)
                 then (Raise (HTTPException 403
                   "Project is private, user_id required for access check"), s)
                 else match user_project_permissions (txn s) !! (u, i) with
                      | Some _ => (Return (Project.Row i c), s)
                      | None => (Raise (HTTPException 403
                          "User does not have permission to view this project"),
                                 s)
                      end
             | None => (Raise (HTTPException 403
                 "Project is private, user_id required for access check"), s)
             end
    end.
Proof.
  unfold routes.read_project_endpoint, user_project_service.get_project,
    user_project_service.get_user_project_permission.
  unfold mbind at 1, M_bind, bind. rewrite get_project_run.
  destruct (projects (txn s) !! i) as [c|]; cbn; [|done].
  destruct (Project.is_public c); [done|].
  destruct user_id as [u|]; [|done].
  destruct (bool_decide (u = 0%Z)); [done|].
  unfold mbind, M_bind, bind. rewrite get_user_project_permission_run.
  by destruct (user_project_permissions (txn s) !! (u, i)).
Qed.

(** ** Grants: changing a level, revoking *)

Lemma set_permissions_delete_insert (db : Tables) (k : Z * Z)
    (g : UserProjectPermission.cols) :
  user_project_permissions db !! k = None →
  set_permissions (delete k) (set_permissions (insert k g) db) = db.
Proof.
  intros Hk. destruct db as [us ps gs]; unfold set_permissions; cbn in *.
  by rewrite delete_insert_id.
Qed.

Lemma grant_of_insert (db : Tables) (k : Z * Z)
    (g : UserProjectPermission.cols) (u i : Z) :
  grant_of (set_permissions (insert k g) db) u i
  = if decide (k = (u, i))
    then Some (UserProjectPermission.permission_level g)
    else grant_of db u i.
Proof.
  unfold grant_of; cbn. rewrite lookup_insert.
  by destruct (decide (k = (u, i))).
Qed.

Lemma grant_of_delete (db : Tables) (k : Z * Z) (u i : Z) :
  grant_of (set_permissions (delete k) db) u i
  = if decide (k = (u, i)) then None else grant_of db u i.
Proof.
  unfold grant_of; cbn. rewrite lookup_delete.
  by destruct (decide (k = (u, i))).
Qed.

(** X1. When an admin of a project removes the grant of a user on it, the
    request returns, the row is gone from the store and the lookup of that
    grant finds nothing; the same request sent again is refused, with 404
    for the grant of another user and with 403 when the admin removed
    their own. Removing a grant that does not exist answers 404 and
    leaves the store as it was. *)
Theorem revoke_then_lookup (fk : bool) (clock : Z) (db : Tables)
    (i u a : Z) :
  grant_of db a i = Some "admin" →
  let out :=
    get_db fk clock (routes.remove_project_permission_endpoint i u a) db in
  (is_Some (user_project_permissions db !! (u, i)) →
   out = (Return "User permission removed successfully",
          set_permissions (delete (u, i)) db)
   ∧ get_db fk clock (crud.get_user_project_permission u i) out.2
     = (Return None, out.2)
   ∧ get_db fk clock (routes.remove_project_permission_endpoint i u a) out.2
     = (Raise (if bool_decide (u = a) then forbidden_grant
               else permission_not_found), out.2))
  ∧ (user_project_permissions db !! (u, i) = None →
     out = (Raise permission_not_found, db)).
Proof.
  intros Ha. cbv zeta. unfold get_db.
  rewrite remove_project_permission_endpoint_run, Ha.
  rewrite (bool_decide_eq_false_2 ("admin" ≠ "admin")) by (by intros ?).
  split.
  - intros [g Hg]. rewrite Hg. cbn [fst snd stored session]. split_and!.
    + done.
    + rewrite get_user_project_permission_run. cbn.
      by rewrite lookup_delete_eq.
    + rewrite remove_project_permission_endpoint_run, grant_of_delete.
      destruct (decide ((u, i) = (a, i))) as [[= ->]|Hne].
      * by rewrite bool_decide_eq_true_2.
      * rewrite Ha.
        rewrite (bool_decide_eq_false_2 ("admin" ≠ "admin"))
          by (by intros ?).
        rewrite (bool_decide_eq_false_2 (u = a)) by congruence.
        cbn. by rewrite lookup_delete_eq.
  - by intros ->.
Qed.

Lemma revoke_then_lookup_witness :
  let out :=
    get_db false 5 (routes.remove_project_permission_endpoint 1 2 1)
      scenario.db0 in
  (is_Some (user_project_permissions scenario.db0 !! (2%Z, 1%Z)) →
   out = (Return "User permission removed successfully",
          set_permissions (delete (2%Z, 1%Z)) scenario.db0)
   ∧ get_db false 5 (crud.get_user_project_permission 2 1) out.2
     = (Return None, out.2)
   ∧ get_db false 5 (routes.remove_project_permission_endpoint 1 2 1) out.2
     = (Raise (if bool_decide (2 = 1)%Z then forbidden_grant
               else permission_not_found), out.2))
  ∧ (user_project_permissions scenario.db0 !! (2%Z, 1%Z) = None →
     out = (Raise permission_not_found, scenario.db0)).
Proof.
  apply (revoke_then_lookup false 5 scenario.db0 1 2 1).
  vm_compute. reflexivity.
Defined.

(** X2. For an admin of the project, changing the level of a grant that
    exists returns the row of the path's user and project with the new
    level and its old creation time, and the lookup finds that row
    afterwards; the identifiers in the body of the request are not read.
    For a grant that does not exist the answer is 404 and the store is as
    it was. *)
Theorem set_role_changes_one_level (fk : bool) (clock : Z) (db : Tables)
    (i u : Z) (b : UserProjectPermissionCreate.t) (a : Z) :
  grant_of db a i = Some "admin" →
  let level := UserProjectPermissionCreate.permission_level b in
  let out :=
    get_db fk clock (routes.update_project_permission_endpoint i u b a) db in
  (∀ old, user_project_permissions db !! (u, i) = Some old →
     ∃ c, out = (Return (UserProjectPermission.Row u i c),
                 set_permissions (insert (u, i) c) db)
       ∧ UserProjectPermission.permission_level c = level
       ∧ UserProjectPermission.created_at c
         = UserProjectPermission.created_at old
       ∧ get_db fk clock (crud.get_user_project_permission u i) out.2
         = (Return (Some (UserProjectPermission.Row u i c)), out.2))
  ∧ (user_project_permissions db !! (u, i) = None →
     out = (Raise permission_not_found, db)).
Proof.
  intros Ha. cbv zeta. unfold get_db.
  rewrite update_project_permission_endpoint_run, Ha.
  rewrite (bool_decide_eq_false_2 ("admin" ≠ "admin")) by (by intros ?).
  split.
  - intros old Hold. rewrite Hold.
    exists (releveled clock old
              (UserProjectPermissionCreate.permission_level b)).
    cbn [fst snd stored session]. split_and!.
    + done.
    + unfold releveled. destruct (bool_decide _) eqn:Hsame; [|done].
      by apply bool_decide_eq_true in Hsame.
    + unfold releveled. by destruct (bool_decide _).
    + rewrite get_user_project_permission_run. cbn.
      by rewrite lookup_insert_eq.
  - by intros ->.
Qed.

Lemma set_role_changes_one_level_witness :
  let b := UserProjectPermissionCreate.Body 7 8 "model_editor" in
  let out :=
    get_db false 5 (routes.update_project_permission_endpoint 1 2 b 1)
      scenario.db0 in
  (∀ old, user_project_permissions scenario.db0 !! (2%Z, 1%Z) = Some old →
     ∃ c, out = (Return (UserProjectPermission.Row 2 1 c),
                 set_permissions (insert (2%Z, 1%Z) c) scenario.db0)
       ∧ UserProjectPermission.permission_level c = "model_editor"
       ∧ UserProjectPermission.created_at c
         = UserProjectPermission.created_at old
       ∧ get_db false 5 (crud.get_user_project_permission 2 1) out.2
         = (Return (Some (UserProjectPermission.Row 2 1 c)), out.2))
  ∧ (user_project_permissions scenario.db0 !! (2%Z, 1%Z) = None →
     out = (Raise permission_not_found, scenario.db0)).
Proof.
  apply (set_role_changes_one_level false 5 scenario.db0 1 2
           (UserProjectPermissionCreate.Body 7 8 "model_editor") 1).
  vm_compute. reflexivity.
Defined.

Lemma add_permission_new (fk : bool) (clock : Z) (db : Tables) (i : Z)
    (b : UserProjectPermissionCreate.t) (a : Z) :
  grant_of db a i = Some "admin" →
  UserProjectPermissionCreate.project_id b = i →
  is_Some (projects db !! i) →
  is_Some (users db !! UserProjectPermissionCreate.user_id b) →
  user_project_permissions db
    !! (UserProjectPermissionCreate.user_id b, i) = None →
  let u := UserProjectPermissionCreate.user_id b in
  let g := granted clock (UserProjectPermissionCreate.permission_level b) in
  get_db fk clock (routes.add_project_permission_endpoint i b a) db
  = (Return (UserProjectPermission.Row u i g),
     set_permissions (insert (u, i) g) db).
Proof.
  intros Ha Hb [c Hc] [us Hus] Hg. cbv zeta. unfold get_db.
  rewrite add_project_permission_endpoint_run, Ha.
  rewrite (bool_decide_eq_false_2 ("admin" ≠ "admin")) by (by intros ?).
  rewrite Hc, Hus, Hg.
  rewrite (bool_decide_eq_false_2 (Some c = None)) by done.
  rewrite (bool_decide_eq_false_2 (Some us = None)) by done.
  rewrite (bool_decide_eq_false_2 (is_Some None)) by (by intros [? ?]).
  rewrite create_user_project_permission_run, Hb.
  unfold insertable. rewrite Hg, Hc, Hus.
  rewrite (bool_decide_eq_false_2 (is_Some None)) by (by intros [? ?]).
  rewrite !bool_decide_eq_true_2 by eauto.
  by destruct fk.
Qed.

(** X3. A grant that an admin adds on their project, for a user of the
    store who held none on it, is in force afterwards with the level asked
    for; removing it again leaves the store exactly as it was before the
    grant. *)
Theorem grant_then_revoke_restores (fk : bool) (clock clock' : Z)
    (db : Tables) (i : Z) (b : UserProjectPermissionCreate.t) (a : Z) :
  grant_of db a i = Some "admin" →
  UserProjectPermissionCreate.project_id b = i →
  is_Some (projects db !! i) →
  is_Some (users db !! UserProjectPermissionCreate.user_id b) →
  user_project_permissions db
    !! (UserProjectPermissionCreate.user_id b, i) = None →
  let granted_db :=
    (get_db fk clock (routes.add_project_permission_endpoint i b a) db).2 in
  grant_of granted_db (UserProjectPermissionCreate.user_id b) i
  = Some (UserProjectPermissionCreate.permission_level b)
  ∧ get_db fk clock'
      (routes.remove_project_permission_endpoint i
         (UserProjectPermissionCreate.user_id b) a) granted_db
    = (Return "User permission removed successfully", db).
Proof.
  intros Ha Hb Hp Hu Hfree. cbv zeta.
  rewrite (add_permission_new fk clock db i b a Ha Hb Hp Hu Hfree).
  cbn [snd]. split.
  - rewrite grant_of_insert. by rewrite decide_True.
  - unfold get_db. rewrite remove_project_permission_endpoint_run.
    rewrite grant_of_insert, decide_False, Ha.
    + rewrite (bool_decide_eq_false_2 ("admin" ≠ "admin")) by (by intros ?).
      cbn. rewrite lookup_insert_eq. cbn.
      by rewrite set_permissions_delete_insert.
    + intros [= Heq]. apply grant_of_Some in Ha as (g & Hg & _).
      rewrite Heq in Hfree. congruence.
Qed.

Lemma grant_then_revoke_restores_witness :
  let b := UserProjectPermissionCreate.Body 3 1 "model_editor" in
  let granted_db :=
    (get_db false 5 (routes.add_project_permission_endpoint 1 b 1)
       scenario.db0).2 in
  grant_of granted_db 3 1 = Some "model_editor"
  ∧ get_db false 9 (routes.remove_project_permission_endpoint 1 3 1)
      granted_db
    = (Return "User permission removed successfully", scenario.db0).
Proof.
  apply (grant_then_revoke_restores false 5 9 scenario.db0 1
           (UserProjectPermissionCreate.Body 3 1 "model_editor") 1).
  - vm_compute. reflexivity.
  - reflexivity.
  - vm_compute. eexists. reflexivity.
  - vm_compute. eexists. reflexivity.
  - vm_compute. reflexivity.
Defined.

(** ** A project without an admin *)

(** X4. On a project on which no user holds 'admin', every request that
    names the project in its path and takes 'admin' on it (to delete it,
    or to add, change or remove a grant through its path) is refused with
    403 whoever sends it, and the store is left as it was. *)
Theorem admin_requests_are_refused_without_admin (fk : bool) (clock : Z)
    (db : Tables) (i : Z) :
  without_admin db i →
  ∀ (caller u : Z) (b : UserProjectPermissionCreate.t),
    get_db fk clock (routes.delete_project_endpoint i caller) db
    = (Raise forbidden_delete, db)
    ∧ get_db fk clock (routes.add_project_permission_endpoint i b caller) db
      = (Raise forbidden_grant, db)
    ∧ get_db fk clock
        (routes.update_project_permission_endpoint i u b caller) db
      = (Raise forbidden_grant, db)
    ∧ get_db fk clock
        (routes.remove_project_permission_endpoint i u caller) db
      = (Raise forbidden_grant, db).
Proof.
  intros Hno caller u b. specialize (Hno caller). unfold get_db.
  rewrite delete_project_endpoint_run, add_project_permission_endpoint_run,
    update_project_permission_endpoint_run,
    remove_project_permission_endpoint_run.
  destruct (grant_of db caller i) as [level|]; [|done].
  rewrite bool_decide_eq_true_2 by congruence. done.
Qed.

(** This is about the path of the project itself. A request to add a
    grant writes the pair of its body: with alice's grant removed,
    nobody holds 'admin' on project 1, and bob (2), admin of project 2,
    makes alice admin of project 1 again through the path of project 2. *)
Example grant_through_another_path_reaches_it :
  let db := set_permissions (delete (1%Z, 1%Z)) scenario.db0 in
  let out :=
    get_db false 5
      (routes.add_project_permission_endpoint 2
         (UserProjectPermissionCreate.Body 1 1 "admin") 2) db in
  without_admin db 1
  ∧ (∃ q, out.1 = Return q)
  ∧ grant_of out.2 1 1 = Some "admin".
Proof.
  cbv zeta. split_and!.
  - apply (bool_decide_unpack _). vm_compute. exact I.
  - vm_compute. eexists. reflexivity.
  - vm_compute. reflexivity.
Qed.

(** X5. The only admin of a project may remove their own grant, or lower
    it to any other level: the request returns, the projects are as they
    were, and no user holds 'admin' on the project afterwards. *)
Theorem sole_admin_can_leave (fk : bool) (clock : Z) (db : Tables)
    (i a : Z) :
  grant_of db a i = Some "admin" →
  only_admin db i a →
  let left :=
    get_db fk clock (routes.remove_project_permission_endpoint i a a) db in
  let demoted level :=
    get_db fk clock
      (routes.update_project_permission_endpoint i a
         (UserProjectPermissionCreate.Body a i level) a) db in
  (∃ r, left.1 = Return r)
  ∧ projects left.2 = projects db
  ∧ without_admin left.2 i
  ∧ ∀ level, level ≠ "admin" →
      (∃ r, (demoted level).1 = Return r)
      ∧ projects (demoted level).2 = projects db
      ∧ without_admin (demoted level).2 i.
Proof.
  intros Ha Hsole. cbv zeta.
  pose proof Ha as Hrow. apply grant_of_Some in Hrow as (g & Hg & Hlevel).
  unfold get_db.
  rewrite remove_project_permission_endpoint_run, Ha, Hg.
  rewrite (bool_decide_eq_false_2 ("admin" ≠ "admin")) by (by intros ?).
  cbn [fst snd stored session]. split_and!.
  - eauto.
  - done.
  - intros u. rewrite grant_of_delete.
    destruct (decide ((a, i) = (u, i))) as [|Hne]; [done|].
    intros Hu. apply Hsole in Hu. congruence.
  - intros level Hne.
    rewrite update_project_permission_endpoint_run, Ha, Hg.
    rewrite (bool_decide_eq_false_2 ("admin" ≠ "admin")) by (by intros ?).
    cbn [fst snd stored session]. split_and!.
    + eauto.
    + done.
    + intros u. rewrite grant_of_insert.
      destruct (decide ((a, i) = (u, i))) as [|Hne'].
      * unfold releveled. cbn.
        rewrite bool_decide_eq_false_2 by congruence. cbn. congruence.
      * intros Hu. apply Hsole in Hu. congruence.
Qed.

Lemma admin_requests_are_refused_without_admin_witness :
  let db := set_permissions (delete (1%Z, 1%Z)) scenario.db0 in
  let b := UserProjectPermissionCreate.Body 3 1 "admin" in
  get_db false 5 (routes.delete_project_endpoint 1 2) db
  = (Raise forbidden_delete, db)
  ∧ get_db false 5 (routes.add_project_permission_endpoint 1 b 2) db
    = (Raise forbidden_grant, db)
  ∧ get_db false 5 (routes.update_project_permission_endpoint 1 2 b 2) db
    = (Raise forbidden_grant, db)
  ∧ get_db false 5 (routes.remove_project_permission_endpoint 1 2 2) db
    = (Raise forbidden_grant, db).
Proof.
  apply (admin_requests_are_refused_without_admin false 5
           (set_permissions (delete (1%Z, 1%Z)) scenario.db0) 1).
  apply (bool_decide_unpack _). vm_compute. exact I.
Defined.

Lemma sole_admin_can_leave_witness :
  let left :=
    get_db false 5 (routes.remove_project_permission_endpoint 1 1 1)
      scenario.db0 in
  let demoted level :=
    get_db false 5
      (routes.update_project_permission_endpoint 1 1
         (UserProjectPermissionCreate.Body 1 1 level) 1) scenario.db0 in
  (∃ r, left.1 = Return r)
  ∧ projects left.2 = projects scenario.db0
  ∧ without_admin left.2 1
  ∧ ∀ level, level ≠ "admin" →
      (∃ r, (demoted level).1 = Return r)
      ∧ projects (demoted level).2 = projects scenario.db0
      ∧ without_admin (demoted level).2 1.
Proof.
  apply (sole_admin_can_leave false 5 scenario.db0 1 1).
  - vm_compute. reflexivity.
  - apply (bool_decide_unpack _). vm_compute. exact I.
Defined.

(** ** Users *)

Lemma first_User (db : Tables) (i : Z) :
  head (filter (λ u : User.t, User.id u = i) (rows_User db))
  = User.Row i <$> users db !! i.
Proof. apply (first_key mk_User User.id). done. Qed.

Lemma elem_of_rows_User (db : Tables) (u : User.t) :
  u ∈ rows_User db ↔ users db !! User.id u = Some (User.row u).
Proof.
  unfold rows_User.
  rewrite (elem_of_rows mk_User User.id) by done. destruct u as [i c].
  unfold mk_User; simpl. split.
  - by intros (v & Hv & [= <-]).
  - eauto.
Qed.

Lemma next_user_id_fresh (m : gmap Z User.cols) : m !! next_user_id m = None.
Proof.
  destruct (m !! next_user_id m) as [c|] eqn:Hc; [|done].
  apply elem_of_map_to_list in Hc.
  apply (list_elem_of_fmap_2 fst) in Hc. apply le_foldr_max in Hc.
  unfold next_user_id in Hc. simpl in Hc. lia.
Qed.

Lemma get_user_by_username_run (n : string) (s : Session) :
  crud.get_user_by_username n s
  = (Return (head (filter (λ u : User.t, User.username u = n)
                          (rows_User (txn s)))), s).
Proof. reflexivity. Qed.

Lemma username_taken (db : Tables) (n : string) :
  is_Some (head (filter (λ u : User.t, User.username u = n) (rows_User db)))
  ↔ Exists (λ u : User.t, User.username u = n) (rows_User db).
Proof.
  rewrite head_is_Some, Exists_exists. split.
  - intros Hne. destruct (filter _ _) as [|u l] eqn:Hf; [done|].
    assert (Hu : u ∈ filter (λ u : User.t, User.username u = n)
                            (rows_User db)) by (rewrite Hf; left).
    apply list_elem_of_filter in Hu as [Hn Hu]. eauto.
  - intros (u & Hu & Hn) Hnil.
    by apply (filter_nil_not_elem_of _ _ u Hnil).
Qed.

Lemma create_user_run (fk : bool) (clock : Z) (db : Tables)
    (b : UserCreate.t) :
  let c := User.Cols (UserCreate.username b) (UserCreate.email b)
             (Some clock) None in
  let i := next_user_id (users db) in
  crud.create_user b (session fk clock db)
  = if user_collides db (UserCreate.username b) (UserCreate.email b)
    then (Raise IntegrityError, session fk clock db)
    else (Return (User.Row i c), session fk clock (set_users (insert i c) db)).
Proof.
  unfold crud.create_user, add_flush_User, commit, flush, session.
  unfold_M. cbn.
  destruct (user_collides db _ _); cbn; [done|].
  unfold refresh_User; cbn. by rewrite lookup_insert_eq.
Qed.

Lemma create_user_endpoint_run (fk : bool) (clock : Z) (db : Tables)
    (b : UserCreate.t) :
  routes.create_user_endpoint b (session fk clock db)
  = if bool_decide (Exists (λ u : User.t,
                              User.username u = UserCreate.username b)
                           (rows_User db))
    then (Raise (HTTPException 400 "Username already registered"),
          session fk clock db)
    else crud.create_user b (session fk clock db).
Proof.
  unfold routes.create_user_endpoint,
    user_project_service.get_user_by_username,
    user_project_service.create_user.
  unfold mbind at 1, M_bind, bind. rewrite get_user_by_username_run.
  cbn [txn session].
  destruct (head _) as [u|] eqn:Hhead.
  - rewrite bool_decide_eq_true_2; [done|].
    apply username_taken. rewrite Hhead. eauto.
  - rewrite bool_decide_eq_false_2; [done|].
    rewrite <- username_taken, Hhead. by intros [? ?].
Qed.

Lemma NoDup_rows_User (db : Tables) : NoDup (rows_User db).
Proof.
  apply (NoDup_fmap_1 User.id). unfold rows_User.
  apply (NoDup_key_rows mk_User User.id). done.
Qed.

Lemma only_element {A} (l : list A) (y : A) :
  NoDup l → (∀ x, x ∈ l ↔ x = y) → l = [y].
Proof.
  intros Hnd Hy. destruct l as [|x l].
  - pose proof (proj2 (Hy y) eq_refl) as Hin. by apply elem_of_nil in Hin.
  - assert (x = y) as -> by (apply Hy; left).
    destruct l as [|z l]; [done|].
    assert (z = y) as -> by (apply Hy; right; left).
    apply NoDup_cons in Hnd as [Hnd _]. destruct Hnd. left.
Qed.

Lemma elem_of_rows_User_insert (db : Tables) (i : Z) (c : User.cols)
    (u : User.t) :
  users db !! i = None →
  u ∈ rows_User (set_users (insert i c) db)
  ↔ u = User.Row i c ∨ u ∈ rows_User db.
Proof.
  intros Hi. rewrite !elem_of_rows_User. cbn. destruct u as [j d]; cbn.
  destruct (decide (i = j)) as [<-|Hne].
  - rewrite lookup_insert_eq, Hi. split.
    + intros [= <-]. by left.
    + intros [[= <-]|?]; done.
  - rewrite lookup_insert_ne by done. split; [by right|].
    intros [[= ? ?]|?]; done.
Qed.

(** X6. Registering a user has three outcomes. A username that is in the
    table is refused with 400. A new username with an e-mail address that
    is in the table is refused by the unique index, with an
    [IntegrityError] the endpoint does not catch. In both cases the store
    is as it was. Otherwise the user is returned under an identifier the
    table did not hold, with the username and e-mail of the request, the
    time of the request as creation time and no update time, and is the
    one row added to the store. *)
Theorem registration_cases (fk : bool) (clock : Z) (db : Tables)
    (b : UserCreate.t) :
  let name_taken :=
    Exists (λ u : User.t, User.username u = UserCreate.username b)
           (rows_User db) in
  let email_taken :=
    ∃ e, UserCreate.email b = Some e
         ∧ Exists (λ u : User.t, User.email u = Some e) (rows_User db) in
  let out := get_db fk clock (routes.create_user_endpoint b) db in
  (name_taken →
   out = (Raise (HTTPException 400 "Username already registered"), db))
  ∧ (¬ name_taken → email_taken → out = (Raise IntegrityError, db))
  ∧ (¬ name_taken → ¬ email_taken →
     ∃ i, users db !! i = None
       ∧ out = (Return (User.Row i (User.Cols (UserCreate.username b)
                                      (UserCreate.email b) (Some clock) None)),
                set_users (insert i (User.Cols (UserCreate.username b)
                                      (UserCreate.email b) (Some clock) None))
                  db)).
Proof.
  cbv zeta. unfold get_db. rewrite create_user_endpoint_run. split_and!.
  - intros Hname. by rewrite bool_decide_eq_true_2.
  - intros Hname (e & He & Hemail).
    rewrite bool_decide_eq_false_2, create_user_run by done.
    unfold user_collides. rewrite He; cbn.
    rewrite (bool_decide_eq_true_2 _ Hemail). by rewrite orb_true_r.
  - intros Hname Hemail.
    rewrite bool_decide_eq_false_2, create_user_run by done.
    unfold user_collides. rewrite (bool_decide_eq_false_2 _ Hname).
    exists (next_user_id (users db)). split; [apply next_user_id_fresh|].
    destruct (UserCreate.email b) as [e|] eqn:He; cbn; [|done].
    rewrite bool_decide_eq_false_2; [done|]. intros Hex. apply Hemail. eauto.
Qed.

(** X7. A user that the registration returns has the username and e-mail
    of the request and an identifier the table did not hold; afterwards
    the user is found by that identifier and by that username, the
    endpoint that reads one user returns the same row, and registering
    the same body again is refused with 400. *)
Theorem registered_user_is_found (fk : bool) (clock clock' : Z)
    (db : Tables) (b : UserCreate.t) (u : User.t) :
  let out := get_db fk clock (routes.create_user_endpoint b) db in
  out.1 = Return u →
  User.username u = UserCreate.username b
  ∧ User.email u = UserCreate.email b
  ∧ users db !! User.id u = None
  ∧ get_db fk clock' (crud.get_user (User.id u)) out.2
    = (Return (Some u), out.2)
  ∧ get_db fk clock' (crud.get_user_by_username (UserCreate.username b))
      out.2
    = (Return (Some u), out.2)
  ∧ get_db fk clock' (routes.read_user_endpoint (User.id u)) out.2
    = (Return u, out.2)
  ∧ get_db fk clock' (routes.create_user_endpoint b) out.2
    = (Raise (HTTPException 400 "Username already registered"), out.2).
Proof.
  cbv zeta.
  set (i := next_user_id (users db)).
  set (c := User.Cols (UserCreate.username b) (UserCreate.email b)
              (Some clock) None).
  assert (Hrun :
    get_db fk clock (routes.create_user_endpoint b) db
    = if bool_decide (Exists (λ u : User.t,
                                User.username u = UserCreate.username b)
                             (rows_User db))
      then (Raise (HTTPException 400 "Username already registered"), db)
      else if user_collides db (UserCreate.username b) (UserCreate.email b)
      then (Raise IntegrityError, db)
      else (Return (User.Row i c), set_users (insert i c) db)).
  { unfold get_db. rewrite create_user_endpoint_run.
    destruct (bool_decide (Exists _ _)); [done|].
    rewrite create_user_run. by destruct (user_collides db _ _). }
  rewrite Hrun. clear Hrun.
  destruct (bool_decide (Exists _ _)) eqn:Hname; [done|].
  apply bool_decide_eq_false in Hname.
  destruct (user_collides db _ _); [done|].
  cbn [fst snd]. intros [= <-]. cbn [User.id User.row].
  assert (Hi : users db !! i = None) by apply next_user_id_fresh.
  assert (Hfound :
    head (filter (λ u : User.t, User.username u = UserCreate.username b)
                 (rows_User (set_users (insert i c) db)))
    = Some (User.Row i c)).
  { rewrite (only_element _ (User.Row i c)); [done| |].
    - apply NoDup_filter, NoDup_rows_User.
    - intros x. rewrite list_elem_of_filter, elem_of_rows_User_insert by done.
      split.
      + intros [Hx [->|Hin]]; [done|].
        destruct Hname. apply Exists_exists. eauto.
      + intros ->. split; [done|by left]. }
  split_and!; try done.
  - unfold get_db. rewrite get_user_run. cbn. by rewrite lookup_insert_eq.
  - unfold get_db. rewrite get_user_by_username_run. cbn [txn session].
    by rewrite Hfound.
  - unfold get_db, routes.read_user_endpoint, user_project_service.get_user.
    unfold mbind, M_bind, bind. rewrite get_user_run. cbn.
    by rewrite lookup_insert_eq.
  - unfold get_db. rewrite create_user_endpoint_run.
    rewrite bool_decide_eq_true_2; [done|].
    apply username_taken. rewrite Hfound. eauto.
Qed.

Lemma registered_user_is_found_witness :
  let b := UserCreate.Body "dave" (Some "dave@example.com") in
  let u := User.Row 4 (User.Cols "dave" (Some "dave@example.com")
                         (Some 5%Z) None) in
  let out := get_db false 5 (routes.create_user_endpoint b) scenario.db0 in
  User.username u = UserCreate.username b
  ∧ User.email u = UserCreate.email b
  ∧ users scenario.db0 !! User.id u = None
  ∧ get_db false 9 (crud.get_user (User.id u)) out.2
    = (Return (Some u), out.2)
  ∧ get_db false 9 (crud.get_user_by_username (UserCreate.username b)) out.2
    = (Return (Some u), out.2)
  ∧ get_db false 9 (routes.read_user_endpoint (User.id u)) out.2
    = (Return u, out.2)
  ∧ get_db false 9 (routes.create_user_endpoint b) out.2
    = (Raise (HTTPException 400 "Username already registered"), out.2).
Proof.
  apply (registered_user_is_found false 5 9 scenario.db0
           (UserCreate.Body "dave" (Some "dave@example.com"))
           (User.Row 4 (User.Cols "dave" (Some "dave@example.com")
                          (Some 5%Z) None))).
  vm_compute. reflexivity.
Defined.

(** ** Pages *)

Lemma offset_limit_length {A} (skip limit : Z) (rows : list A) :
  (0 ≤ skip)%Z → (0 ≤ limit)%Z →
  length (offset_limit skip limit rows)
  = Z.to_nat limit `min` (length rows - Z.to_nat skip).
Proof.
  intros Hskip Hlimit. unfold offset_limit.
  rewrite bool_decide_eq_false_2 by lia.
  by rewrite length_take, length_drop.
Qed.

Lemma offset_limit_sublist {A} (skip limit : Z) (rows : list A) :
  offset_limit skip limit rows `sublist_of` rows.
Proof.
  unfold offset_limit. destruct (bool_decide _).
  - apply sublist_drop.
  - etrans; [apply sublist_take|apply sublist_drop].
Qed.

Lemma offset_limit_all {A} (limit : Z) (rows : list A) :
  (Z.of_nat (length rows) ≤ limit)%Z → offset_limit 0 limit rows = rows.
Proof.
  intros Hall. unfold offset_limit. rewrite bool_decide_eq_false_2 by lia.
  cbn. apply take_ge. lia.
Qed.

(** X8. For an offset and a limit that are not negative, [get_projects]
    and [get_users] return, of a table of n rows, min(limit, n - skip)
    rows (none where skip exceeds n): each is a row of the table, no
    identifier comes twice, and the store is as it was. *)
Theorem pages_are_bounded (fk : bool) (clock : Z) (db : Tables)
    (skip limit : Z) :
  (0 ≤ skip)%Z → (0 ≤ limit)%Z →
  (∃ r, get_db fk clock (crud.get_projects skip limit) db = (Return r, db)
     ∧ length r = Z.to_nat limit `min` (size (projects db) - Z.to_nat skip)
     ∧ NoDup (Project.id <$> r)
     ∧ ∀ p, p ∈ r → projects db !! Project.id p = Some (Project.row p))
  ∧ (∃ r, get_db fk clock (crud.get_users skip limit) db = (Return r, db)
       ∧ length r = Z.to_nat limit `min` (size (users db) - Z.to_nat skip)
       ∧ NoDup (User.id <$> r)
       ∧ ∀ u, u ∈ r → users db !! User.id u = Some (User.row u)).
Proof.
  intros Hskip Hlimit. split.
  - exists (offset_limit skip limit (rows_Project db)). split_and!.
    + done.
    + rewrite offset_limit_length by done. unfold rows_Project.
      by rewrite length_fmap, length_map_to_list.
    + eapply sublist_NoDup; [apply (NoDup_id_rows_Project db)|].
      apply fmap_sublist, offset_limit_sublist.
    + intros p Hp. apply elem_of_rows_Project.
      eapply elem_of_sublist; [done|apply offset_limit_sublist].
  - exists (offset_limit skip limit (rows_User db)). split_and!.
    + done.
    + rewrite offset_limit_length by done. unfold rows_User.
      by rewrite length_fmap, length_map_to_list.
    + eapply sublist_NoDup;
        [apply (NoDup_key_rows mk_User User.id); done|].
      apply fmap_sublist, offset_limit_sublist.
    + intros u Hu. apply elem_of_rows_User.
      eapply elem_of_sublist; [done|apply offset_limit_sublist].
Qed.

Lemma pages_are_bounded_witness :
  (∃ r, get_db false 5 (crud.get_projects 1 100) scenario.db0
        = (Return r, scenario.db0)
     ∧ length r
       = Z.to_nat 100 `min` (size (projects scenario.db0) - Z.to_nat 1)
     ∧ NoDup (Project.id <$> r)
     ∧ ∀ p, p ∈ r →
         projects scenario.db0 !! Project.id p = Some (Project.row p))
  ∧ (∃ r, get_db false 5 (crud.get_users 1 100) scenario.db0
          = (Return r, scenario.db0)
       ∧ length r
         = Z.to_nat 100 `min` (size (users scenario.db0) - Z.to_nat 1)
       ∧ NoDup (User.id <$> r)
       ∧ ∀ u, u ∈ r → users scenario.db0 !! User.id u = Some (User.row u)).
Proof.
  apply (pages_are_bounded false 5 scenario.db0 1 100); lia.
Defined.


(** ** Failure *)

(** X9. No request leaves a partial write. The four endpoints that read
    leave the store as it was whatever they answer; each of the seven that
    write either returns or leaves the store as it was. *)
Theorem failed_requests_write_nothing (fk : bool) (clock : Z) (db : Tables) :
  (∀ u, (get_db fk clock (routes.read_user_projects_endpoint u) db).2 = db)
  ∧ (∀ i user_id,
       (get_db fk clock (routes.read_project_endpoint i user_id) db).2 = db)
  ∧ (∀ skip limit,
       (get_db fk clock (routes.read_users_endpoint skip limit) db).2 = db)
  ∧ (∀ u, (get_db fk clock (routes.read_user_endpoint u) db).2 = db)
  ∧ (∀ b, no_write_on_error db
            (get_db fk clock (routes.create_user_endpoint b) db))
  ∧ (∀ b u, no_write_on_error db
              (get_db fk clock (routes.create_project_endpoint b u) db))
  ∧ (∀ i b u, no_write_on_error db
                (get_db fk clock (routes.update_project_endpoint i b u) db))
  ∧ (∀ i u, no_write_on_error db
              (get_db fk clock (routes.delete_project_endpoint i u) db))
  ∧ (∀ i b a,
       no_write_on_error db
         (get_db fk clock (routes.add_project_permission_endpoint i b a) db))
  ∧ (∀ i u b a,
       no_write_on_error db
         (get_db fk clock
            (routes.update_project_permission_endpoint i u b a) db))
  ∧ (∀ i u a,
       no_write_on_error db
         (get_db fk clock
            (routes.remove_project_permission_endpoint i u a) db)).
Proof.
  unfold no_write_on_error, get_db. split_and!.
  - intros u. rewrite read_user_projects_endpoint_run. cbn [txn session].
    by destruct (users db !! u).
  - intros i user_id. rewrite read_project_endpoint_run. cbn [txn session].
    destruct (projects db !! i) as [c|]; [|done].
    destruct (Project.is_public c); [done|].
    destruct user_id as [u|]; [|done].
    destruct (bool_decide (u = 0%Z)); [done|].
    by destruct (user_project_permissions db !! (u, i)).
  - done.
  - intros u. unfold routes.read_user_endpoint, user_project_service.get_user.
    unfold mbind, M_bind, bind. rewrite get_user_run. cbn [txn session].
    by destruct (users db !! u).
  - intros b. rewrite create_user_endpoint_run.
    destruct (bool_decide _); [by right|]. rewrite create_user_run.
    destruct (user_collides db _ _); [by right|]. left; eauto.
  - intros b u. rewrite create_project_endpoint_run.
    destruct (users db !! u); [|by right]. rewrite create_project_run.
    destruct (insertable fk _ u _); [left; eauto|by right].
  - intros i b u. rewrite update_project_endpoint_run.
    destruct (grant_of db u i); [|by right].
    destruct (bool_decide _); [by right|].
    destruct (projects db !! i); [left; eauto|by right].
  - intros i u. rewrite delete_project_endpoint_run.
    destruct (grant_of db u i); [|by right].
    destruct (bool_decide _); [by right|].
    destruct (projects db !! i); [left; eauto|by right].
  - intros i b a. rewrite add_project_permission_endpoint_run.
    destruct (grant_of db a i); [|by right].
    repeat (destruct (bool_decide _); [by right|]).
    rewrite create_user_project_permission_run.
    destruct (insertable fk db _ _); [left; eauto|by right].
  - intros i u b a. rewrite update_project_permission_endpoint_run.
    destruct (grant_of db a i); [|by right].
    destruct (bool_decide _); [by right|].
    destruct (user_project_permissions db !! (u, i)); [left; eauto|by right].
  - intros i u a. rewrite remove_project_permission_endpoint_run.
    destruct (grant_of db a i); [|by right].
    destruct (bool_decide _); [by right|].
    destruct (user_project_permissions db !! (u, i)); [left; eauto|by right].
Qed.

(** ** The gate of every write *)

Lemma not_not_admin (level : string) :
  bool_decide (level ≠ "admin") = false → level = "admin".
Proof. intros Hl. apply bool_decide_eq_false in Hl. by apply dec_stable. Qed.

(** X10. A request that changed the store passed the gate of its
    endpoint. Updating a project takes an 'admin' or 'model_editor' grant
    of the caller on it, deleting takes 'admin', and either changes
    something only for a project that exists; adding, changing or
    removing a grant takes an 'admin' grant of the caller on the project
    of the path. *)
Theorem writes_need_the_gate (fk : bool) (clock : Z) (db : Tables)
    (i a : Z) :
  (∀ b, (get_db fk clock (routes.update_project_endpoint i b a) db).2 ≠ db →
        (grant_of db a i = Some "admin"
         ∨ grant_of db a i = Some "model_editor")
        ∧ is_Some (projects db !! i))
  ∧ ((get_db fk clock (routes.delete_project_endpoint i a) db).2 ≠ db →
     grant_of db a i = Some "admin" ∧ is_Some (projects db !! i))
  ∧ (∀ b, (get_db fk clock
             (routes.add_project_permission_endpoint i b a) db).2 ≠ db →
          grant_of db a i = Some "admin")
  ∧ (∀ u b, (get_db fk clock
               (routes.update_project_permission_endpoint i u b a) db).2
            ≠ db →
            grant_of db a i = Some "admin")
  ∧ (∀ u, (get_db fk clock
             (routes.remove_project_permission_endpoint i u a) db).2 ≠ db →
          grant_of db a i = Some "admin").
Proof.
  unfold get_db. split_and!.
  - intros b. rewrite update_project_endpoint_run.
    destruct (grant_of db a i) as [level|]; [|done].
    destruct (bool_decide (level ∉ _)) eqn:Hl; [done|].
    destruct (projects db !! i); [|done]. intros _. split; [|eauto].
    apply bool_decide_eq_false in Hl. apply dec_stable in Hl.
    apply elem_of_cons in Hl as [->|Hl]; [by left|].
    apply list_elem_of_singleton in Hl as ->. by right.
  - rewrite delete_project_endpoint_run.
    destruct (grant_of db a i) as [level|]; [|done].
    destruct (bool_decide (level ≠ _)) eqn:Hl; [done|].
    destruct (projects db !! i); [|done]. intros _.
    apply not_not_admin in Hl as ->. eauto.
  - intros b. rewrite add_project_permission_endpoint_run.
    destruct (grant_of db a i) as [level|]; [|done].
    destruct (bool_decide (level ≠ _)) eqn:Hl; [done|]. intros _.
    by apply not_not_admin in Hl as ->.
  - intros u b. rewrite update_project_permission_endpoint_run.
    destruct (grant_of db a i) as [level|]; [|done].
    destruct (bool_decide (level ≠ _)) eqn:Hl; [done|]. intros _.
    by apply not_not_admin in Hl as ->.
  - intros u. rewrite remove_project_permission_endpoint_run.
    destruct (grant_of db a i) as [level|]; [|done].
    destruct (bool_decide (level ≠ _)) eqn:Hl; [done|]. intros _.
    by apply not_not_admin in Hl as ->.
Qed.

(** ** What a write leaves alone *)

(** X11. What a write leaves alone. Updating a project changes no user,
    no grant and no other project; deleting it changes no user, no other
    project and no grant on another project; changing or removing a grant
    changes nothing but the grant of the path's user on the path's
    project; adding a grant changes nothing but the grant of the body's
    user on the body's project; creating a project or a user changes no
    row that existed. *)
Theorem writes_touch_one_row (fk : bool) (clock : Z) (db : Tables) :
  (∀ i b u,
     let db' := (get_db fk clock (routes.update_project_endpoint i b u) db).2
     in users db' = users db
        ∧ user_project_permissions db' = user_project_permissions db
        ∧ ∀ j, j ≠ i → projects db' !! j = projects db !! j)
  ∧ (∀ i u,
       let db' := (get_db fk clock (routes.delete_project_endpoint i u) db).2
       in users db' = users db
          ∧ (∀ j, j ≠ i → projects db' !! j = projects db !! j)
          ∧ ∀ k, k.2 ≠ i →
                 user_project_permissions db' !! k
                 = user_project_permissions db !! k)
  ∧ (∀ i b a,
       let db' := (get_db fk clock
                     (routes.add_project_permission_endpoint i b a) db).2
       in users db' = users db ∧ projects db' = projects db
          ∧ ∀ k, k ≠ (UserProjectPermissionCreate.user_id b,
                      UserProjectPermissionCreate.project_id b) →
                 user_project_permissions db' !! k
                 = user_project_permissions db !! k)
  ∧ (∀ i u b a,
       let db' := (get_db fk clock
                     (routes.update_project_permission_endpoint i u b a)
                     db).2
       in users db' = users db ∧ projects db' = projects db
          ∧ ∀ k, k ≠ (u, i) →
                 user_project_permissions db' !! k
                 = user_project_permissions db !! k)
  ∧ (∀ i u a,
       let db' := (get_db fk clock
                     (routes.remove_project_permission_endpoint i u a) db).2
       in users db' = users db ∧ projects db' = projects db
          ∧ ∀ k, k ≠ (u, i) →
                 user_project_permissions db' !! k
                 = user_project_permissions db !! k)
  ∧ (∀ b u,
       let db' := (get_db fk clock (routes.create_project_endpoint b u) db).2
       in users db' = users db
          ∧ (∀ j, is_Some (projects db !! j) →
                  projects db' !! j = projects db !! j)
          ∧ ∀ k, is_Some (user_project_permissions db !! k) →
                 user_project_permissions db' !! k
                 = user_project_permissions db !! k)
  ∧ (∀ b,
       let db' := (get_db fk clock (routes.create_user_endpoint b) db).2
       in projects db' = projects db
          ∧ user_project_permissions db' = user_project_permissions db
          ∧ ∀ j, is_Some (users db !! j) → users db' !! j = users db !! j).
Proof.
  unfold get_db. split_and!.
  - intros i b u. cbv zeta. rewrite update_project_endpoint_run.
    destruct (grant_of db u i); [|done].
    destruct (bool_decide _); [done|].
    destruct (projects db !! i); [|done]. cbn. split_and!; [done..|].
    intros j Hj. by rewrite lookup_insert_ne.
  - intros i u. cbv zeta. rewrite delete_project_endpoint_run.
    destruct (grant_of db u i); [|done].
    destruct (bool_decide _); [done|].
    destruct (projects db !! i); [|done]. cbn [snd stored session].
    split_and!; [done|..].
    + intros j Hj. rewrite cascaded_projects. by rewrite decide_False.
    + intros k Hk. rewrite cascaded_permissions. by rewrite decide_False.
  - intros i b a. cbv zeta. rewrite add_project_permission_endpoint_run.
    destruct (grant_of db a i); [|done].
    repeat (destruct (bool_decide _); [done|]).
    rewrite create_user_project_permission_run.
    destruct (insertable fk db _ _); [|done]. cbn. split_and!; [done..|].
    intros k Hk. by rewrite lookup_insert_ne.
  - intros i u b a. cbv zeta. rewrite update_project_permission_endpoint_run.
    destruct (grant_of db a i); [|done].
    destruct (bool_decide _); [done|].
    destruct (user_project_permissions db !! (u, i)); [|done]. cbn.
    split_and!; [done..|]. intros k Hk. by rewrite lookup_insert_ne.
  - intros i u a. cbv zeta. rewrite remove_project_permission_endpoint_run.
    destruct (grant_of db a i); [|done].
    destruct (bool_decide _); [done|].
    destruct (user_project_permissions db !! (u, i)); [|done]. cbn.
    split_and!; [done..|]. intros k Hk. by rewrite lookup_delete_ne.
  - intros b u. cbv zeta. rewrite create_project_endpoint_run.
    destruct (users db !! u); [|done]. rewrite create_project_run.
    destruct (insertable fk _ u _) eqn:Hins; [|done]. cbn.
    split_and!; [done|..].
    + intros j [c' Hc]. rewrite lookup_insert_ne; [done|].
      intros <-. by rewrite next_id_fresh in Hc.
    + intros k [g Hg]. rewrite lookup_insert_ne; [done|].
      intros <-. unfold insertable in Hins. cbn in Hins.
      rewrite Hg in Hins. by rewrite bool_decide_eq_true_2 in Hins by eauto.
  - intros b. cbv zeta. rewrite create_user_endpoint_run.
    destruct (bool_decide _); [done|]. rewrite create_user_run.
    destruct (user_collides db _ _); [done|]. cbn. split_and!; [done..|].
    intros j [c' Hc]. rewrite lookup_insert_ne; [done|].
    intros <-. by rewrite next_user_id_fresh in Hc.
Qed.

(** ** The project of a grant *)

(** X12. [add_project_permission_endpoint] checks its gate on the project
    of the path and writes the grant for the project of the body. So an
    admin of project i can give a user of the store, who holds nothing on
    i and nothing on j, any level on project j, whatever the admin holds
    on j; given 'admin', that user can then delete project j. *)
Theorem admin_of_one_project_grants_on_another (fk : bool)
    (clock clock' : Z) (db : Tables) (i j a u : Z) (level : string) :
  grant_of db a i = Some "admin" →
  is_Some (projects db !! i) →
  is_Some (projects db !! j) →
  is_Some (users db !! u) →
  grant_of db u i = None →
  grant_of db u j = None →
  let b := UserProjectPermissionCreate.Body u j level in
  let g := granted clock level in
  let out := get_db fk clock (routes.add_project_permission_endpoint i b a) db
  in out = (Return (UserProjectPermission.Row u j g),
            set_permissions (insert (u, j) g) db)
     ∧ grant_of out.2 u j = Some level
     ∧ grant_of out.2 u i = (if decide (i = j) then Some level else None)
     ∧ (level = "admin" →
        get_db fk clock' (routes.delete_project_endpoint j u) out.2
        = (Return "Project deleted successfully", cascaded j out.2)).
Proof.
  intros Ha [c Hc] [d Hd] [us Hus] Hui Huj. cbv zeta.
  apply grant_of_None in Hui, Huj.
  assert (Hrun : get_db fk clock
                   (routes.add_project_permission_endpoint i
                      (UserProjectPermissionCreate.Body u j level) a) db
                 = (Return (UserProjectPermission.Row u j
                              (granted clock level)),
                    set_permissions (insert (u, j) (granted clock level))
                      db)).
  { unfold get_db. rewrite add_project_permission_endpoint_run, Ha. cbn.
    rewrite (bool_decide_eq_false_2 ("admin" ≠ "admin")) by (by intros ?).
    rewrite Hc, Hus, Hui.
    rewrite (bool_decide_eq_false_2 (Some c = None)) by done.
    rewrite (bool_decide_eq_false_2 (Some us = None)) by done.
    rewrite (bool_decide_eq_false_2 (is_Some None)) by (by intros [? ?]).
    rewrite create_user_project_permission_run. cbn.
    unfold insertable. rewrite Huj, Hd, Hus.
    rewrite (bool_decide_eq_false_2 (is_Some None)) by (by intros [? ?]).
    rewrite !bool_decide_eq_true_2 by eauto.
    by destruct fk. }
  rewrite Hrun. cbn [snd]. split_and!.
  - done.
  - rewrite grant_of_insert. by rewrite decide_True.
  - rewrite grant_of_insert. cbn. destruct (decide (i = j)) as [->|Hne].
    + by rewrite decide_True.
    + rewrite decide_False by congruence. by apply grant_of_None.
  - intros ->. unfold get_db. rewrite delete_project_endpoint_run.
    rewrite grant_of_insert, decide_True by done. cbn.
    rewrite (bool_decide_eq_false_2 ("admin" ≠ "admin")) by (by intros ?).
    by rewrite Hd.
Qed.

Lemma admin_of_one_project_grants_on_another_witness :
  let db := set_users (insert 4%Z (scenario.user "dave")) scenario.db0 in
  let b := UserProjectPermissionCreate.Body 4 2 "admin" in
  let g := granted 5 "admin" in
  let out := get_db false 5 (routes.add_project_permission_endpoint 1 b 1) db
  in out = (Return (UserProjectPermission.Row 4 2 g),
            set_permissions (insert (4%Z, 2%Z) g) db)
     ∧ grant_of out.2 4 2 = Some "admin"
     ∧ grant_of out.2 4 1 = (if decide (1%Z = 2%Z) then Some "admin" else None)
     ∧ ("admin" = "admin" →
        get_db false 9 (routes.delete_project_endpoint 2 4) out.2
        = (Return "Project deleted successfully", cascaded 2 out.2)).
Proof.
  apply (admin_of_one_project_grants_on_another false 5 9
           (set_users (insert 4%Z (scenario.user "dave")) scenario.db0)
           1 2 1 4 "admin").
  - vm_compute. reflexivity.
  - vm_compute. eexists. reflexivity.
  - vm_compute. eexists. reflexivity.
  - vm_compute. eexists. reflexivity.
  - vm_compute. reflexivity.
  - vm_compute. reflexivity.
Defined.

(** ** Reading one project *)

(** X13. Reading one project returns it exactly when it exists and either
    is public or the request names a user other than 0 who holds a grant
    of any level on it. It answers 'Project not found' exactly when the
    project does not exist, whoever asks, and every refusal is a 404 or a
    403. *)
Theorem private_project_needs_a_grant (fk : bool) (clock : Z) (db : Tables)
    (i : Z) (user_id : option Z) :
  let out := get_db fk clock (routes.read_project_endpoint i user_id) db in
  (∀ p, out = (Return p, db)
        ↔ Project.id p = i
          ∧ projects db !! i = Some (Project.row p)
          ∧ (Project.is_public p = true
             ∨ ∃ u, user_id = Some u ∧ u ≠ 0%Z
                    ∧ is_Some (grant_of db u i)))
  ∧ (projects db !! i = None ↔ out = (Raise project_not_found, db))
  ∧ ((∃ a, out.1 = Return a) ∨ (∃ d, out.1 = Raise (HTTPException 404 d))
     ∨ ∃ d, out.1 = Raise (HTTPException 403 d)).
Proof.
  cbv zeta. unfold get_db. rewrite read_project_endpoint_run.
  cbn [txn session stored]. unfold grant_of.
  destruct (projects db !! i) as [c|] eqn:Hc.
  - destruct (Project.is_public c) eqn:Hpub.
    { split_and!; [|done|left; eauto].
      intros [j d]; cbn. split.
      - intros [= <- <-]. eauto.
      - intros (-> & [= <-] & _). done. }
    destruct user_id as [u|].
    2:{ split_and!; [|done|right; right; eauto].
        intros [j d]; cbn. split; [done|].
        intros (-> & [= <-] & [?|(u & ? & _)]); congruence. }
    destruct (bool_decide (u = 0%Z)) eqn:Hu.
    { apply bool_decide_eq_true in Hu.
      split_and!; [|done|right; right; eauto].
      intros [j d]; cbn. split; [done|].
      intros (-> & [= <-] & [?|(u' & [= <-] & ? & _)]); congruence. }
    apply bool_decide_eq_false in Hu.
    destruct (user_project_permissions db !! (u, i)) as [g|] eqn:Hg.
    + split_and!; [|done|left; eauto].
      intros [j d]; cbn. split.
      * intros [= <- <-]. split_and!; [done..|]. right. exists u.
        rewrite Hg. cbn. eauto.
      * intros (-> & [= <-] & _). done.
    + split_and!; [|done|right; right; eauto].
      intros [j d]; cbn. split; [done|].
      intros (-> & [= <-] & [?|(u' & [= <-] & _ & Hsome)]); [congruence|].
      rewrite Hg in Hsome. by destruct Hsome.
  - split_and!; [|done|right; left; eauto].
    intros p. split; [done|]. by intros (_ & ? & _).
Qed.

(** X14. For a user of the store with an identifier other than 0, the
    listing of the user's projects names exactly the projects that the
    endpoint of a single project lets this user read. *)
Theorem listed_iff_readable (fk : bool) (clock : Z) (db : Tables) (u : Z) :
  is_Some (users db !! u) → u ≠ 0%Z →
  ∃ r, get_db fk clock (routes.read_user_projects_endpoint u) db
       = (Return r, db)
     ∧ ∀ i, i ∈ pd_id <$> r
            ↔ ∃ p, get_db fk clock (routes.read_project_endpoint i (Some u))
                     db = (Return p, db).
Proof.
  intros [us Hus] Hu. exists (visible db u). split.
  - unfold get_db. rewrite read_user_projects_endpoint_run. cbn [txn session].
    by rewrite Hus.
  - intros i. rewrite visible_ids, list_elem_of_fmap.
    unfold get_db. rewrite read_project_endpoint_run. cbn [txn session stored].
    rewrite bool_decide_eq_false_2 by done. split.
    + intros (p & -> & Hp). apply elem_of_app in Hp as [Hp|Hp].
      * apply elem_of_explicit_projects in Hp as [Hrow [level Hg]].
        rewrite Hrow. apply grant_of_Some in Hg as (g & -> & _).
        destruct (Project.is_public _); eauto.
      * apply elem_of_public_only_projects in Hp as (Hrow & Hpub & _).
        rewrite Hrow, Hpub. eauto.
    + destruct (projects db !! i) as [c|] eqn:Hc; [|by intros [? ?]].
      destruct (user_project_permissions db !! (u, i)) as [g|] eqn:Hg.
      * intros _. exists (Project.Row i c). split; [done|].
        apply elem_of_app. left. apply elem_of_explicit_projects. cbn.
        unfold grant_of. rewrite Hg. eauto.
      * destruct (Project.is_public c) eqn:Hpub; [|by intros [? ?]].
        intros _. exists (Project.Row i c). split; [done|].
        apply elem_of_app. right. apply elem_of_public_only_projects. cbn.
        split_and!; [done..|]. by apply grant_of_None.
Qed.

Lemma listed_iff_readable_witness :
  ∃ r, get_db false 5 (routes.read_user_projects_endpoint 3) scenario.db0
       = (Return r, scenario.db0)
     ∧ ∀ i, i ∈ pd_id <$> r
            ↔ ∃ p, get_db false 5 (routes.read_project_endpoint i (Some 3%Z))
                     scenario.db0 = (Return p, scenario.db0).
Proof.
  apply (listed_iff_readable false 5 scenario.db0 3).
  - vm_compute. eexists. reflexivity.
  - done.
Defined.

(** ** Creation on a consistent store *)

Lemma no_grant_on_a_missing_project (db : Tables) (i : Z) :
  grants_reference_projects db → projects db !! i = None →
  ∀ u, user_project_permissions db !! (u, i) = None.
Proof.
  intros Href Hi u.
  destruct (user_project_permissions db !! (u, i)) as [g|] eqn:Hg; [|done].
  apply Href in Hg. cbn in Hg. rewrite Hi in Hg. by destruct Hg.
Qed.

Lemma create_project_endpoint_new (fk : bool) (clock : Z) (db : Tables)
    (b : ProjectBase.t) (u : Z) :
  grants_reference_projects db → is_Some (users db !! u) →
  let i := next_id (projects db) in
  let c := bootstrapped clock b in
  get_db fk clock (routes.create_project_endpoint b u) db
  = (Return (Project.Row i c),
     set_permissions (insert (u, i) (granted clock "admin"))
       (set_projects (insert i c) db)).
Proof.
  intros Href [us Hus]. cbv zeta. unfold get_db.
  rewrite create_project_endpoint_run, Hus, create_project_run.
  unfold insertable. cbn [users projects user_project_permissions
    set_projects set_permissions].
  rewrite (no_grant_on_a_missing_project db _ Href (next_id_fresh _)).
  rewrite Hus, lookup_insert_eq.
  rewrite (bool_decide_eq_false_2 (is_Some None)) by (by intros [? ?]).
  rewrite !bool_decide_eq_true_2 by eauto.
  by destruct fk.
Qed.

(** X15. In a store whose grants all reference projects, creating a
    project for a user of the store always succeeds. The project gets an
    identifier the table did not hold, the name, description and
    visibility of the request, the time of the request as creation time,
    no update time and no image path, whatever image path the request
    carried; the creator is its only admin and finds it in their listing
    with level 'admin'; and the grants still all reference projects. *)
Theorem creation_succeeds (fk : bool) (clock : Z) (db : Tables)
    (b : ProjectBase.t) (u : Z) :
  grants_reference_projects db → is_Some (users db !! u) →
  let out := get_db fk clock (routes.create_project_endpoint b u) db in
  ∃ p, out.1 = Return p
     ∧ projects db !! Project.id p = None
     ∧ projects out.2 !! Project.id p = Some (Project.row p)
     ∧ Project.name p = ProjectBase.name b
     ∧ Project.description p = ProjectBase.get_description b
     ∧ Project.is_public p = ProjectBase.get_is_public b
     ∧ Project.image_path p = None
     ∧ Project.created_at p = Some clock
     ∧ Project.updated_at p = None
     ∧ grant_of out.2 u (Project.id p) = Some "admin"
     ∧ only_admin out.2 (Project.id p) u
     ∧ listed p "admin" ∈ visible out.2 u
     ∧ grants_reference_projects out.2.
Proof.
  intros Href Hus. cbv zeta.
  rewrite (create_project_endpoint_new fk clock db b u Href Hus).
  pose proof (next_id_fresh (projects db)) as Hfresh.
  set (i := next_id (projects db)) in *.
  exists (Project.Row i (bootstrapped clock b)). cbn [fst snd Project.id].
  split_and!; try done.
  - cbn. by rewrite lookup_insert_eq.
  - rewrite grant_of_insert. by rewrite decide_True.
  - intros v. rewrite grant_of_insert.
    destruct (decide ((u, i) = (v, i))) as [[= ->]|Hne]; [done|].
    unfold grant_of; cbn.
    by rewrite (no_grant_on_a_missing_project db i Href Hfresh v).
  - apply (granted_project_is_visible _ u i (bootstrapped clock b)
             (granted clock "admin")); cbn; by rewrite lookup_insert_eq.
  - apply references_after_insert.
    + by apply references_after_project.
    + cbn. rewrite lookup_insert_eq. eauto.
Qed.

Lemma creation_succeeds_witness :
  let b := ProjectBase.Body "Z" (Some (Some "scans")) (Some (Some "/tmp/z.png"))
             None in
  let out := get_db true 5 (routes.create_project_endpoint b 3) scenario.db0
  in ∃ p, out.1 = Return p
     ∧ projects scenario.db0 !! Project.id p = None
     ∧ projects out.2 !! Project.id p = Some (Project.row p)
     ∧ Project.name p = ProjectBase.name b
     ∧ Project.description p = ProjectBase.get_description b
     ∧ Project.is_public p = ProjectBase.get_is_public b
     ∧ Project.image_path p = None
     ∧ Project.created_at p = Some 5%Z
     ∧ Project.updated_at p = None
     ∧ grant_of out.2 3 (Project.id p) = Some "admin"
     ∧ only_admin out.2 (Project.id p) 3
     ∧ listed p "admin" ∈ visible out.2 3
     ∧ grants_reference_projects out.2.
Proof.
  apply (creation_succeeds true 5 scenario.db0
           (ProjectBase.Body "Z" (Some (Some "scans")) (Some (Some "/tmp/z.png"))
             None) 3).
  - apply (bool_decide_unpack _). vm_compute. exact I.
  - vm_compute. eexists. reflexivity.
Defined.

Lemma cascaded_new_project (db : Tables) (i u : Z) (c : Project.cols)
    (g : UserProjectPermission.cols) :
  grants_reference_projects db → projects db !! i = None →
  cascaded i (set_permissions (insert (u, i) g) (set_projects (insert i c) db))
  = db.
Proof.
  intros Href Hi. destruct db as [us ps gs]. unfold cascaded, set_projects,
    set_permissions; cbn in *. f_equal.
  - by apply delete_insert_id.
  - apply map_eq. intros k.
    destruct (decide (k.2 = i)) as [Hk|Hk].
    + rewrite (proj2 (map_lookup_filter_None _ _ _)).
      * symmetry. destruct k as [v j]; cbn in Hk; subst j.
        apply (no_grant_on_a_missing_project
                 {| users := us; projects := ps;
                    user_project_permissions := gs |} i Href Hi v).
      * right. intros g' _ Hne. by apply Hne.
    + assert (Hne : (u, i) ≠ k) by (intros <-; by apply Hk).
      destruct (gs !! k) as [g'|] eqn:Hg'.
      * apply map_lookup_filter_Some. by rewrite lookup_insert_ne.
      * apply map_lookup_filter_None. left. by rewrite lookup_insert_ne.
Qed.

(** X16. In a store whose grants all reference projects, the creator can
    delete the project just created, and the store is then exactly as it
    was before the creation. *)
Theorem create_then_delete_restores (fk : bool) (clock clock' : Z)
    (db : Tables) (b : ProjectBase.t) (u : Z) :
  grants_reference_projects db → is_Some (users db !! u) →
  let out := get_db fk clock (routes.create_project_endpoint b u) db in
  ∃ p, out.1 = Return p
     ∧ get_db fk clock' (routes.delete_project_endpoint (Project.id p) u)
         out.2
       = (Return "Project deleted successfully", db).
Proof.
  intros Href Hus. cbv zeta.
  rewrite (create_project_endpoint_new fk clock db b u Href Hus).
  pose proof (next_id_fresh (projects db)) as Hfresh.
  set (i := next_id (projects db)) in *.
  exists (Project.Row i (bootstrapped clock b)). split; [done|].
  cbn [fst snd Project.id]. unfold get_db.
  rewrite delete_project_endpoint_run.
  rewrite grant_of_insert, decide_True by done. cbn.
  rewrite (bool_decide_eq_false_2 ("admin" ≠ "admin")) by (by intros ?).
  rewrite lookup_insert_eq. cbn.
  by rewrite (cascaded_new_project db i u _ _ Href Hfresh).
Qed.

Lemma create_then_delete_restores_witness :
  let b := scenario.rename "Z" in
  let out := get_db true 5 (routes.create_project_endpoint b 3) scenario.db0
  in ∃ p, out.1 = Return p
     ∧ get_db true 9 (routes.delete_project_endpoint (Project.id p) 3) out.2
       = (Return "Project deleted successfully", scenario.db0).
Proof.
  apply (create_then_delete_restores true 5 9 scenario.db0
           (scenario.rename "Z") 3).
  - apply (bool_decide_unpack _). vm_compute. exact I.
  - vm_compute. eexists. reflexivity.
Defined.

(** ** Repeating an update *)

Lemma same_columns_stamped (clock : Z) (c : Project.cols)
    (b : ProjectBase.t) :
  let c' := stamped clock c (patched c b) in
  same_columns c' (patched c' b) = true.
Proof.
  cbv zeta. unfold stamped.
  destruct (same_columns c (patched c b)) eqn:Hsame; [done|].
  unfold same_columns. apply bool_decide_eq_true. cbn.
  destruct b as [n [d|] [ip|] [pub|]]; done.
Qed.

Lemma stamped_again (clock clock' : Z) (c : Project.cols)
    (b : ProjectBase.t) :
  let c' := stamped clock c (patched c b) in
  stamped clock' c' (patched c' b) = c'.
Proof.
  cbv zeta. unfold stamped at 1. by rewrite same_columns_stamped.
Qed.

(** X17. Sending the same update of a project a second time gives the
    answer of the first and changes nothing, not even [updated_at]:
    whether the first was refused, met no project, or wrote. *)
Theorem repeated_update_is_a_no_op (fk : bool) (clock clock' : Z)
    (db : Tables) (i : Z) (b : ProjectBase.t) (u : Z) :
  let out := get_db fk clock (routes.update_project_endpoint i b u) db in
  get_db fk clock' (routes.update_project_endpoint i b u) out.2 = out.
Proof.
  cbv zeta. unfold get_db.
  rewrite (update_project_endpoint_run fk clock db).
  destruct (grant_of db u i) as [level|] eqn:Hg;
    [|cbn; rewrite update_project_endpoint_run; by rewrite Hg].
  destruct (bool_decide (level ∉ _)) eqn:Hl;
    [cbn; rewrite update_project_endpoint_run; by rewrite Hg, Hl|].
  destruct (projects db !! i) as [c|] eqn:Hc;
    [|cbn; rewrite update_project_endpoint_run; by rewrite Hg, Hl, Hc].
  cbn [snd stored session]. rewrite update_project_endpoint_run.
  change (grant_of (set_projects _ db) u i) with (grant_of db u i).
  rewrite Hg, Hl. cbn [projects set_projects]. rewrite lookup_insert_eq.
  cbv zeta. rewrite stamped_again. cbn [stored session].
  f_equal. destruct db as [us ps gs]. unfold set_projects; cbn.
  by rewrite insert_insert_eq.
Qed.

(** ** Publishing *)

Lemma stamped_is_public (clock : Z) (c n : Project.cols) :
  Project.is_public (stamped clock c n) = Project.is_public n.
Proof.
  unfold stamped. destruct (same_columns c n) eqn:Hsame; [|done].
  apply bool_decide_eq_true in Hsame. tauto.
Qed.

Lemma listed_ids (db : Tables) (v i : Z) :
  i ∈ pd_id <$> visible db v
  ↔ ∃ c, projects db !! i = Some c
         ∧ (is_Some (grant_of db v i) ∨ Project.is_public c = true).
Proof.
  rewrite visible_ids, list_elem_of_fmap. split.
  - intros (p & -> & Hp). exists (Project.row p).
    apply elem_of_app in Hp as [Hp|Hp].
    + apply elem_of_explicit_projects in Hp as [Hrow Hg]. eauto.
    + apply elem_of_public_only_projects in Hp as (Hrow & Hpub & _). eauto.
  - intros (c & Hc & Hor). exists (Project.Row i c). split; [done|].
    apply elem_of_app.
    destruct (grant_of db v i) as [level|] eqn:Hg.
    + left. apply elem_of_explicit_projects. cbn. rewrite Hg. eauto.
    + right. apply elem_of_public_only_projects. cbn.
      destruct Hor as [[? [=]]|Hpub]. done.
Qed.

(** X18. When the update of an editor sets [is_public], the project
    returned carries the flag, and from then on the listing of any user
    names the project exactly when the flag is true or the user holds a
    grant on it. *)
Theorem publishing_decides_who_is_listed (fk : bool) (clock clock' : Z)
    (db : Tables) (i : Z) (b : ProjectBase.t) (u : Z) (pub : bool) :
  grant_of db u i = Some "admin" ∨ grant_of db u i = Some "model_editor" →
  is_Some (projects db !! i) →
  ProjectBase.is_public b = Some pub →
  let out := get_db fk clock (routes.update_project_endpoint i b u) db in
  (∃ p, out.1 = Return p ∧ Project.id p = i ∧ Project.is_public p = pub)
  ∧ ∀ v, ∃ r, get_db fk clock' (crud.get_user_projects v) out.2
              = (Return r, out.2)
            ∧ (i ∈ pd_id <$> r ↔ pub = true ∨ is_Some (grant_of db v i)).
Proof.
  intros Hu [c Hc] Hpub. cbv zeta. unfold get_db.
  rewrite update_project_endpoint_run.
  assert (Hgate : ∃ level, grant_of db u i = Some level
                           ∧ bool_decide (level ∉ ["admin"; "model_editor"])
                             = false).
  { destruct Hu as [Hu|Hu]; eexists; (split; [exact Hu|]);
      apply bool_decide_eq_false; intros Hnot; apply Hnot;
      repeat constructor. }
  destruct Hgate as (level & -> & ->). rewrite Hc. cbn [fst snd stored session].
  assert (Hp : Project.is_public (stamped clock c (patched c b)) = pub).
  { rewrite stamped_is_public. cbn. by rewrite Hpub. }
  split; [eauto|]. intros v. rewrite get_user_projects_run.
  cbn [txn session stored]. eexists. split; [done|].
  rewrite listed_ids. cbn [projects set_projects]. rewrite lookup_insert_eq.
  change (grant_of (set_projects _ db) v i) with (grant_of db v i). split.
  - intros (c' & [= <-] & [Hg|Hpub']); [by right|]. left. congruence.
  - intros [->|Hg]; eexists; (split; [done|]); eauto.
Qed.

Lemma publishing_decides_who_is_listed_witness :
  let b := ProjectBase.Body "X" None None (Some true) in
  let out := get_db false 5 (routes.update_project_endpoint 1 b 1)
               scenario.db0 in
  (∃ p, out.1 = Return p ∧ Project.id p = 1%Z ∧ Project.is_public p = true)
  ∧ ∀ v, ∃ r, get_db false 9 (crud.get_user_projects v) out.2
              = (Return r, out.2)
            ∧ (1%Z ∈ pd_id <$> r
               ↔ true = true ∨ is_Some (grant_of scenario.db0 v 1)).
Proof.
  apply (publishing_decides_who_is_listed false 5 9 scenario.db0 1
           (ProjectBase.Body "X" None None (Some true)) 1 true).
  - left. vm_compute. reflexivity.
  - vm_compute. eexists. reflexivity.
  - reflexivity.
Defined.

(** ** The references of the grants *)


Lemma references_after_delete (db : Tables) (k : Z * Z) :
  (grants_reference_users db →
   grants_reference_users (set_permissions (delete k) db))
  ∧ (grants_reference_projects db →
     grants_reference_projects (set_permissions (delete k) db)).
Proof.
  split; intros Href k' g' Hg'; cbn in *;
    apply lookup_delete_Some in Hg' as [_ Hg']; by apply (Href k' g').
Qed.

Lemma references_after_cascade (db : Tables) (i : Z) :
  (grants_reference_users db → grants_reference_users (cascaded i db))
  ∧ (grants_reference_projects db →
     grants_reference_projects (cascaded i db)).
Proof.
  split; intros Href k g Hg; rewrite cascaded_permissions in Hg;
    destruct (decide (k.2 = i)) as [|Hne]; try done.
  - by apply (Href k g).
  - rewrite cascaded_projects, decide_False by done. by apply (Href k g).
Qed.

Lemma insertable_references (db : Tables) (u p : Z) :
  insertable true db u p = true →
  is_Some (users db !! u) ∧ is_Some (projects db !! p).
Proof.
  unfold insertable. cbn. intros Hins.
  apply andb_true_iff in Hins as [_ Hins].
  apply negb_true_iff, negb_false_iff, andb_true_iff in Hins as [Hu Hp].
  by apply bool_decide_eq_true in Hu, Hp.
Qed.



(** *** Requests for a project that does not exist *)

Lemma serve_keeps_project_references (fk : bool) (clock : Z) (r : request)
    (db : Tables) :
  fk = true ∨ keeps_to_its_path r = true →
  grants_reference_projects db →
  grants_reference_projects (serve fk clock r db).
Proof.
  intros Hor Hps. destruct r as [b|skip limit|u|u|b u|i user_id|i b u|i u
    |i b a|i u b a|i u a]; unfold serve, get_db.
  - rewrite create_user_endpoint_run.
    destruct (bool_decide _); [done|]. rewrite create_user_run.
    by destruct (user_collides db _ _).
  - done.
  - unfold routes.read_user_endpoint, user_project_service.get_user.
    unfold mbind, M_bind, bind. rewrite get_user_run. cbn [txn session].
    by destruct (users db !! u).
  - rewrite read_user_projects_endpoint_run. cbn [txn session].
    by destruct (users db !! u).
  - rewrite create_project_endpoint_run.
    destruct (users db !! u); [|done]. rewrite create_project_run.
    destruct (insertable fk _ u _); [|done]. cbn [snd stored session].
    apply references_after_insert.
    + by apply references_after_project.
    + cbn. rewrite lookup_insert_eq. eauto.
  - rewrite read_project_endpoint_run. cbn [txn session].
    destruct (projects db !! i) as [c|]; [|done].
    destruct (Project.is_public c); [done|].
    destruct user_id as [u|]; [|done].
    destruct (bool_decide (u = 0%Z)); [done|].
    by destruct (user_project_permissions db !! (u, i)).
  - rewrite update_project_endpoint_run.
    destruct (grant_of db u i); [|done].
    destruct (bool_decide _); [done|].
    destruct (projects db !! i); [|done]. cbn [snd stored session].
    by apply references_after_project.
  - rewrite delete_project_endpoint_run.
    destruct (grant_of db u i); [|done].
    destruct (bool_decide _); [done|].
    destruct (projects db !! i); [|done]. cbn [snd stored session].
    by apply references_after_cascade.
  - rewrite add_project_permission_endpoint_run.
    destruct (grant_of db a i); [|done].
    destruct (projects db !! i) as [c|] eqn:Hp.
    2:{ rewrite (bool_decide_eq_true_2 (None = None)) by done.
        by repeat destruct (bool_decide _). }
    repeat (destruct (bool_decide _); [done|]).
    rewrite create_user_project_permission_run.
    destruct (insertable fk db _ _) eqn:Hins; [|done].
    cbn [snd stored session]. apply references_after_insert; [done|]. cbn.
    destruct Hor as [Hfk|Hb].
    + subst fk. by apply insertable_references in Hins as [_ ?].
    + cbn in Hb. apply bool_decide_eq_true in Hb. rewrite Hb, Hp. eauto.
  - rewrite update_project_permission_endpoint_run.
    destruct (grant_of db a i); [|done].
    destruct (bool_decide _); [done|].
    destruct (user_project_permissions db !! (u, i)) as [old|] eqn:Hold;
      [|done].
    cbn [snd stored session]. apply references_after_insert; [done|].
    by apply (Hps (u, i) old).
  - rewrite remove_project_permission_endpoint_run.
    destruct (grant_of db a i); [|done].
    destruct (bool_decide _); [done|].
    destruct (user_project_permissions db !! (u, i)); [|done].
    cbn [snd stored session]. by apply references_after_delete.
Qed.

Lemma serve_all_keeps_project_references (fk : bool)
    (requests : list (Z * request)) (db : Tables) :
  fk = true ∨ forallb (λ cr, keeps_to_its_path cr.2) requests = true →
  grants_reference_projects db →
  grants_reference_projects (serve_all fk requests db).
Proof.
  revert db. induction requests as [|[clock r] requests IH];
    intros db Hor Hps; [done|].
  cbn. apply IH.
  - destruct Hor as [?|Hall]; [by left|]. right.
    cbn in Hall. by apply andb_true_iff in Hall as [_ ?].
  - apply serve_keeps_project_references; [|done].
    destruct Hor as [?|Hall]; [by left|]. right.
    cbn in Hall. by apply andb_true_iff in Hall as [? _].
Qed.

(** C9, amended. Take a store whose grants all reference projects and
    send it any sequence of requests to the endpoints of
    [routes/projects.py], either with the foreign keys enforced or with
    every request to add a grant naming in its body the project of its
    path. In the store this leaves, a request to update or to delete a
    project that does not exist is refused with 403 whoever sends it, and
    the store is left as it was: the 404 of the two endpoints is not
    reached. *)
Theorem missing_project_is_forbidden (fk : bool) (clock : Z) (db : Tables)
    (requests : list (Z * request)) (i : Z) (b : ProjectBase.t) (u : Z) :
  grants_reference_projects db →
  fk = true ∨ forallb (λ cr, keeps_to_its_path cr.2) requests = true →
  let db' := serve_all fk requests db in
  projects db' !! i = None →
  get_db fk clock (routes.update_project_endpoint i b u) db'
  = (Raise forbidden_update, db')
  ∧ get_db fk clock (routes.delete_project_endpoint i u) db'
    = (Raise forbidden_delete, db').
Proof.
  intros Href Hor. cbv zeta.
  pose proof (serve_all_keeps_project_references fk requests db Hor Href)
    as Href'.
  set (db' := serve_all fk requests db) in *. intros Hi.
  assert (Hg : grant_of db' u i = None).
  { apply grant_of_None.
    destruct (user_project_permissions db' !! (u, i)) as [g|] eqn:Hg; [|done].
    apply Href' in Hg. cbn in Hg. rewrite Hi in Hg. by destruct Hg. }
  unfold get_db.
  by rewrite update_project_endpoint_run, delete_project_endpoint_run, Hg.
Qed.

(** On the store of the examples, without foreign keys: carol (3) creates
    a project, alice (1) gives carol a grant on project 1, and bob (2)
    deletes project 2. Bob, who was its admin, is then refused with 403
    on project 2, which is gone. *)
Lemma missing_project_is_forbidden_witness :
  let db' :=
    serve_all false
      [(5%Z, Create_project (scenario.rename "Z") 3);
       (6%Z, Add_permission 1
               (UserProjectPermissionCreate.Body 3 1 "model_editor") 1);
       (7%Z, Delete_project 2 2)]
      scenario.db0 in
  get_db false 9 (routes.update_project_endpoint 2 (scenario.rename "Y2") 2)
    db'
  = (Raise forbidden_update, db')
  ∧ get_db false 9 (routes.delete_project_endpoint 2 2) db'
    = (Raise forbidden_delete, db').
Proof.
  apply (missing_project_is_forbidden false 9 scenario.db0
           [(5%Z, Create_project (scenario.rename "Z") 3);
            (6%Z, Add_permission 1
                    (UserProjectPermissionCreate.Body 3 1 "model_editor") 1);
            (7%Z, Delete_project 2 2)]
           2 (scenario.rename "Y2") 2).
  - apply (bool_decide_unpack _). vm_compute. exact I.
  - right. vm_compute. reflexivity.
  - vm_compute. reflexivity.
Defined.

(** C9 as stated fails where the foreign keys are not enforced. The
    grants of the store of the examples all reference projects; alice
    (1), admin of project 1, adds through the path of project 1 a grant
    whose body names project 99, which does not exist, for carol (3).
    Carol's requests to delete and to update project 99 then pass the
    gate and are answered with 404. *)
Lemma missing_project_is_not_found :
  let db' :=
    serve_all false
      [(5%Z, Add_permission 1
               (UserProjectPermissionCreate.Body 3 99 "admin") 1)]
      scenario.db0 in
  grants_reference_projects scenario.db0
  ∧ projects db' !! 99%Z = None
  ∧ get_db false 9 (routes.delete_project_endpoint 99 3) db'
    = (Raise project_not_found, db')
  ∧ get_db false 9
      (routes.update_project_endpoint 99 (scenario.rename "Z") 3) db'
    = (Raise project_not_found, db')
  ∧ project_not_found ≠ forbidden_delete
  ∧ project_not_found ≠ forbidden_update.
Proof.
  cbv zeta. split_and!.
  - apply (bool_decide_unpack _). vm_compute. exact I.
  - vm_compute. reflexivity.
  - vm_compute. reflexivity.
  - vm_compute. reflexivity.
  - discriminate.
  - discriminate.
Qed.

(** ** The response models *)

(** X20. Whenever [create_user_endpoint], [create_project_endpoint] or
    [add_project_permission_endpoint] returns, the row it returns is in
    the store and has no [updated_at], so it does not validate against
    the response model of the endpoint, where [updated_at] is a required
    [datetime]. *)
Theorem fresh_rows_fail_the_response_model (fk : bool) (clock : Z)
    (db : Tables) :
  (∀ b u, (get_db fk clock (routes.create_user_endpoint b) db).1 = Return u →
          schemas.User.model_validate u = None
          ∧ users (get_db fk clock (routes.create_user_endpoint b) db).2
              !! User.id u = Some (User.row u))
  ∧ (∀ b u p,
       (get_db fk clock (routes.create_project_endpoint b u) db).1
       = Return p →
       schemas.Project.model_validate p = None
       ∧ projects (get_db fk clock (routes.create_project_endpoint b u) db).2
           !! Project.id p = Some (Project.row p))
  ∧ (∀ i b a q,
       (get_db fk clock (routes.add_project_permission_endpoint i b a) db).1
       = Return q →
       schemas.UserProjectPermission.model_validate q = None
       ∧ user_project_permissions
           (get_db fk clock (routes.add_project_permission_endpoint i b a)
              db).2
           !! UserProjectPermission.key q
         = Some (UserProjectPermission.row q)).
Proof.
  unfold get_db. split_and!.
  - intros b u. rewrite create_user_endpoint_run.
    destruct (bool_decide _); [done|]. rewrite create_user_run.
    destruct (user_collides db _ _); [done|]. cbn. intros [= <-]. cbn.
    by rewrite lookup_insert_eq.
  - intros b u p. rewrite create_project_endpoint_run.
    destruct (users db !! u); [|done]. rewrite create_project_run.
    destruct (insertable fk _ u _) eqn:Hins; [|done]. cbn. intros [= <-].
    cbn. split; [done|]. rewrite lookup_insert_eq. done.
  - intros i b a q. rewrite add_project_permission_endpoint_run.
    destruct (grant_of db a i); [|done].
    repeat (destruct (bool_decide _); [done|]).
    rewrite create_user_project_permission_run.
    destruct (insertable fk db _ _); [|done]. cbn. intros [= <-]. cbn.
    split; [done|]. unfold UserProjectPermission.key; cbn.
    by rewrite lookup_insert_eq.
Qed.



(** ** Uploads *)

Lemma unlink_if_exists_difference (path : string) (disk : gset string) :
  unlink_if_exists path disk = disk ∖ {[path]}.
Proof.
  unfold unlink_if_exists. destruct (bool_decide (path ∈ disk)) eqn:Hin;
    [done|].
  apply bool_decide_eq_false in Hin. symmetry. apply difference_disjoint_L.
  by apply disjoint_singleton_r.
Qed.

Lemma unlink_if_exists_twice (path : string) (disk : gset string) :
  unlink_if_exists path (unlink_if_exists path disk) = disk ∖ {[path]}.
Proof.
  rewrite !unlink_if_exists_difference. apply difference_disjoint_L.
  apply disjoint_singleton_r. apply not_elem_of_difference. right.
  by apply elem_of_singleton.
Qed.

Section uploads.
Context {UploadFile : Type}.
Variable save_uploaded_image :
  UploadFile → gset string → outcome string * gset string.
Variable str : exn → string.

Lemma upload_request_saved (fk : bool) (clock : Z) (file : UploadFile)
    (u : Z) (name : string) (description : option string) (public : bool)
    (disk disk1 : gset string) (db : Tables) (path : string) :
  save_uploaded_image file disk = (Return path, disk1) →
  upload_request save_uploaded_image str fk clock file u name description
    public disk db
  = match users db !! u with
    | None =>
        (Raise (HTTPException 500
                  ("Failed to create project: "
                   +:+ str (HTTPException 404 "User not found"))),
         disk1 ∖ {[path]}, db)
    | Some _ =>
        let b := ProjectBase.Body name (Some description) (Some (Some path))
                   (Some public) in
        let i := next_id (projects db) in
        let c := bootstrapped clock b in
        if insertable fk (set_projects (insert i c) db) u i
        then (Return {| message :=
                          "Image uploaded and project created successfully";
                        project_id := i;
                        image_path := path |},
              disk1,
              set_permissions (insert (u, i) (granted clock "admin"))
                (set_projects (insert i c) db))
        else (Raise (HTTPException 500
                       ("Failed to create project: " +:+ str IntegrityError)),
              disk1 ∖ {[path]}, db)
    end.
Proof.
  intros Hsave. unfold upload_request, upload_image_and_create_project.
  rewrite Hsave. unfold user_project_service.get_user,
    user_project_service.create_project. rewrite get_user_run.
  cbn [txn session].
  destruct (users db !! u) as [us|]; cbn [fmap option_fmap option_map].
  - rewrite create_project_run. cbv zeta.
    destruct (insertable fk _ u _); [done|].
    by rewrite unlink_if_exists_difference.
  - by rewrite unlink_if_exists_twice.
Qed.

End uploads.

(** X22. An upload for a user that does not exist, once the image is
    saved, is answered with 500 'Failed to create project: ...' and not
    with the 404 raised for it, which the handler of the surrounding
    [try] catches; the saved image is removed from the disk and the store
    is as it was. *)
Theorem upload_by_unknown_user {UploadFile : Type}
    (save_uploaded_image :
       UploadFile → gset string → outcome string * gset string)
    (str : exn → string) (fk : bool) (clock : Z) (file : UploadFile)
    (u : Z) (name : string) (description : option string) (public : bool)
    (disk disk1 : gset string) (db : Tables) (path : string) :
  save_uploaded_image file disk = (Return path, disk1) →
  users db !! u = None →
  upload_request save_uploaded_image str fk clock file u name description
    public disk db
  = (Raise (HTTPException 500
              ("Failed to create project: "
               +:+ str (HTTPException 404 "User not found"))),
     disk1 ∖ {[path]}, db).
Proof.
  intros Hsave Hu.
  rewrite (upload_request_saved _ _ _ _ _ _ _ _ _ _ _ _ _ Hsave).
  by rewrite Hu.
Qed.

Lemma upload_by_unknown_user_witness :
  upload_request upload_scenario.save upload_scenario.str false 5 "scan.png"
    9 "Z" None false ∅ scenario.db0
  = (Raise (HTTPException 500
              ("Failed to create project: "
               +:+ upload_scenario.str
                     (HTTPException 404 "User not found"))),
     ({["/uploads/scan.png"]} ∪ ∅) ∖ {["/uploads/scan.png"]}, scenario.db0).
Proof.
  apply (upload_by_unknown_user upload_scenario.save upload_scenario.str
           false 5 "scan.png" 9 "Z" None false ∅
           ({["/uploads/scan.png"]} ∪ ∅) scenario.db0 "/uploads/scan.png").
  - reflexivity.
  - vm_compute. reflexivity.
Defined.


(** X23. In a store whose grants all reference projects, an upload for a
    user of the store, once the image is saved, returns the identifier of
    a new project and the path of the image. The image stays on the disk
    and the user is admin of the project, but the row of the project has
    the name, description and visibility of the form and no image
    path. *)
Theorem upload_stores_no_image_path {UploadFile : Type}
    (save_uploaded_image :
       UploadFile → gset string → outcome string * gset string)
    (str : exn → string) (fk : bool) (clock : Z) (file : UploadFile)
    (u : Z) (name : string) (description : option string) (public : bool)
    (disk disk1 : gset string) (db : Tables) (path : string) :
  save_uploaded_image file disk = (Return path, disk1) →
  is_Some (users db !! u) →
  grants_reference_projects db →
  ∃ i db',
    upload_request save_uploaded_image str fk clock file u name description
      public disk db
    = (Return {| message := "Image uploaded and project created successfully";
                 project_id := i;
                 image_path := path |},
       disk1, db')
    ∧ projects db !! i = None
    ∧ projects db' !! i
      = Some (Project.Cols name description None public (Some clock) None)
    ∧ grant_of db' u i = Some "admin".
Proof.
  intros Hsave [us Hus] Href.
  rewrite (upload_request_saved _ _ _ _ _ _ _ _ _ _ _ _ _ Hsave).
  rewrite Hus. cbv zeta. pose proof (next_id_fresh (projects db)) as Hfresh.
  set (i := next_id (projects db)) in *.
  assert (Hins : insertable fk
                   (set_projects
                      (insert i (bootstrapped clock
                                   (ProjectBase.Body name (Some description)
                                      (Some (Some path)) (Some public)))) db)
                   u i = true).
  { unfold insertable. cbn [users projects user_project_permissions
      set_projects set_permissions].
    rewrite (no_grant_on_a_missing_project db i Href Hfresh).
    rewrite Hus, lookup_insert_eq.
    rewrite (bool_decide_eq_false_2 (is_Some None)) by (by intros [? ?]).
    rewrite !bool_decide_eq_true_2 by eauto. by destruct fk. }
  rewrite Hins. eexists i, _. split_and!; [done|done|..].
  - cbn. by rewrite lookup_insert_eq.
  - rewrite grant_of_insert. by rewrite decide_True.
Qed.

Lemma upload_stores_no_image_path_witness :
  ∃ i db',
    upload_request upload_scenario.save upload_scenario.str true 5 "scan.png"
      3 "Z" (Some "scans") true ∅ scenario.db0
    = (Return {| message := "Image uploaded and project created successfully";
                 project_id := i;
                 image_path := "/uploads/scan.png" |},
       {["/uploads/scan.png"]} ∪ ∅, db')
    ∧ projects scenario.db0 !! i = None
    ∧ projects db' !! i
      = Some (Project.Cols "Z" (Some "scans") None true (Some 5%Z) None)
    ∧ grant_of db' 3 i = Some "admin".
Proof.
  apply (upload_stores_no_image_path upload_scenario.save upload_scenario.str
           true 5 "scan.png" 3 "Z" (Some "scans") true ∅
           ({["/uploads/scan.png"]} ∪ ∅) scenario.db0 "/uploads/scan.png").
  - reflexivity.
  - vm_compute. eexists. reflexivity.
  - apply (bool_decide_unpack _). vm_compute. exact I.
Defined.


(** X24. An upload that fails raises an [HTTPException] and leaves the
    store as it was. Where the image had been saved, the status is 500
    and the path of the image is not on the disk afterwards; an
    [HTTPException] of the file handler is passed on as it is. *)
Theorem failed_upload_leaves_nothing {UploadFile : Type}
    (save_uploaded_image :
       UploadFile → gset string → outcome string * gset string)
    (str : exn → string) (fk : bool) (clock : Z) (file : UploadFile)
    (u : Z) (name : string) (description : option string) (public : bool)
    (disk : gset string) (db : Tables) (e : exn) :
  let out := upload_request save_uploaded_image str fk clock file u name
               description public disk db in
  out.1.1 = Raise e →
  (∃ status_code detail, e = HTTPException status_code detail)
  ∧ out.2 = db
  ∧ (∀ path disk1,
       save_uploaded_image file disk = (Return path, disk1) →
       out.1.2 = disk1 ∖ {[path]} ∧ ∃ detail, e = HTTPException 500 detail)
  ∧ (∀ status_code detail disk1,
       save_uploaded_image file disk
       = (Raise (HTTPException status_code detail), disk1) →
       e = HTTPException status_code detail ∧ out.1.2 = disk1).
Proof.
  cbv zeta.
  destruct (save_uploaded_image file disk) as [[path|e'] disk1] eqn:Hsave.
  - rewrite (upload_request_saved _ _ _ _ _ _ _ _ _ _ _ _ _ Hsave).
    destruct (users db !! u) as [us|].
    + cbv zeta. destruct (insertable fk _ u _); [done|].
      cbn. intros [= <-]. split_and!; [eauto|done| |done].
      intros ? ? [= <- <-]. eauto.
    + cbn. intros [= <-]. split_and!; [eauto|done| |done].
      intros ? ? [= <- <-]. eauto.
  - unfold upload_request, upload_image_and_create_project. rewrite Hsave.
    destruct e'; cbn; intros [= <-]; (split_and!; [eauto|done|done|]);
      try done.
    by intros ? ? ? [= <- <- <-].
Qed.

Lemma failed_upload_leaves_nothing_witness :
  let e := HTTPException 500 "Failed to create project: 404: User not found" in
  let out := upload_request upload_scenario.save upload_scenario.str false 5
               "scan.png" 9 "Z" None false ∅ scenario.db0 in
  (∃ status_code detail, e = HTTPException status_code detail)
  ∧ out.2 = scenario.db0
  ∧ (∀ path disk1,
       upload_scenario.save "scan.png" ∅ = (Return path, disk1) →
       out.1.2 = disk1 ∖ {[path]} ∧ ∃ detail, e = HTTPException 500 detail)
  ∧ (∀ status_code detail disk1,
       upload_scenario.save "scan.png" ∅
       = (Raise (HTTPException status_code detail), disk1) →
       e = HTTPException status_code detail ∧ out.1.2 = disk1).
Proof.
  apply (failed_upload_leaves_nothing upload_scenario.save
           upload_scenario.str false 5 "scan.png" 9 "Z" None false ∅
           scenario.db0
           (HTTPException 500 "Failed to create project: 404: User not found")).
  reflexivity.
Defined.

(** ** Examples of the rest of the interface *)

Example email_of_another_user_is_refused :
  let db :=
    (get_db false 5
       (routes.create_user_endpoint
          (UserCreate.Body "dave" (Some "dave@example.com")))
       scenario.db0).2 in
  get_db false 9
    (routes.create_user_endpoint
       (UserCreate.Body "erin" (Some "dave@example.com"))) db
  = (Raise IntegrityError, db).
Proof. by vm_compute. Qed.

Example users_without_email_do_not_collide :
  (get_db false 5 (routes.create_user_endpoint (UserCreate.Body "dave" None))
     scenario.db0).1
  = Return (User.Row 4 (User.Cols "dave" None (Some 5%Z) None)).
Proof. by vm_compute. Qed.

Example private_project_read_by_its_users :
  (get_db false 5 (routes.read_project_endpoint 1 (Some 2%Z)) scenario.db0).1
  = Return (Project.Row 1 (scenario.project "X" false))
  ∧ (get_db false 5 (routes.read_project_endpoint 1 (Some 3%Z))
       scenario.db0).1
    = Raise (HTTPException 403
               "User does not have permission to view this project")
  ∧ (get_db false 5 (routes.read_project_endpoint 1 None) scenario.db0).1
    = Raise (HTTPException 403
               "Project is private, user_id required for access check")
  ∧ (get_db false 5 (routes.read_project_endpoint 9 (Some 1%Z))
       scenario.db0).1
    = Raise project_not_found.
Proof. by vm_compute. Qed.

Example self_demotion_locks_the_project :
  let db :=
    (get_db false 5
       (routes.update_project_permission_endpoint 1 1
          (UserProjectPermissionCreate.Body 1 1 "model_editor") 1)
       scenario.db0).2 in
  grant_of db 1 1 = Some "model_editor"
  ∧ get_db false 9 (routes.delete_project_endpoint 1 1) db
    = (Raise forbidden_delete, db)
  ∧ get_db false 9
      (routes.update_project_permission_endpoint 1 1
         (UserProjectPermissionCreate.Body 1 1 "admin") 1) db
    = (Raise forbidden_grant, db).
Proof. by vm_compute. Qed.

Example new_project_fails_its_response_model :
  let out := get_db true 5
               (routes.create_project_endpoint (scenario.rename "Z") 3)
               scenario.db0 in
  out.1 = Return (Project.Row 3 (Project.Cols "Z" None None false
                                   (Some 5%Z) None))
  ∧ schemas.Project.model_validate
      (Project.Row 3 (Project.Cols "Z" None None false (Some 5%Z) None))
    = None
  ∧ is_Some (schemas.Project.model_validate
               (Project.Row 3 (Project.Cols "Z" None None false
                                 (Some 5%Z) (Some 9%Z)))).
Proof. vm_compute. split_and!; eauto. Qed.
